(** * terraform-provider-mongodb: lifecycle drivers of the database,
      collection and index resources, checked against their specification.

    The Go code is embedded shallowly.  Strings are byte strings
    ([String.string]); the remote store is reached only through the calls
    of the mongo driver, which are the events of a small free monad
    ([prog]); a run against a handler yields the response of the
    lifecycle operation together with the trace of the calls issued. *)

From Stdlib Require Import String Ascii List ZArith Lia Bool Arith.
From Stdlib Require Import Floats.SpecFloat.
From Stdlib Require Import DecimalString.
Import ListNotations.

Local Open Scope string_scope.
Local Open Scope list_scope.
Local Open Scope nat_scope.

Set Implicit Arguments.
Set Warnings "-register-all".

(* ------------------------------------------------------------------ *)
(** ** The part of Go's [strings] package the drivers use *)

Module Strings.

(** Length in bytes of the UTF-8 encoding of a white-space rune
    ([unicode.IsSpace]) at the head of the byte list, 0 when the head is
    no white space.  The runes are U+0009..U+000D, U+0020, U+0085,
    U+00A0, U+1680, U+2000..U+200A, U+2028, U+2029, U+202F, U+205F and
    U+3000. *)
Definition spaceAtHead (l : list nat) : nat :=
  match l with
  | b0 :: tl =>
      if ((9 <=? b0) && (b0 <=? 13)) || (b0 =? 32) then 1
      else
        match tl with
        | b1 :: tl' =>
            if (b0 =? 194) && ((b1 =? 133) || (b1 =? 160)) then 2
            else
              match tl' with
              | b2 :: _ =>
                  if (b0 =? 225) && (b1 =? 154) && (b2 =? 128) then 3
                  else if (b0 =? 226) && (b1 =? 128)
                          && (((128 <=? b2) && (b2 <=? 138))
                              || (b2 =? 168) || (b2 =? 169) || (b2 =? 175))
                  then 3
                  else if (b0 =? 226) && (b1 =? 129) && (b2 =? 159) then 3
                  else if (b0 =? 227) && (b1 =? 128) && (b2 =? 128) then 3
                  else 0
              | [] => 0
              end
        | [] => 0
        end
  | [] => 0
  end.

(** The same at the end of the string: the argument is the reversed byte
    list, so its head is the last byte ([utf8.DecodeLastRuneInString]
    finds the start byte of the last rune and accepts it only when its
    encoding ends exactly at the end). *)
Definition spaceAtEnd (r : list nat) : nat :=
  match r with
  | b0 :: tl =>
      if ((9 <=? b0) && (b0 <=? 13)) || (b0 =? 32) then 1
      else
        match tl with
        | b1 :: tl' =>
            if (b1 =? 194) && ((b0 =? 133) || (b0 =? 160)) then 2
            else
              match tl' with
              | b2 :: _ =>
                  if (b2 =? 225) && (b1 =? 154) && (b0 =? 128) then 3
                  else if (b2 =? 226) && (b1 =? 128)
                          && (((128 <=? b0) && (b0 <=? 138))
                              || (b0 =? 168) || (b0 =? 169) || (b0 =? 175))
                  then 3
                  else if (b2 =? 226) && (b1 =? 129) && (b0 =? 159) then 3
                  else if (b2 =? 227) && (b1 =? 128) && (b0 =? 128) then 3
                  else 0
              | [] => 0
              end
        | [] => 0
        end
  | [] => 0
  end.

(** Strip white-space runes found by [at_head] for as long as there are
    some; [fuel] bounds the number of runes, the length of the list is
    enough. *)
Fixpoint strip (at_head : list nat -> nat) (fuel : nat) (l : list nat)
  : list nat :=
  match fuel with
  | O => l
  | S fuel' =>
      match at_head l with
      | O => l
      | n => strip at_head fuel' (skipn n l)
      end
  end.

Definition bytes (s : string) : list nat :=
  map nat_of_ascii (list_ascii_of_string s).

Definition of_bytes (l : list nat) : string :=
  string_of_list_ascii (map ascii_of_nat l).

(** [strings.TrimSpace]: all leading and trailing white space removed,
    as defined by Unicode. *)
Definition TrimSpace (s : string) : string :=
  let l := bytes s in
  let l1 := strip spaceAtHead (List.length l) l in
  let r := rev l1 in
  of_bytes (rev (strip spaceAtEnd (List.length r) r)).

(** [strings.IndexByte]-style search used by [SplitN] for the one-byte
    separator: the prefix before the first [sep] and the rest after it,
    [None] when [sep] does not occur. *)
Fixpoint cut (sep : ascii) (s : string) : option (string * string) :=
  match s with
  | EmptyString => None
  | String c rest =>
      if Ascii.eqb c sep then Some (EmptyString, rest)
      else
        match cut sep rest with
        | Some (before, after) => Some (String c before, after)
        | None => None
        end
  end.

(** [strings.SplitN(s, sep, n)] for a one-byte separator and [n >= 0]:
    at most [n] substrings, the last one being the unsplit remainder;
    [n = 0] gives nil. *)
Fixpoint SplitN (s : string) (sep : ascii) (n : nat) : list string :=
  match n with
  | O => []
  | S O => [s]
  | S n' =>
      match cut sep s with
      | Some (before, after) => before :: SplitN after sep n'
      | None => [s]
      end
  end.

(** [strings.Contains] for a one-byte substring. *)
Fixpoint ContainsByte (s : string) (c : ascii) : bool :=
  match s with
  | EmptyString => false
  | String c' rest => Ascii.eqb c' c || ContainsByte rest c
  end.

End Strings.

(* ------------------------------------------------------------------ *)
(** ** Values of the terraform plugin framework ([types], [diag]) *)

Module Tf.

(** [types.String]: null, unknown or a known value. *)
Inductive String := StringNull | StringUnknown | StringValue (s : string).

(** [ValueString]: the known value, the empty string when null or
    unknown. *)
Definition ValueString (v : String) : string :=
  match v with StringValue s => s | _ => "" end.

(** [ValueStringPointer]: nil when null, else a pointer to the value. *)
Definition ValueStringPointer (v : String) : option string :=
  match v with StringNull => None | _ => Some (ValueString v) end.

Inductive Bool := BoolNull | BoolUnknown | BoolValue (b : bool).

Definition ValueBool (v : Bool) : bool :=
  match v with BoolValue b => b | _ => false end.

Definition ValueBoolPointer (v : Bool) : option bool :=
  match v with BoolNull => None | _ => Some (ValueBool v) end.

Definition BoolPointerValue (p : option bool) : Bool :=
  match p with Some b => BoolValue b | None => BoolNull end.

Inductive Int64 := Int64Null | Int64Unknown | Int64Value (z : Z).

Definition ValueInt64 (v : Int64) : Z :=
  match v with Int64Value z => z | _ => 0%Z end.

Inductive Int32 := Int32Null | Int32Unknown | Int32Value (z : Z).

Definition ValueInt32 (v : Int32) : Z :=
  match v with Int32Value z => z | _ => 0%Z end.

Definition ValueInt32Pointer (v : Int32) : option Z :=
  match v with Int32Null => None | _ => Some (ValueInt32 v) end.

Definition Int32PointerValue (p : option Z) : Int32 :=
  match p with Some z => Int32Value z | None => Int32Null end.

(** [diag.Diagnostic]: severity, summary and detail. *)
Inductive Diagnostic :=
| ErrorDiagnostic (summary detail : string)
| WarningDiagnostic (summary detail : string).

Definition Diagnostics := list Diagnostic.

Definition diag_eqb (a b : Diagnostic) : bool :=
  match a, b with
  | ErrorDiagnostic s d, ErrorDiagnostic s' d' =>
      String.eqb s s' && String.eqb d d'
  | WarningDiagnostic s d, WarningDiagnostic s' d' =>
      String.eqb s s' && String.eqb d d'
  | _, _ => false
  end.

(** [Diagnostics.Contains]. *)
Definition Contains (ds : Diagnostics) (d : Diagnostic) : bool :=
  existsb (diag_eqb d) ds.

(** [Diagnostics.Append] of one diagnostic: a duplicate is not added. *)
Definition Append (ds : Diagnostics) (d : Diagnostic) : Diagnostics :=
  if Contains ds d then ds else ds ++ [d].

Definition is_error (d : Diagnostic) : bool :=
  match d with ErrorDiagnostic _ _ => true | WarningDiagnostic _ _ => false end.

(** [Diagnostics.HasError]. *)
Definition HasError (ds : Diagnostics) : bool := existsb is_error ds.

(** The response of a lifecycle call: the diagnostics and the state the
    host records afterwards; [None] is the null state, which the host
    reads as "the resource is gone". *)
Record Response (M : Type) := mkResponse {
  Diagnostics_ : Diagnostics;
  State : option M
}.

Definition AddError {M} (summary detail : string) (resp : Response M)
  : Response M :=
  mkResponse (Append (Diagnostics_ resp) (ErrorDiagnostic summary detail))
             (State resp).

Definition AddWarning {M} (summary detail : string) (resp : Response M)
  : Response M :=
  mkResponse (Append (Diagnostics_ resp) (WarningDiagnostic summary detail))
             (State resp).

(** [resp.State.Set(ctx, &model)]. *)
Definition Set_ {M} (m : M) (resp : Response M) : Response M :=
  mkResponse (Diagnostics_ resp) (Some m).

(** [resp.State.RemoveResource(ctx)]. *)
Definition RemoveResource {M} (resp : Response M) : Response M :=
  mkResponse (Diagnostics_ resp) None.

(** The response the host hands to a lifecycle call: no diagnostics, and
    the state it starts from (the recorded state for Read and Update,
    the null state for Create and ImportState). *)
Definition newResponse {M} (st : option M) : Response M :=
  mkResponse [] st.

End Tf.

(* ------------------------------------------------------------------ *)
(** ** BSON values and the mongo driver's administrative calls *)

Module Bson.

(** The dynamic values of a [bson.D]: what [bson.Unmarshal] produces
    (float64, string, embedded document, array, bool, nil, int32,
    int64, and the remaining [primitive] types under their Go type
    name), what the drivers build ([int], raw documents).  [Raw] is
    [bson.Raw], an undecoded document. *)
Inductive Value (Raw : Type) : Type :=
| VDouble (f : spec_float)
| VString (s : string)
| VDocument (d : list (string * Value Raw))
| VArray (a : list (Value Raw))
| VBoolean (b : bool)
| VNull
| VInt32 (z : Z)
| VInt64 (z : Z)
| VInt (z : Z)
| VRaw (r : Raw)
| VOther (goType : string).

Arguments VDouble {Raw} f.
Arguments VString {Raw} s.
Arguments VDocument {Raw} d.
Arguments VArray {Raw} a.
Arguments VBoolean {Raw} b.
Arguments VNull {Raw}.
Arguments VInt32 {Raw} z.
Arguments VInt64 {Raw} z.
Arguments VInt {Raw} z.
Arguments VRaw {Raw} r.
Arguments VOther {Raw} goType.

(** [bson.E] and [bson.D]: an ordered document. *)
Definition E (Raw : Type) : Type := (string * Value Raw)%type.
Definition D (Raw : Type) : Type := list (E Raw).

(** What [%T] prints for a value. *)
Definition typeName {Raw} (v : Value Raw) : string :=
  match v with
  | VDouble _ => "float64"
  | VString _ => "string"
  | VDocument _ => "primitive.D"
  | VArray _ => "primitive.A"
  | VBoolean _ => "bool"
  | VNull => "<nil>"
  | VInt32 _ => "int32"
  | VInt64 _ => "int64"
  | VInt _ => "int"
  | VRaw _ => "bson.Raw"
  | VOther t => t
  end.

(** A [bson.RawValue] as the drivers inspect it: its type and, for an
    embedded document or a string, its content. *)
Inductive RawValue (Raw : Type) : Type :=
| RVEmbeddedDocument (doc : Raw)
| RVString (s : string)
| RVOther.

Arguments RVEmbeddedDocument {Raw} doc.
Arguments RVString {Raw} s.
Arguments RVOther {Raw}.

End Bson.

Module Mongo.

(** The text of a Go [error]. *)
Definition error := string.

Inductive result (A : Type) : Type :=
| Ok (a : A)
| Err (e : error).

Arguments Ok {A} a.
Arguments Err {A} e.

(** [mongo.IndexSpecification]. *)
Record IndexSpecification (Raw : Type) := mkIndexSpecification {
  spec_Name : string;
  spec_Namespace : string;
  spec_KeysDocument : Raw;
  spec_Version : Z;
  spec_ExpireAfterSeconds : option Z;
  spec_Sparse : option bool;
  spec_Unique : option bool;
  spec_Clustered : option bool
}.

(** [mongo.CollectionSpecification], the fields the drivers read;
    [Options] may be nil. *)
Record CollectionSpecification (Raw : Type) := mkCollectionSpecification {
  coll_Name : string;
  coll_Type : string;
  coll_Options : option Raw
}.

(** [options.IndexOptions], the fields the driver sets. *)
Record IndexOptions (Raw : Type) := mkIndexOptions {
  opt_Unique : option bool;
  opt_Sparse : option bool;
  opt_ExpireAfterSeconds : option Z;
  opt_Name : option string;
  opt_Background : option bool;
  opt_PartialFilterExpression : option Raw
}.

(** [mongo.IndexModel]. *)
Record IndexModel (Raw : Type) := mkIndexModel {
  Keys : Bson.D Raw;
  Options : IndexOptions Raw
}.

(** The calls on [*mongo.Client] the drivers make, indexed by the type
    of what the call returns. *)
Inductive call (Raw : Type) : Type -> Type :=
| ListDatabaseNames (filter : Bson.D Raw)
    : call Raw (result (list string))
| ListCollectionNames (db : string) (filter : Bson.D Raw)
    : call Raw (result (list string))
| ListCollectionSpecifications (db : string) (filter : Bson.D Raw)
    : call Raw (result (list (CollectionSpecification Raw)))
| RunCommand (db : string) (cmd : Bson.D Raw)
    : call Raw (option error)
| ListSpecifications (db coll : string)
    : call Raw (result (list (IndexSpecification Raw)))
| CreateOne (db coll : string) (model : IndexModel Raw)
    : call Raw (result string).

Arguments ListDatabaseNames {Raw} filter.
Arguments ListCollectionNames {Raw} db filter.
Arguments ListCollectionSpecifications {Raw} db filter.
Arguments RunCommand {Raw} db cmd.
Arguments ListSpecifications {Raw} db coll.
Arguments CreateOne {Raw} db coll model.

(** A lifecycle operation: it returns, or makes a call and goes on with
    what the store answers. *)
Inductive prog (Raw : Type) (A : Type) : Type :=
| Ret (a : A)
| Call (R : Type) (c : call Raw R) (k : R -> prog Raw A).

Arguments Ret {Raw A} a.
Arguments Call {Raw A R} c k.

(** A call issued, as the trace records it. *)
Inductive event (Raw : Type) : Type :=
| Issued (R : Type) (c : call Raw R).

Arguments Issued {Raw R} c.

(** The store: a state and its answer to each call. *)
Definition handler (Raw S : Type) : Type :=
  forall R : Type, call Raw R -> S -> R * S.

(** Run an operation against a store: the result, the store afterwards
    and the calls issued, in order. *)
Fixpoint run {Raw S A} (h : handler Raw S) (p : prog Raw A) (s : S)
  : A * S * list (event Raw) :=
  match p with
  | Ret a => (a, s, [])
  | Call c k =>
      let (r, s') := h _ c s in
      let '(a, s'', t) := run h (k r) s' in
      (a, s'', Issued c :: t)
  end.

(** The three parts of a run. *)
Definition response_of {Raw S A} (r : A * S * list (event Raw)) : A :=
  fst (fst r).
Definition store_of {Raw S A} (r : A * S * list (event Raw)) : S :=
  snd (fst r).
Definition trace_of {Raw S A} (r : A * S * list (event Raw))
  : list (event Raw) := snd r.

End Mongo.

(* ------------------------------------------------------------------ *)
(** ** Go conversions and the libraries behind the drivers *)

Module Go.

Definition minInt64 : Z := (- 2 ^ 63)%Z.
Definition maxInt64 : Z := (2 ^ 63 - 1)%Z.

Definition in_int64 (z : Z) : bool :=
  ((minInt64 <=? z) && (z <=? maxInt64))%Z.

Definition in_int32 (z : Z) : bool :=
  ((- 2 ^ 31 <=? z) && (z <=? 2 ^ 31 - 1))%Z.

(** The finite float64 [(-1)^s * m * 2^e] with its fraction discarded:
    [Z.quot] rounds toward zero. *)
Definition truncate (s : bool) (m : positive) (e : Z) : Z :=
  let n := (if s then Z.neg m else Z.pos m) in
  (if 0 <=? e then n * 2 ^ e else Z.quot n (2 ^ (- e)))%Z.

(** [strconv.Itoa] of a length. *)
Definition Itoa (n : nat) : string :=
  NilEmpty.string_of_uint (Nat.to_uint n).

End Go.

(** What the drivers take from the bson codec, from [fmt] and from the
    platform.  [float64_oob] is the result of converting to int64 a
    float64 that int64 cannot represent (NaN, an infinity, a value out of
    range): the language leaves it to the implementation. *)
Class Lib (Raw : Type) : Type := {
  Unmarshal : Raw -> Mongo.result (Bson.D Raw);
  UnmarshalExtJSON : string -> Mongo.result Raw;
  MarshalExtJSON : Raw -> Mongo.result string;
  Lookup : Raw -> string -> Bson.RawValue Raw;
  float64_oob : spec_float -> Z;
  float64_oob_int64 : forall f, Go.in_int64 (float64_oob f) = true;
  Quote : string -> string;
  Show : Bson.Value Raw -> string
}.

(** [int64(v)] for a float64 [v]. *)
Definition int64_of_float64 {Raw} {L : Lib Raw} (f : spec_float) : Z :=
  match f with
  | S754_zero _ => 0%Z
  | S754_finite s m e =>
      let t := Go.truncate s m e in
      if Go.in_int64 t then t else float64_oob f
  | _ => float64_oob f
  end.

Notation "'call!' x ':=' c 'in' k" :=
  (Mongo.Call c (fun x => k))
  (at level 10, x name, c at level 100, k at level 200, only parsing).

(* ------------------------------------------------------------------ *)
(** ** internal/service/database: the database resource *)

Module Database.

Import Tf Mongo Bson.

Definition tfPlaceholderColl : string := "__tf_placeholder".

Record ResourceModel := mkResourceModel {
  ID : Tf.String;
  Name : Tf.String;
  KeepPlaceholder : Tf.Bool
}.

Section Driver.
Context {Raw : Type}.

Definition Create (plan : ResourceModel) (resp : Response ResourceModel)
  : prog Raw (Response ResourceModel) :=
  if HasError (Diagnostics_ resp) then Ret resp else
  call! dbs :=
    ListDatabaseNames [("name", VString (ValueString (Name plan)))] in
  match dbs with
  | Err err => Ret (AddError "List databases failed" err resp)
  | Ok dbs =>
      if 0 <? List.length dbs then
        Ret (AddError "Database already exists"
               ("A database named " ++ ValueString (Name plan)
                ++ " already exists.") resp)
      else
        let finish :=
          Ret (Set_ (mkResourceModel
                       (StringValue (ValueString (Name plan)))
                       (Name plan) (KeepPlaceholder plan)) resp) in
        if ValueBool (KeepPlaceholder plan) then
          (* create placeholder collection (ignore if exists) *)
          call! _ :=
            RunCommand (ValueString (Name plan))
                       [("create", VString tfPlaceholderColl)] in
          finish
        else finish
  end.

Definition Read (state : ResourceModel) (resp : Response ResourceModel)
  : prog Raw (Response ResourceModel) :=
  if HasError (Diagnostics_ resp) then Ret resp else
  call! names := ListCollectionNames (ValueString (Name state)) [] in
  match names with
  | Err err => Ret (AddError "list collections failed" err resp)
  | Ok names =>
      if List.length names =? 0 then
        (* DB likely gone *)
        Ret (RemoveResource resp)
      else
        Ret (Set_ (mkResourceModel
                     (StringValue (ValueString (Name state)))
                     (Name state)
                     (BoolValue
                        (existsb (String.eqb tfPlaceholderColl) names)))
                  resp)
  end.

Definition Update (plan : ResourceModel) (resp : Response ResourceModel)
  : prog Raw (Response ResourceModel) :=
  if HasError (Diagnostics_ resp) then Ret resp else
  if ValueBool (KeepPlaceholder plan) then
    call! _ :=
      RunCommand (ValueString (Name plan))
                 [("create", VString tfPlaceholderColl)] in
    Ret (Set_ plan resp)
  else
    call! _ :=
      RunCommand (ValueString (Name plan))
                 [("drop", VString tfPlaceholderColl)] in
    Ret (Set_ plan resp).

End Driver.

Definition ImportState (reqID : string) (resp : Response ResourceModel)
  : Response ResourceModel :=
  let id := Strings.TrimSpace reqID in
  if String.eqb id "" then
    AddError "Empty import ID" "Expected database name" resp
  else
    Set_ (mkResourceModel (StringValue id) (StringValue id) BoolNull) resp.

End Database.

(* ------------------------------------------------------------------ *)
(** ** internal/service/collection: the collection resource *)

Module Collection.

Import Tf Mongo Bson.

Record ResourceModel := mkResourceModel {
  ID : Tf.String;
  Database : Tf.String;
  Name : Tf.String;
  Validator : Tf.String;
  ValidationLevel : Tf.String;
  ValidationAction : Tf.String
}.

(** [fmt.Sprintf("%s/%s", database, name)]: the identity of a
    collection. *)
Definition identity (database name : string) : string :=
  database ++ "/" ++ name.

Section Driver.
Context {Raw : Type} {L : Lib Raw}.

(** The decoding of the options document in [Read]: the validator (a
    warning when it cannot be printed as extended JSON, the recorded
    text is then kept), the level and the action. *)
Definition readOptions (options : option Raw) (state : ResourceModel)
           (resp : Response ResourceModel)
  : ResourceModel * Response ResourceModel :=
  match options with
  | Some options =>
      let '(validator, resp) :=
        match Lookup options "validator" with
        | RVEmbeddedDocument doc =>
            match MarshalExtJSON doc with
            | Err err =>
                (Validator state,
                 AddWarning "Failed to encode validator"
                   ("validator extjson encode error: " ++ err) resp)
            | Ok jsonBytes => (StringValue jsonBytes, resp)
            end
        | _ => (StringNull, resp)
        end in
      let level :=
        match Lookup options "validationLevel" with
        | RVString vl => StringValue vl
        | _ => StringNull
        end in
      let action :=
        match Lookup options "validationAction" with
        | RVString va => StringValue va
        | _ => StringNull
        end in
      (mkResourceModel (ID state) (Database state) (Name state)
                       validator level action, resp)
  | None =>
      (mkResourceModel (ID state) (Database state) (Name state)
                       StringNull StringNull StringNull, resp)
  end.

Definition Read (state : ResourceModel) (resp : Response ResourceModel)
  : prog Raw (Response ResourceModel) :=
  if HasError (Diagnostics_ resp) then Ret resp else
  call! collections :=
    ListCollectionSpecifications
      (ValueString (Database state))
      [("name", VString (ValueString (Name state)))] in
  match collections with
  | Err err =>
      Ret (AddError "Error reading collection"
             ("Failed to list collections: " ++ err) resp)
  | Ok collections =>
      match collections with
      | [collection] =>
          let '(state, resp) :=
            readOptions (coll_Options collection) state resp in
          Ret (Set_ (mkResourceModel
                       (StringValue
                          (identity (ValueString (Database state))
                                    (ValueString (Name state))))
                       (Database state) (Name state) (Validator state)
                       (ValidationLevel state) (ValidationAction state))
                    resp)
      | _ =>
          Ret (AddError "Collection not found"
                 (Go.Itoa (List.length collections)) resp)
      end
  end.

Definition Update (plan state : ResourceModel)
           (resp : Response ResourceModel)
  : prog Raw (Response ResourceModel) :=
  if HasError (Diagnostics_ resp) then Ret resp else
  (* Only validator-related updates via collMod *)
  let cmd : D Raw := [("collMod", VString (ValueString (Name plan)))] in
  let withValidator : result (D Raw) :=
    if negb (String.eqb (ValueString (Validator plan))
                        (ValueString (Validator state))) then
      if String.eqb (ValueString (Validator plan)) "" then
        Ok (cmd ++ [("validator", VDocument [])])
      else
        match UnmarshalExtJSON (ValueString (Validator plan)) with
        | Err err => Err err
        | Ok raw => Ok (cmd ++ [("validator", VRaw raw)])
        end
    else Ok cmd in
  match withValidator with
  | Err err => Ret (AddError "invalid validator JSON" err resp)
  | Ok cmd =>
      let cmd :=
        if negb (String.eqb (ValueString (ValidationLevel plan))
                            (ValueString (ValidationLevel state)))
        then cmd ++ [("validationLevel",
                      VString (ValueString (ValidationLevel plan)))]
        else cmd in
      let cmd :=
        if negb (String.eqb (ValueString (ValidationAction plan))
                            (ValueString (ValidationAction state)))
        then cmd ++ [("validationAction",
                      VString (ValueString (ValidationAction plan)))]
        else cmd in
      if 1 <? List.length cmd then
        (* we added something besides collMod name *)
        call! err := RunCommand (ValueString (Database plan)) cmd in
        match err with
        | Some err => Ret (AddError "collMod failed" err resp)
        | None => Ret (Set_ plan resp)
        end
      else Ret (Set_ plan resp)
  end.

End Driver.

Definition ImportState (reqID : string) (resp : Response ResourceModel)
  : Response ResourceModel :=
  let id := Strings.TrimSpace reqID in
  if String.eqb id "" then
    AddError "Empty import ID" "Expected format: 'database/collection'" resp
  else
    match Strings.SplitN id "/"%char 2 with
    | [db; coll] =>
        if String.eqb db "" || String.eqb coll "" then
          AddError "Invalid import ID"
            ("Expected 'database/collection', got " ++ id) resp
        else
          Set_ (mkResourceModel (StringValue id) (StringValue db)
                                (StringValue coll)
                                StringNull StringNull StringNull) resp
    | _ =>
        AddError "Invalid import ID"
          ("Expected 'database/collection', got " ++ id) resp
    end.

End Collection.

(* ------------------------------------------------------------------ *)
(** ** internal/service/index: the index resource and data source *)

Module Index.

Import Tf Mongo Bson.

Record indexKeyModel := mkIndexKeyModel {
  Field : Tf.String;
  Order : Tf.Int64
}.

Record ResourceModel := mkResourceModel {
  ID : Tf.String;
  Database : Tf.String;
  Collection : Tf.String;
  Name : Tf.String;
  Unique : Tf.Bool;
  Sparse : Tf.Bool;
  TTL : Tf.Int32;
  Partial : Tf.String;
  Background : Tf.Bool;
  Keys : list indexKeyModel
}.

Record DataSourceModel := mkDataSourceModel {
  ds_ID : Tf.String;
  ds_Database : Tf.String;
  ds_Collection : Tf.String;
  ds_Name : Tf.String;
  ds_Unique : Tf.Bool;
  ds_Sparse : Tf.Bool;
  ds_TTL : Tf.Int32;
  ds_Keys : list indexKeyModel
}.

(** [fmt.Sprintf("%s/%s/%s", database, collection, name)]: the identity
    of an index. *)
Definition identity (database collection name : string) : string :=
  database ++ "/" ++ collection ++ "/" ++ name.

Section Driver.
Context {Raw : Type} {L : Lib Raw}.

(** The type switch on the value of a key entry: the order of an
    int32, an int64 or a float64, nothing for any other type. *)
Definition orderOf (v : Value Raw) : option Z :=
  match v with
  | VInt32 v => Some v
  | VInt64 v => Some v
  | VDouble v =>
      (* allow 1.0 / -1.0 coming back as doubles *)
      Some (int64_of_float64 v)
  | _ => None
  end.

(** [fmt.Sprintf("Field %q has unsupported type %T (value %v).
    Skipping.", e.Key, v, v)]: the detail of the warning of the
    default case. *)
Definition skipDetail (e : E Raw) : string :=
  "Field " ++ Quote (fst e) ++ " has unsupported type "
  ++ typeName (snd e) ++ " (value " ++ Show (snd e) ++ "). Skipping.".

(** One turn of the loop over the entries of the keys document. *)
Definition decodeEntry {M} (acc : Response M * list indexKeyModel)
           (e : E Raw) : Response M * list indexKeyModel :=
  let '(resp, keys) := acc in
  match orderOf (snd e) with
  | Some order =>
      (resp, keys ++ [mkIndexKeyModel (StringValue (fst e))
                                      (Int64Value order)])
  | None =>
      (* unsupported (e.g., "2dsphere", "text") *)
      (AddWarning "Non-numeric index key order encountered"
                  (skipDetail e) resp,
       keys)
  end.

(** The loop [for _, e := range keysDoc] of the two [Read]s, started
    with no key. *)
Definition decodeKeyOrder {M} (keysDoc : D Raw) (resp : Response M)
  : Response M * list indexKeyModel :=
  fold_left decodeEntry keysDoc (resp, []).

Definition hasName (name : string) (i : IndexSpecification Raw) : bool :=
  String.eqb (spec_Name i) name.

Definition Create (plan : ResourceModel) (resp : Response ResourceModel)
  : prog Raw (Response ResourceModel) :=
  if HasError (Diagnostics_ resp) then Ret resp else
  call! specifications :=
    ListSpecifications (ValueString (Database plan))
                       (ValueString (Collection plan)) in
  match specifications with
  | Err err => Ret (AddError "List indexes failed" err resp)
  | Ok specifications =>
      if existsb (hasName (ValueString (Name plan))) specifications then
        Ret (AddError "Index already exists"
               ("An index named " ++ ValueString (Name plan)
                ++ " already exists.") resp)
      else
        let keys : D Raw :=
          fold_left
            (fun keys k =>
               keys ++ [(ValueString (Field k),
                         VInt (ValueInt64 (Order k)))])
            (Keys plan) [] in
        let create (partial : option Raw) :=
          call! created :=
            CreateOne (ValueString (Database plan))
                      (ValueString (Collection plan))
                      (mkIndexModel keys
                         (mkIndexOptions
                            (ValueBoolPointer (Unique plan))
                            (ValueBoolPointer (Sparse plan))
                            (ValueInt32Pointer (TTL plan))
                            (ValueStringPointer (Name plan))
                            (ValueBoolPointer (Background plan))
                            partial)) in
          match created with
          | Err err => Ret (AddError "create index failed" err resp)
          | Ok name =>
              Ret (Set_ (mkResourceModel
                           (StringValue
                              (identity (ValueString (Database plan))
                                        (ValueString (Collection plan))
                                        name))
                           (Database plan) (Collection plan) (Name plan)
                           (Unique plan) (Sparse plan) (TTL plan)
                           (Partial plan) (Background plan) (Keys plan))
                        resp)
          end in
        if negb (String.eqb (ValueString (Partial plan)) "") then
          match UnmarshalExtJSON (ValueString (Partial plan)) with
          | Err err =>
              Ret (AddError "invalid partial_filter_expression JSON"
                     err resp)
          | Ok raw => create (Some raw)
          end
        else create None
  end.

Definition Read (state : ResourceModel) (resp : Response ResourceModel)
  : prog Raw (Response ResourceModel) :=
  if HasError (Diagnostics_ resp) then Ret resp else
  call! indexes :=
    ListSpecifications (ValueString (Database state))
                       (ValueString (Collection state)) in
  match indexes with
  | Err err => Ret (AddError "Failed to list index" err resp)
  | Ok indexes =>
      let resp :=
        if negb (existsb (hasName (ValueString (Name state))) indexes)
        then RemoveResource resp
        else resp in
      match find (hasName (ValueString (Name state))) indexes with
      | None => Ret (AddError "Index not found" "" resp)
      | Some index =>
          match Unmarshal (spec_KeysDocument index) with
          | Err err =>
              Ret (AddError "Failed to decode index keys" err resp)
          | Ok keysDoc =>
              let '(resp, keys) := decodeKeyOrder keysDoc resp in
              Ret (Set_ (mkResourceModel
                           (StringValue
                              (identity (ValueString (Database state))
                                        (ValueString (Collection state))
                                        (ValueString (Name state))))
                           (Database state) (Collection state)
                           (Name state)
                           (BoolPointerValue (spec_Unique index))
                           (BoolPointerValue (spec_Sparse index))
                           (Int32PointerValue
                              (spec_ExpireAfterSeconds index))
                           (Partial state) (Background state) keys)
                        resp)
          end
      end
  end.

Definition Update (plan : ResourceModel) (resp : Response ResourceModel)
  : prog Raw (Response ResourceModel) :=
  (* All meaningful changes are ForceNew semantics; just keep state *)
  if HasError (Diagnostics_ resp) then Ret resp else
  Ret (Set_ plan resp).

(** [DataSource.Read]: the read-only lookup. *)
Definition DataSourceRead (plan : DataSourceModel)
           (resp : Response DataSourceModel)
  : prog Raw (Response DataSourceModel) :=
  if HasError (Diagnostics_ resp) then Ret resp else
  call! indexes :=
    ListSpecifications (ValueString (ds_Database plan))
                       (ValueString (ds_Collection plan)) in
  match indexes with
  | Err err =>
      Ret (AddError "Failed to list index specifications" err resp)
  | Ok indexes =>
      match find (hasName (ValueString (ds_Name plan))) indexes with
      | None => Ret (AddError "Index not found" "" resp)
      | Some index =>
          match Unmarshal (spec_KeysDocument index) with
          | Err err =>
              Ret (AddError "Failed to decode index keys" err resp)
          | Ok keysDoc =>
              let '(resp, keys) := decodeKeyOrder keysDoc resp in
              Ret (Set_ (mkDataSourceModel
                           (StringValue
                              (identity
                                 (ValueString (ds_Database plan))
                                 (ValueString (ds_Collection plan))
                                 (ValueString (ds_Name plan))))
                           (ds_Database plan) (ds_Collection plan)
                           (ds_Name plan)
                           (BoolPointerValue (spec_Unique index))
                           (ds_Sparse plan)
                           (Int32PointerValue
                              (spec_ExpireAfterSeconds index))
                           keys)
                        resp)
          end
      end
  end.

End Driver.

Definition ImportState (reqID : string) (resp : Response ResourceModel)
  : Response ResourceModel :=
  let id := Strings.TrimSpace reqID in
  if String.eqb id "" then
    AddError "Empty import ID"
      "Expected format: 'database/collection/index'" resp
  else
    match Strings.SplitN id "/"%char 3 with
    | [db; coll; index] =>
        if String.eqb db "" || String.eqb coll "" || String.eqb index ""
        then
          AddError "Invalid import ID"
            ("Expected 'database/collection/index', got " ++ id) resp
        else
          Set_ (mkResourceModel (StringValue id) (StringValue db)
                                (StringValue coll) (StringValue index)
                                BoolNull BoolNull Int32Null StringNull
                                BoolNull []) resp
    | _ =>
        AddError "Invalid import ID"
          ("Expected 'database/collection/index', got " ++ id) resp
    end.

End Index.

(* ------------------------------------------------------------------ *)
(** ** A substitute store and codec, to run the drivers on examples *)

Module Fixture.

Import Tf Mongo Bson.

(** A raw document of the substitute codec: the entries, each an int32
    or a string. *)
Definition Raw : Type := list (string * (Z + string)).

Definition dquote : string := String.String (ascii_of_nat 34) EmptyString.

Definition decodeValue (v : Z + string) : Value Raw :=
  match v with inl z => VInt32 z | inr s => VString s end.

Definition showValue (v : Value Raw) : string :=
  match v with
  | VString s => s
  | VBoolean true => "true"
  | VBoolean false => "false"
  | VNull => "<nil>"
  | _ => "?"
  end.

Definition oob_int64 (f : spec_float) : Go.in_int64 Go.minInt64 = true :=
  eq_refl.

(** The codec: every raw document decodes; the only extended JSON text
    it reads is the empty object; an out-of-range float64 converts to
    the least int64, as on amd64. *)
#[global] Instance lib : Lib Raw := {
  Unmarshal r := Ok (map (fun e => (fst e, decodeValue (snd e))) r);
  UnmarshalExtJSON s := if String.eqb s "{}" then Ok [] else Err "invalid JSON";
  MarshalExtJSON _ := Ok "{}";
  Lookup _ _ := RVOther;
  float64_oob _ := Go.minInt64;
  float64_oob_int64 := oob_int64;
  Quote s := (dquote ++ s ++ dquote)%string;
  Show := showValue
}.

(** A store that answers from a fixed table and counts the calls it has
    served. *)
Record Store := mkStore {
  databases : list string;
  collections : list string;
  collectionSpecs : list (CollectionSpecification Raw);
  indexes : list (IndexSpecification Raw);
  commandError : option error
}.

Definition serve (st : Store) : handler Raw nat :=
  fun R c =>
    match c in call _ R return nat -> R * nat with
    | ListDatabaseNames _ => fun n => (Ok (databases st), S n)
    | ListCollectionNames _ _ => fun n => (Ok (collections st), S n)
    | ListCollectionSpecifications _ _ =>
        fun n => (Ok (collectionSpecs st), S n)
    | RunCommand _ _ => fun n => (commandError st, S n)
    | ListSpecifications _ _ => fun n => (Ok (indexes st), S n)
    | CreateOne _ _ model =>
        fun n =>
          (match opt_Name (Options model) with
           | Some name => Ok name
           | None => Err "index name required"
           end, S n)
    end.

Definition empty : Store := mkStore [] [] [] [] None.

Definition index (name : string) (keys : Raw) : IndexSpecification Raw :=
  mkIndexSpecification name "" keys 2 None None None None.

End Fixture.

(* ------------------------------------------------------------------ *)
(** ** The specification's words, as definitions to compare the code with *)

Module Spec.

Import Tf Mongo Bson.

(** A desired value differs from the recorded one. *)
Definition differs (desired recorded : Tf.String) : bool :=
  negb (String.eqb (ValueString desired) (ValueString recorded)).

(** The sub-fields of the "modify collection" command: those among
    validator, validationLevel and validationAction whose desired value
    differs from the recorded one, [directive] being what is sent for
    the validator. *)
Definition collModFields {Raw} (plan state : Collection.ResourceModel)
           (directive : Value Raw) : D Raw :=
  (if differs (Collection.Validator plan) (Collection.Validator state)
   then [("validator", directive)] else [])
  ++ (if differs (Collection.ValidationLevel plan)
                 (Collection.ValidationLevel state)
      then [("validationLevel",
             VString (ValueString (Collection.ValidationLevel plan)))]
      else [])
  ++ (if differs (Collection.ValidationAction plan)
                 (Collection.ValidationAction state)
      then [("validationAction",
             VString (ValueString (Collection.ValidationAction plan)))]
      else []).

(** Some sub-field of the "modify collection" command changed. *)
Definition anyDiffers (plan state : Collection.ResourceModel) : bool :=
  differs (Collection.Validator plan) (Collection.Validator state)
  || differs (Collection.ValidationLevel plan)
             (Collection.ValidationLevel state)
  || differs (Collection.ValidationAction plan)
             (Collection.ValidationAction state).

(** What is sent for a changed validator: the explicit empty document
    when the desired text is empty, else the document the text parses
    to. *)
Definition validatorDirective {Raw} {L : Lib Raw}
           (plan : Collection.ResourceModel) : result (Value Raw) :=
  if String.eqb (ValueString (Collection.Validator plan)) ""
  then Ok (VDocument [])
  else match UnmarshalExtJSON (ValueString (Collection.Validator plan)) with
       | Ok raw => Ok (VRaw raw)
       | Err err => Err err
       end.

(** The value kinds that carry a direction: int32, int64, float64. *)
Definition isNumeric {Raw} (v : Value Raw) : bool :=
  match v with
  | VInt32 _ | VInt64 _ | VDouble _ => true
  | _ => false
  end.

(** The direction of a numeric value, as a signed 64-bit integer. *)
Definition direction {Raw} {L : Lib Raw} (v : Value Raw) : Z :=
  match v with
  | VInt32 z => z
  | VInt64 z => z
  | VDouble f => int64_of_float64 f
  | _ => 0%Z
  end.

(** The decoded pair of a numeric entry. *)
Definition keyOf {Raw} {L : Lib Raw} (e : E Raw) : Index.indexKeyModel :=
  Index.mkIndexKeyModel (StringValue (fst e))
                        (Int64Value (direction (snd e))).

(** The warning of a skipped entry: it names the field and the kind. *)
Definition skipWarning {Raw} {L : Lib Raw} (e : E Raw) : Diagnostic :=
  WarningDiagnostic "Non-numeric index key order encountered"
    ("Field " ++ Quote (fst e) ++ " has unsupported type "
     ++ typeName (snd e) ++ " (value " ++ Show (snd e) ++ "). Skipping.").

(** An int32 holds a 32-bit value, an int64 a 64-bit one. *)
Definition wellTyped {Raw} (v : Value Raw) : bool :=
  match v with
  | VInt32 z => Go.in_int32 z
  | VInt64 z => Go.in_int64 z
  | _ => true
  end.

(** The index a create asks for, given the parsed partial filter. *)
Definition indexModel {Raw} (plan : Index.ResourceModel)
           (partial : option Raw) : IndexModel Raw :=
  mkIndexModel
    (map (fun k => (ValueString (Index.Field k),
                    VInt (ValueInt64 (Index.Order k))))
         (Index.Keys plan))
    (mkIndexOptions (ValueBoolPointer (Index.Unique plan))
                    (ValueBoolPointer (Index.Sparse plan))
                    (ValueInt32Pointer (Index.TTL plan))
                    (ValueStringPointer (Index.Name plan))
                    (ValueBoolPointer (Index.Background plan))
                    partial).

(** The partial filter of a plan: none when the text is empty, else the
    document the text parses to. *)
Definition partialFilter {Raw} {L : Lib Raw} (plan : Index.ResourceModel)
  : result (option Raw) :=
  if String.eqb (ValueString (Index.Partial plan)) "" then Ok None
  else match UnmarshalExtJSON (ValueString (Index.Partial plan)) with
       | Ok raw => Ok (Some raw)
       | Err err => Err err
       end.

(** The record an index create persists. *)
Definition created (plan : Index.ResourceModel) (name : string)
  : Index.ResourceModel :=
  Index.mkResourceModel
    (StringValue (Index.identity (ValueString (Index.Database plan))
                                 (ValueString (Index.Collection plan))
                                 name))
    (Index.Database plan) (Index.Collection plan) (Index.Name plan)
    (Index.Unique plan) (Index.Sparse plan) (Index.TTL plan)
    (Index.Partial plan) (Index.Background plan) (Index.Keys plan).

(** 1.5 and 1.0 as binary64 values. *)
Definition one_and_a_half : spec_float :=
  S754_finite false 6755399441055744 (-52).
Definition one : spec_float :=
  S754_finite false 4503599627370496 (-52).

End Spec.

(* ------------------------------------------------------------------ *)
(** ** internal/service/database: the database data source *)

Module DatabaseDataSource.

Import Tf Mongo Bson.

Record DataSourceModel := mkDataSourceModel {
  ID : Tf.String;
  Name : Tf.String;
  KeepPlaceholder : Tf.Bool
}.

Section Driver.
Context {Raw : Type}.

Definition Read (plan : DataSourceModel) (resp : Response DataSourceModel)
  : prog Raw (Response DataSourceModel) :=
  if HasError (Diagnostics_ resp) then Ret resp else
  call! names := ListCollectionNames (ValueString (Name plan)) [] in
  match names with
  | Err err =>
      Ret (AddError "Error read database"
             ("list collections failed: " ++ err) resp)
  | Ok names =>
      if List.length names =? 0 then
        Ret (AddError "Error read database" "not found" resp)
      else
        Ret (Set_ (mkDataSourceModel
                     (StringValue (ValueString (Name plan)))
                     (Name plan)
                     (BoolValue
                        (existsb (String.eqb Database.tfPlaceholderColl)
                                 names)))
                  resp)
  end.

End Driver.

End DatabaseDataSource.

(* ------------------------------------------------------------------ *)
(** ** internal/service/collection: the collection data source *)

Module CollectionDataSource.

Import Tf Mongo Bson.

Record DataSourceModel := mkDataSourceModel {
  ID : Tf.String;
  Database : Tf.String;
  Name : Tf.String;
  Validator : Tf.String;
  ValidationLevel : Tf.String;
  ValidationAction : Tf.String
}.

Section Driver.
Context {Raw : Type} {L : Lib Raw}.

Definition Read (plan : DataSourceModel) (resp : Response DataSourceModel)
  : prog Raw (Response DataSourceModel) :=
  if HasError (Diagnostics_ resp) then Ret resp else
  call! collections :=
    ListCollectionSpecifications
      (ValueString (Database plan))
      [("name", VString (ValueString (Name plan)))] in
  match collections with
  | Err err =>
      Ret (AddError "Error reading collection"
             ("Failed to list collections: " ++ err) resp)
  | Ok collections =>
      match collections with
      | [collection] =>
          let '(validator, level, action, resp) :=
            match coll_Options collection with
            | Some options =>
                let '(validator, resp) :=
                  match Lookup options "validator" with
                  | RVEmbeddedDocument doc =>
                      match MarshalExtJSON doc with
                      | Err err =>
                          (Validator plan,
                           AddWarning "Failed to encode validator"
                             ("validator extjson encode error: " ++ err)
                             resp)
                      | Ok jsonBytes => (StringValue jsonBytes, resp)
                      end
                  | _ => (StringNull, resp)
                  end in
                let level :=
                  match Lookup options "validationLevel" with
                  | RVString vl => StringValue vl
                  | _ => StringNull
                  end in
                let action :=
                  match Lookup options "validationAction" with
                  | RVString va => StringValue va
                  | _ => StringNull
                  end in
                (validator, level, action, resp)
            | None => (StringNull, StringNull, StringNull, resp)
            end in
          Ret (Set_ (mkDataSourceModel
                       (StringValue
                          (Collection.identity (ValueString (Database plan))
                                               (ValueString (Name plan))))
                       (Database plan) (Name plan) validator level action)
                    resp)
      | _ =>
          Ret (AddError "Collection not found"
                 (Go.Itoa (List.length collections)) resp)
      end
  end.

End Driver.

(** The same fields, as a record of the resource. *)
Definition toResource (m : DataSourceModel) : Collection.ResourceModel :=
  Collection.mkResourceModel (ID m) (Database m) (Name m) (Validator m)
                             (ValidationLevel m) (ValidationAction m).

Definition ofResource (m : Collection.ResourceModel) : DataSourceModel :=
  mkDataSourceModel (Collection.ID m) (Collection.Database m)
                    (Collection.Name m) (Collection.Validator m)
                    (Collection.ValidationLevel m)
                    (Collection.ValidationAction m).

Definition mapResponse {A B} (f : A -> B) (resp : Response A) : Response B :=
  mkResponse (Diagnostics_ resp) (option_map f (State resp)).

End CollectionDataSource.

(* ------------------------------------------------------------------ *)
(** ** The earlier revisions kept beside the current ones *)

(** [strings.Join]. *)
Module Join.

Fixpoint Join (elems : list string) (sep : string) : string :=
  match elems with
  | [] => ""
  | [x] => x
  | x :: rest => (x ++ sep ++ Join rest sep)%string
  end.

End Join.

(** internal/service/index/index_resource.go, first revision: no
    [sparse] attribute, a [Read] that only checks presence, and
    [deriveIndexName]. *)
Module IndexV1.

Import Tf Mongo Bson.

Record ResourceModel := mkResourceModel {
  ID : Tf.String;
  Database : Tf.String;
  Collection : Tf.String;
  Name : Tf.String;
  Unique : Tf.Bool;
  TTL : Tf.Int32;
  Partial : Tf.String;
  Background : Tf.Bool;
  Keys : list Index.indexKeyModel
}.

Section Driver.
Context {Raw : Type} {L : Lib Raw}.

Definition Read (state : ResourceModel) (resp : Response ResourceModel)
  : prog Raw (Response ResourceModel) :=
  if HasError (Diagnostics_ resp) then Ret resp else
  call! specifications :=
    ListSpecifications (ValueString (Database state))
                       (ValueString (Collection state)) in
  match specifications with
  | Err _ => Ret (RemoveResource resp)
  | Ok specifications =>
      if negb (existsb (Index.hasName (ValueString (Name state)))
                       specifications)
      then Ret (RemoveResource resp)
      else Ret resp
  end.

(** [fmt.Sprintf("%s_%v", e.Key, e.Value)] for each entry, joined
    with "_". *)
Definition deriveIndexName (keys : D Raw) : string :=
  let segs :=
    fold_left (fun (segs : list string) (e : E Raw) =>
                 segs ++ [(fst e ++ "_" ++ Show (snd e))%string])
              keys [] in
  Join.Join segs "_".

End Driver.

End IndexV1.

(** src/unnamed/part_003, the collection resource before it read the
    specification: [Read] probes the collection with collStats. *)
Module CollectionV0.

Import Tf Mongo Bson.

Section Driver.
Context {Raw : Type}.

Definition Read (state : Collection.ResourceModel)
           (resp : Response Collection.ResourceModel)
  : prog Raw (Response Collection.ResourceModel) :=
  if HasError (Diagnostics_ resp) then Ret resp else
  call! res :=
    RunCommand (ValueString (Collection.Database state))
               [("collStats", VString (ValueString (Collection.Name state)))] in
  match res with
  | Some _ =>
      (* collection likely gone *)
      Ret (RemoveResource resp)
  | None => Ret (Set_ state resp)
  end.

End Driver.

End CollectionV0.

(* ------------------------------------------------------------------ *)
(** ** The rest of the store's surface: drops, collection creation, the
       index cursor *)

(** Programs over any family of calls, run as [Mongo.run] runs the
    drivers above. *)
Module Free.

Inductive prog (E : Type -> Type) (A : Type) : Type :=
| Done (a : A)
| Do (R : Type) (c : E R) (k : R -> prog E A).

Arguments Done {E A} a.
Arguments Do {E A R} c k.

Inductive event (E : Type -> Type) : Type :=
| Did (R : Type) (c : E R).

Arguments Did {E R} c.

Definition handler (E : Type -> Type) (S : Type) : Type :=
  forall R : Type, E R -> S -> R * S.

Fixpoint run {E S A} (h : handler E S) (p : prog E A) (s : S)
  : A * S * list (event E) :=
  match p with
  | Done a => (a, s, [])
  | Do c k =>
      let (r, s') := h _ c s in
      let '(a, s'', t) := run h (k r) s' in
      (a, s'', Did c :: t)
  end.

Definition response_of {E S A} (r : A * S * list (event E)) : A :=
  fst (fst r).
Definition store_of {E S A} (r : A * S * list (event E)) : S :=
  snd (fst r).
Definition trace_of {E S A} (r : A * S * list (event E)) : list (event E) :=
  snd r.

(** One program after another. *)
Fixpoint bind {E A B} (p : prog E A) (f : A -> prog E B) : prog E B :=
  match p with
  | Done a => f a
  | Do c k => Do c (fun r => bind (k r) f)
  end.

End Free.

Notation "'do!' x ':=' c 'in' k" :=
  (Free.Do c (fun x => k))
  (at level 10, x name, c at level 100, k at level 200, only parsing).

Module Admin.

Import Tf Mongo Bson Free.

(** [options.TimeSeriesOptions]; the spans are [time.Duration]s, in
    nanoseconds. *)
Record TimeSeriesOptions := mkTimeSeriesOptions {
  ts_TimeField : string;
  ts_MetaField : option string;
  ts_Granularity : option string;
  ts_BucketMaxSpan : option Z;
  ts_BucketRounding : option Z
}.

(** [options.CreateCollectionOptions], the fields the driver sets. *)
Record CreateCollectionOptions (Raw : Type) := mkCreateCollectionOptions {
  cc_Validator : option (Value Raw);
  cc_ValidationLevel : option string;
  cc_ValidationAction : option string;
  cc_ExpireAfterSeconds : option Z;
  cc_TimeSeriesOptions : option TimeSeriesOptions
}.

(** [ExIndexSpecification]: the index specification with the partial
    filter; a nil or empty raw document is [None]. *)
Record ExIndexSpecification (Raw : Type) := mkExIndexSpecification {
  ex_Name : string;
  ex_Namespace : string;
  ex_KeysDocument : Raw;
  ex_Version : Z;
  ex_ExpireAfterSeconds : option Z;
  ex_Sparse : option bool;
  ex_Unique : option bool;
  ex_Clustered : option bool;
  ex_PartialFilterExpression : option Raw
}.

(** [ExIndexSpecifications], a slice of pointers: an entry may be nil. *)
Definition ExIndexSpecifications (Raw : Type) : Type :=
  list (option (ExIndexSpecification Raw)).

Inductive call (Raw Cursor : Type) : Type -> Type :=
| DropDatabase (db : string) : call Raw Cursor (option error)
| DropCollection (db coll : string) : call Raw Cursor (option error)
| DropOne (db coll name : string) : call Raw Cursor (result Raw)
| CreateCollection (db name : string) (opts : CreateCollectionOptions Raw)
    : call Raw Cursor (option error)
| ListIndexes (db coll : string) : call Raw Cursor (result Cursor)
| CursorAll (cursor : Cursor)
    : call Raw Cursor (result (ExIndexSpecifications Raw)).

Arguments DropDatabase {Raw Cursor} db.
Arguments DropCollection {Raw Cursor} db coll.
Arguments DropOne {Raw Cursor} db coll name.
Arguments CreateCollection {Raw Cursor} db name opts.
Arguments ListIndexes {Raw Cursor} db coll.
Arguments CursorAll {Raw Cursor} cursor.

(** [int64] arithmetic wraps around. *)
Definition wrapInt64 (z : Z) : Z :=
  ((z + 2 ^ 63) mod 2 ^ 64 - 2 ^ 63)%Z.

(** [time.Duration(seconds) * time.Second]. *)
Definition seconds (n : Z) : Z := wrapInt64 (n * 1000000000)%Z.

(** [!v.IsNull() && !v.IsUnknown()]. *)
Definition knownString (v : Tf.String) : bool :=
  match v with StringValue _ => true | _ => false end.

Definition knownInt64 (v : Tf.Int64) : bool :=
  match v with Int64Value _ => true | _ => false end.

(** [ExIndexSpecifications.Find]. *)
Fixpoint Find {Raw} (eis : ExIndexSpecifications Raw) (name : string)
  : option (ExIndexSpecification Raw) :=
  match eis with
  | [] => None
  | i :: rest =>
      match i with
      | Some spec =>
          if String.eqb (ex_Name spec) name then Some spec
          else Find rest name
      | None => Find rest name
      end
  end.

Section Drivers.
Context {Raw Cursor : Type} {L : Lib Raw}.

(** [ExIndexView.ListExSpecifications]. *)
Definition ListExSpecifications (db coll : string)
  : Free.prog (call Raw Cursor) (result (ExIndexSpecifications Raw)) :=
  do! cursor := ListIndexes db coll in
  match cursor with
  | Err err => Done (Err err)
  | Ok cursor =>
      do! results := CursorAll cursor in
      match results with
      | Err err => Done (Err err)
      | Ok results => Done (Ok results)
      end
  end.

(** database: [Resource.Delete]. *)
Definition DatabaseDelete (state : Database.ResourceModel)
           (resp : Response Database.ResourceModel)
  : Free.prog (call Raw Cursor) (Response Database.ResourceModel) :=
  if HasError (Diagnostics_ resp) then Done resp else
  do! err := DropDatabase (ValueString (Database.Name state)) in
  match err with
  | Some err => Done (AddError "failed to drop database" err resp)
  | None => Done resp
  end.

(** collection: [Resource.Delete]. *)
Definition CollectionDelete (state : Collection.ResourceModel)
           (resp : Response Collection.ResourceModel)
  : Free.prog (call Raw Cursor) (Response Collection.ResourceModel) :=
  if HasError (Diagnostics_ resp) then Done resp else
  do! err := DropCollection (ValueString (Collection.Database state))
                            (ValueString (Collection.Name state)) in
  match err with
  | Some err => Done (AddError "drop collection failed" err resp)
  | None => Done resp
  end.

(** index: [Resource.Delete]. *)
Definition IndexDelete (state : Index.ResourceModel)
           (resp : Response Index.ResourceModel)
  : Free.prog (call Raw Cursor) (Response Index.ResourceModel) :=
  if HasError (Diagnostics_ resp) then Done resp else
  do! dropped := DropOne (ValueString (Index.Database state))
                         (ValueString (Index.Collection state))
                         (ValueString (Index.Name state)) in
  match dropped with
  | Err err => Done (AddError "drop index failed" err resp)
  | Ok _ => Done resp
  end.

End Drivers.

End Admin.

(* ------------------------------------------------------------------ *)
(** ** internal/service/collection, current revision: time series *)

Module CollectionTS.

Import Tf Mongo Bson Free.

Record TimeSeriesModel := mkTimeSeriesModel {
  TimeField : Tf.String;
  MetaField : Tf.String;
  Granularity : Tf.String;
  BucketMaxSpanSeconds : Tf.Int64;
  BucketRoundingSeconds : Tf.Int64;
  ExpireAfterSeconds : Tf.Int64
}.

Record ResourceModel := mkResourceModel {
  ID : Tf.String;
  Database : Tf.String;
  Name : Tf.String;
  Validator : Tf.String;
  ValidationLevel : Tf.String;
  ValidationAction : Tf.String;
  TimeSeries : option TimeSeriesModel
}.

Section Driver.
Context {Raw Cursor : Type} {L : Lib Raw}.

(** The block [if plan.TimeSeries != nil] of [Create]: the time-series
    options and the collection-level expiry. *)
Definition timeSeriesOptions (ts : TimeSeriesModel)
  : Admin.TimeSeriesOptions * option Z :=
  (Admin.mkTimeSeriesOptions
     (ValueString (TimeField ts))
     (if negb (String.eqb (ValueString (MetaField ts)) "")
      then Some (ValueString (MetaField ts)) else None)
     (if negb (String.eqb (ValueString (Granularity ts)) "")
      then Some (ValueString (Granularity ts)) else None)
     (if Admin.knownInt64 (BucketMaxSpanSeconds ts)
      then Some (Admin.seconds (ValueInt64 (BucketMaxSpanSeconds ts)))
      else None)
     (if Admin.knownInt64 (BucketRoundingSeconds ts)
      then Some (Admin.seconds (ValueInt64 (BucketRoundingSeconds ts)))
      else None),
   if Admin.knownInt64 (ExpireAfterSeconds ts)
   then Some (ValueInt64 (ExpireAfterSeconds ts)) else None).

Definition Create (plan : ResourceModel) (resp : Response ResourceModel)
  : Free.prog (Admin.call Raw Cursor) (Response ResourceModel) :=
  if HasError (Diagnostics_ resp) then Done resp else
  let validator : result (option (Value Raw)) :=
    if negb (String.eqb (ValueString (Validator plan)) "") then
      match UnmarshalExtJSON (ValueString (Validator plan)) with
      | Err err => Err err
      | Ok raw => Ok (Some (VDocument [("$jsonSchema", VRaw raw)]))
      end
    else Ok None in
  match validator with
  | Err err => Done (AddError "invalid validator JSON" err resp)
  | Ok validator =>
      let level :=
        if Admin.knownString (ValidationLevel plan)
        then ValueStringPointer (ValidationLevel plan) else None in
      let action :=
        if Admin.knownString (ValidationAction plan)
        then ValueStringPointer (ValidationAction plan) else None in
      let '(expire, ts) :=
        match TimeSeries plan with
        | Some ts =>
            let '(tsopts, expire) := timeSeriesOptions ts in
            (expire, Some tsopts)
        | None => (None, None)
        end in
      do! err :=
        Admin.CreateCollection
          (ValueString (Database plan)) (ValueString (Name plan))
          (Admin.mkCreateCollectionOptions validator level action
                                           expire ts) in
      match err with
      | Some err => Done (AddError "create collection failed" err resp)
      | None =>
          Done (Set_ (mkResourceModel
                        (StringValue
                           (Collection.identity
                              (ValueString (Database plan))
                              (ValueString (Name plan))))
                        (Database plan) (Name plan) (Validator plan)
                        (ValidationLevel plan) (ValidationAction plan)
                        (TimeSeries plan))
                     resp)
      end
  end.

End Driver.

(** [doc.Lookup(key).AsInt64OK()]: the number under the key as an int64,
    when there is one. *)
Class NumberLookup (Raw : Type) : Type := {
  AsInt64OK : Raw -> string -> option Z
}.

Section Reader.
Context {Raw : Type} {L : Lib Raw} {N : NumberLookup Raw}.

(** The decoding of the "timeseries" sub-document in [Read]; [options]
    is the options document around it, which holds the expiry. *)
Definition readTimeSeries (options tsDoc : Raw) : TimeSeriesModel :=
  mkTimeSeriesModel
    (match Lookup tsDoc "timeField" with
     | RVString f => StringValue f
     | _ => StringNull
     end)
    (match Lookup tsDoc "metaField" with
     | RVString f => StringValue f
     | _ => StringNull
     end)
    (match Lookup tsDoc "granularity" with
     | RVString f => StringValue f
     | _ => StringNull
     end)
    (match AsInt64OK tsDoc "bucketMaxSpanSeconds" with
     | Some value => Int64Value value
     | None => Int64Null
     end)
    (match AsInt64OK tsDoc "bucketRoundingSeconds" with
     | Some value => Int64Value value
     | None => Int64Null
     end)
    (match AsInt64OK options "expireAfterSeconds" with
     | Some value => Int64Value value
     | None => Int64Null
     end).

Definition Read (state : ResourceModel) (resp : Response ResourceModel)
  : Mongo.prog Raw (Response ResourceModel) :=
  if HasError (Diagnostics_ resp) then Ret resp else
  call! collections :=
    ListCollectionSpecifications
      (ValueString (Database state))
      [("name", VString (ValueString (Name state)))] in
  match collections with
  | Err err =>
      Ret (AddError "Error reading collection"
             ("Failed to list collections: " ++ err) resp)
  | Ok collections =>
      match collections with
      | [collection] =>
          let '(validator, level, action, resp) :=
            match coll_Options collection with
            | Some options =>
                let '(validator, resp) :=
                  match Lookup options "validator" with
                  | RVEmbeddedDocument doc =>
                      match MarshalExtJSON doc with
                      | Err err =>
                          (Validator state,
                           AddWarning "Failed to encode validator"
                             ("validator extjson encode error: " ++ err)
                             resp)
                      | Ok jsonBytes => (StringValue jsonBytes, resp)
                      end
                  | _ => (StringNull, resp)
                  end in
                let level :=
                  match Lookup options "validationLevel" with
                  | RVString vl => StringValue vl
                  | _ => ValidationLevel state
                  end in
                let action :=
                  match Lookup options "validationAction" with
                  | RVString va => StringValue va
                  | _ => ValidationAction state
                  end in
                (validator, level, action, resp)
            | None => (StringNull, StringNull, StringNull, resp)
            end in
          let timeSeries :=
            match coll_Options collection with
            | Some options =>
                match Lookup options "timeseries" with
                | RVEmbeddedDocument tsDoc =>
                    Some (readTimeSeries options tsDoc)
                | _ => None
                end
            | None => None
            end in
          Ret (Set_ (mkResourceModel
                       (StringValue
                          (Collection.identity (ValueString (Database state))
                                               (ValueString (Name state))))
                       (Database state) (Name state) validator level action
                       timeSeries)
                    resp)
      | _ =>
          Ret (AddError "Collection not found"
                 (Go.Itoa (List.length collections)) resp)
      end
  end.

End Reader.

End CollectionTS.

(* ------------------------------------------------------------------ *)
(** ** internal/service/index, current revision: the data source *)

Module IndexDataSource.

Import Tf Mongo Bson Free.

(** [Partial] is a [jsontypes.Normalized], a string value. *)
Record DataSourceModel := mkDataSourceModel {
  ID : Tf.String;
  Database : Tf.String;
  Collection : Tf.String;
  Name : Tf.String;
  Unique : Tf.Bool;
  Sparse : Tf.Bool;
  TTL : Tf.Int32;
  Partial : Tf.String;
  Keys : list Index.indexKeyModel
}.

Section Driver.
Context {Raw Cursor : Type} {L : Lib Raw}.

Definition Read (plan : DataSourceModel) (resp : Response DataSourceModel)
  : Free.prog (Admin.call Raw Cursor) (Response DataSourceModel) :=
  if HasError (Diagnostics_ resp) then Done resp else
  Free.bind
    (Admin.ListExSpecifications (ValueString (Database plan))
                                (ValueString (Collection plan)))
    (fun indexes =>
       match indexes with
       | Err err =>
           Done (AddError "Failed to list index specifications" err resp)
       | Ok indexes =>
           match Admin.Find indexes (ValueString (Name plan)) with
           | None => Done (AddError "Index not found" "" resp)
           | Some index =>
               let partial : result Tf.String :=
                 match Admin.ex_PartialFilterExpression index with
                 | Some filter =>
                     match MarshalExtJSON filter with
                     | Err err => Err err
                     | Ok extJSON => Ok (StringValue extJSON)
                     end
                 | None => Ok (Partial plan)
                 end in
               match partial with
               | Err err =>
                   Done (AddError
                           "Failed to marshal partial filter expression"
                           err resp)
               | Ok partial =>
                   match Unmarshal (Admin.ex_KeysDocument index) with
                   | Err err =>
                       Done (AddError "Failed to decode index keys" err resp)
                   | Ok keysDoc =>
                       let '(resp, keys) :=
                         Index.decodeKeyOrder keysDoc resp in
                       Done (Set_ (mkDataSourceModel
                                     (StringValue
                                        (Index.identity
                                           (ValueString (Database plan))
                                           (ValueString (Collection plan))
                                           (ValueString (Name plan))))
                                     (Database plan) (Collection plan)
                                     (Name plan)
                                     (BoolPointerValue
                                        (Admin.ex_Unique index))
                                     (BoolPointerValue
                                        (Admin.ex_Sparse index))
                                     (Int32PointerValue
                                        (Admin.ex_ExpireAfterSeconds index))
                                     partial keys)
                                  resp)
                   end
               end
           end
       end).

End Driver.

End IndexDataSource.

(* ------------------------------------------------------------------ *)
(** ** internal/provider: the configuration of the provider *)

Module Provider.

Import Tf Mongo Free.

Record providerModel := mkProviderModel {
  URI : Tf.String;
  Username : Tf.String;
  Password : Tf.String
}.

(** [options.Credential], the fields set. *)
Record Credential := mkCredential {
  cred_Username : string;
  cred_Password : string
}.

(** [options.ClientOptions], the fields set; the timeouts are in
    nanoseconds. *)
Record ClientOptions := mkClientOptions {
  co_URI : string;
  co_Auth : option Credential;
  co_ServerSelectionTimeout : option Z;
  co_ConnectTimeout : option Z
}.

(** [provider.ConfigureResponse]: the diagnostics and the client handed
    to the resources and to the data sources. *)
Record ConfigureResponse (Client : Type) := mkConfigureResponse {
  cfg_Diagnostics : Diagnostics;
  ResourceData : option Client;
  DataSourceData : option Client
}.

Inductive call (Client : Type) : Type -> Type :=
| Connect (opts : ClientOptions) : call Client (result Client)
| Ping (client : Client) : call Client (option error)
| Disconnect (client : Client) : call Client (option error).

Arguments Connect {Client} opts.
Arguments Ping {Client} client.
Arguments Disconnect {Client} client.

Section Configure.
Context {Client : Type}.

Definition addError (summary detail : string)
           (resp : ConfigureResponse Client) : ConfigureResponse Client :=
  mkConfigureResponse
    (Append (cfg_Diagnostics resp) (ErrorDiagnostic summary detail))
    (ResourceData resp) (DataSourceData resp).

Definition Configure (config : providerModel)
           (resp : ConfigureResponse Client)
  : Free.prog (call Client) (ConfigureResponse Client) :=
  if HasError (cfg_Diagnostics resp) then Done resp else
  let uri := ValueString (URI config) in
  let user := ValueString (Username config) in
  let pass := ValueString (Password config) in
  if String.eqb uri "" then
    Done (addError "Missing URI" "The 'uri' attribute is required" resp)
  else if (negb (String.eqb user "") || negb (String.eqb pass ""))
          && Strings.ContainsByte uri "@" then
    Done (addError "Invalid Credentials Setup"
            "When username/password are provided, SRV must not contain userinfo"
            resp)
  else
    let clientOpts :=
      mkClientOptions
        uri
        (if negb (String.eqb user "") || negb (String.eqb pass "")
         then Some (mkCredential user pass) else None)
        (Some (Admin.seconds 10)) (Some (Admin.seconds 10)) in
    do! client := Connect clientOpts in
    match client with
    | Err err => Done (addError "Mongo connect failed" err resp)
    | Ok client =>
        do! err := Ping client in
        match err with
        | Some err =>
            do! _ := Disconnect client in
            Done (addError "Mongo ping failed" err resp)
        | None =>
            Done (mkConfigureResponse (cfg_Diagnostics resp)
                                      (Some client) (Some client))
        end
    end.

End Configure.

End Provider.

(* ------------------------------------------------------------------ *)
(** ** Substitutes for the rest of the surface *)

Module Fixture2.

Import Tf Mongo Bson Free.

(** A store that answers every drop and every creation with [failure],
    and lists [specs] through a cursor. *)
Definition admin (failure : option error)
           (specs : Admin.ExIndexSpecifications Fixture.Raw)
  : Free.handler (Admin.call Fixture.Raw unit) nat :=
  fun R c =>
    match c in Admin.call _ _ R return nat -> R * nat with
    | Admin.DropDatabase _ => fun n => (failure, S n)
    | Admin.DropCollection _ _ => fun n => (failure, S n)
    | Admin.DropOne _ _ _ =>
        fun n => (match failure with
                  | Some err => Err err
                  | None => Ok []
                  end, S n)
    | Admin.CreateCollection _ _ _ => fun n => (failure, S n)
    | Admin.ListIndexes _ _ => fun n => (Ok tt, S n)
    | Admin.CursorAll _ => fun n => (Ok specs, S n)
    end.

(** A deployment that accepts every connection as client 1 and answers
    the ping with [pingFailure]. *)
Definition deployment (pingFailure : option error)
  : Free.handler (Provider.call nat) nat :=
  fun R c =>
    match c in Provider.call _ R return nat -> R * nat with
    | Provider.Connect _ => fun n => (Ok 1, S n)
    | Provider.Ping _ => fun n => (pingFailure, S n)
    | Provider.Disconnect _ => fun n => (None, S n)
    end.

(** The keys document a store holds for the keys of a plan: each order
    as an int32. *)
Definition storedKeys {Raw} (keys : list Index.indexKeyModel) : D Raw :=
  map (fun k => (ValueString (Index.Field k),
                 VInt32 (ValueInt64 (Index.Order k)))) keys.

End Fixture2.

(* ================================================================== *)
(** * Properties *)

Import Tf Mongo Bson.

(** ** Running a program *)

Section Run.
Context {Raw S A : Type} (h : handler Raw S).

Lemma run_Ret (a : A) (s : S) : run h (Ret a) s = (a, s, []).
Proof. reflexivity. Qed.

Lemma run_Call {R} (c : call Raw R) (k : R -> prog Raw A) (s : S) :
  run h (Call c k) s =
  (response_of (run h (k (fst (h c s))) (snd (h c s))),
   store_of (run h (k (fst (h c s))) (snd (h c s))),
   Issued c :: trace_of (run h (k (fst (h c s))) (snd (h c s)))).
Proof.
  simpl. destruct (h c s) as [r s']. simpl.
  destruct (run h (k r) s') as [[a s''] t]. reflexivity.
Qed.

Lemma run_Call_answer {R} (c : call Raw R) (k : R -> prog Raw A)
      (s s' : S) (r : R) :
  h c s = (r, s') ->
  run h (Call c k) s =
  (response_of (run h (k r) s'), store_of (run h (k r) s'),
   Issued c :: trace_of (run h (k r) s')).
Proof. intros H. rewrite run_Call, H. reflexivity. Qed.

End Run.

(** ** C8: the index update *)

(** C8. The index update issues no store command: against any store it
    returns the desired record as the new recorded state, with no
    diagnostic, and leaves the store as it was. *)
Theorem Index_Update_issues_no_command :
  forall (Raw S : Type) (h : handler Raw S) (s : S)
         (plan : Index.ResourceModel) (recorded : option Index.ResourceModel),
    run h (Index.Update (Raw := Raw) plan (newResponse recorded)) s
    = (mkResponse [] (Some plan), s, []).
Proof. intros. reflexivity. Qed.

(** ** C9: the database update *)

(** C9. The database update issues exactly one command, the create or the
    drop of the placeholder collection, and whatever the store answers to
    it (success or any error) the response carries no diagnostic and the
    desired record is the new recorded state. *)
Theorem Database_Update_discards_toggle_outcome :
  forall (Raw S : Type) (h : handler Raw S) (s : S)
         (plan : Database.ResourceModel)
         (recorded : option Database.ResourceModel),
    let r := run h (Database.Update (Raw := Raw) plan (newResponse recorded)) s in
    response_of r = mkResponse [] (Some plan)
    /\ trace_of r =
       [Issued (RunCommand
                  (ValueString (Database.Name plan))
                  [(if ValueBool (Database.KeepPlaceholder plan)
                    then "create" else "drop",
                    VString Database.tfPlaceholderColl)])].
Proof.
  intros Raw S h s plan recorded. unfold Database.Update. simpl.
  destruct (ValueBool (Database.KeepPlaceholder plan)).
  - rewrite run_Call. simpl. split; reflexivity.
  - rewrite run_Call. simpl. split; reflexivity.
Qed.

(** ** C7: the database create *)

(** C7. When the listing of databases under the desired name succeeds:
    if it returns a name, the create fails with "Database already exists"
    and issues nothing further; if it returns none, the create issues the
    creation of the placeholder collection exactly when keepPlaceholder is
    true, takes no account of what the store answers to it, and records
    the desired record under an identity equal to the name. *)
Theorem Database_Create_spec :
  forall (Raw S : Type) (h : handler Raw S) (s s' : S)
         (plan : Database.ResourceModel) (dbs : list string),
    let name := ValueString (Database.Name plan) in
    let listing := ListDatabaseNames (Raw := Raw) [("name", VString name)] in
    h _ listing s = (Ok dbs, s') ->
    let r := run h (Database.Create plan (newResponse None)) s in
    (dbs <> [] ->
     r = (mkResponse
            [ErrorDiagnostic "Database already exists"
               ("A database named " ++ name ++ " already exists.")]
            None, s', [Issued listing]))
    /\ (dbs = [] ->
        response_of r
        = mkResponse []
            (Some (Database.mkResourceModel
                     (StringValue name) (Database.Name plan)
                     (Database.KeepPlaceholder plan)))
        /\ trace_of r
           = Issued listing
             :: (if ValueBool (Database.KeepPlaceholder plan)
                 then [Issued (RunCommand name
                                 [("create",
                                   VString Database.tfPlaceholderColl)])]
                 else [])).
Proof.
  intros Raw S h s s' plan dbs name listing Hlist r.
  subst r. unfold Database.Create, newResponse.
  cbn [HasError Diagnostics_ existsb]. fold name. fold listing.
  erewrite run_Call_answer by exact Hlist.
  split.
  - intros Hne. destruct dbs as [|d dbs]; [congruence|]. reflexivity.
  - intros ->. simpl.
    destruct (ValueBool (Database.KeepPlaceholder plan)).
    + rewrite run_Call. simpl. split; reflexivity.
    + simpl. split; reflexivity.
Qed.

Lemma Database_Create_spec_witness :
  let plan := Database.mkResourceModel StringUnknown (StringValue "app")
                                       (BoolValue true) in
  let listing :=
    ListDatabaseNames (Raw := Fixture.Raw) [("name", VString "app")] in
  Fixture.serve Fixture.empty listing 0 = (Ok [], 1)
  /\ response_of
       (run (Fixture.serve Fixture.empty)
            (Database.Create plan (newResponse None)) 0)
     = mkResponse []
         (Some (Database.mkResourceModel (StringValue "app")
                                         (StringValue "app")
                                         (BoolValue true))).
Proof.
  split; [reflexivity|].
  apply (Database_Create_spec (Fixture.serve Fixture.empty) 0
           (Database.mkResourceModel StringUnknown (StringValue "app")
                                     (BoolValue true))
           (dbs := []) (s' := 1) eq_refl).
  reflexivity.
Defined.

(** ** C6: the index create *)

Lemma existsb_hasName {Raw} (name : string)
      (specs : list (IndexSpecification Raw)) :
  existsb (Index.hasName name) specs = true
  <-> exists sp, In sp specs /\ spec_Name sp = name.
Proof.
  rewrite existsb_exists. unfold Index.hasName.
  split; intros [sp [Hin H]]; exists sp; split; auto.
  - now apply String.eqb_eq.
  - now apply String.eqb_eq.
Qed.

Lemma fold_left_snoc_map {A B} (f : A -> B) (l : list A) (acc : list B) :
  fold_left (fun keys k => keys ++ [f k]) l acc = acc ++ map f l.
Proof.
  revert acc. induction l as [|a l IH]; intros acc; simpl.
  - now rewrite app_nil_r.
  - rewrite IH. now rewrite <- app_assoc.
Qed.

(** C6. When the listing of the index specifications of the target
    collection succeeds: if a specification with the name of the desired
    index is listed, the create fails with "Index already exists" and the
    listing is the only call issued; if none is, and the partial filter
    parses, the create issues the create-index call after the listing and,
    when the store confirms a name, records the desired record under the
    identity made of the database, "/", the collection, "/" and that
    name. *)
Theorem Index_Create_spec :
  forall (Raw : Type) (L : Lib Raw) (S : Type) (h : handler Raw S)
         (s s' : S) (plan : Index.ResourceModel)
         (specs : list (IndexSpecification Raw)),
    let db := ValueString (Index.Database plan) in
    let coll := ValueString (Index.Collection plan) in
    let name := ValueString (Index.Name plan) in
    h _ (ListSpecifications db coll) s = (Ok specs, s') ->
    let r := run h (Index.Create plan (newResponse None)) s in
    ((exists sp, In sp specs /\ spec_Name sp = name) ->
     r = (mkResponse
            [ErrorDiagnostic "Index already exists"
               ("An index named " ++ name ++ " already exists.")]
            None, s', [Issued (ListSpecifications db coll)]))
    /\ (~ (exists sp, In sp specs /\ spec_Name sp = name) ->
        forall (partial : option Raw) (confirmed : string) (s'' : S),
          Spec.partialFilter plan = Ok partial ->
          h _ (CreateOne db coll (Spec.indexModel plan partial)) s'
          = (Ok confirmed, s'') ->
          r = (mkResponse []
                 (Some (Index.mkResourceModel
                          (StringValue
                             (db ++ "/" ++ coll ++ "/" ++ confirmed)%string)
                          (Index.Database plan) (Index.Collection plan)
                          (Index.Name plan) (Index.Unique plan)
                          (Index.Sparse plan) (Index.TTL plan)
                          (Index.Partial plan) (Index.Background plan)
                          (Index.Keys plan))),
               s'',
               [Issued (ListSpecifications db coll);
                Issued (CreateOne db coll (Spec.indexModel plan partial))])).
Proof.
  intros Raw L S h s s' plan specs db coll name Hlist r.
  subst r. unfold Index.Create, newResponse.
  cbn [HasError Diagnostics_ existsb]. fold db. fold coll. fold name.
  erewrite run_Call_answer by exact Hlist.
  split.
  - intros Hex. apply existsb_hasName in Hex. rewrite Hex. reflexivity.
  - intros Hno partial confirmed s'' Hpartial Hcreate.
    destruct (existsb (Index.hasName name) specs) eqn:Hex.
    { exfalso. apply Hno. now apply existsb_hasName. }
    rewrite fold_left_snoc_map. cbn [app].
    unfold Spec.partialFilter in Hpartial.
    unfold Spec.indexModel in Hcreate. fold name in Hcreate.
    destruct (String.eqb (ValueString (Index.Partial plan)) "") eqn:Hp;
      cbn [negb].
    + injection Hpartial as <-.
      erewrite run_Call_answer by exact Hcreate. reflexivity.
    + destruct (UnmarshalExtJSON (ValueString (Index.Partial plan)))
        as [raw|err]; [|discriminate].
      injection Hpartial as <-.
      erewrite run_Call_answer by exact Hcreate. reflexivity.
Qed.

Lemma Index_Create_spec_witness :
  let plan :=
    Index.mkResourceModel
      StringUnknown (StringValue "example-account") (StringValue "users")
      (StringValue "users_email") (BoolValue true) (BoolValue false)
      Int32Null StringNull (BoolValue true)
      [Index.mkIndexKeyModel (StringValue "email") (Int64Value 1)] in
  let store :=
    Fixture.serve
      (Fixture.mkStore [] [] [] [Fixture.index "_id_" [("_id", inl 1%Z)]]
                       None) in
  let model :=
    mkIndexModel (Raw := Fixture.Raw)
      [("email", VInt 1)]
      (mkIndexOptions (Some true) (Some false) None (Some "users_email")
                      (Some true) None) in
  (store _ (ListSpecifications "example-account" "users") 0
   = (Ok [Fixture.index "_id_" [("_id", inl 1%Z)]], 1)
   /\ store _ (CreateOne "example-account" "users" model) 1
      = (Ok "users_email", 2))
  /\ run store (Index.Create plan (newResponse None)) 0
     = (mkResponse []
          (Some (Index.mkResourceModel
                   (StringValue "example-account/users/users_email")
                   (StringValue "example-account") (StringValue "users")
                   (StringValue "users_email") (BoolValue true)
                   (BoolValue false) Int32Null StringNull (BoolValue true)
                   [Index.mkIndexKeyModel (StringValue "email")
                                          (Int64Value 1)])),
        2,
        [Issued (ListSpecifications "example-account" "users");
         Issued (CreateOne "example-account" "users" model)]).
Proof.
  intros plan store model. split; [split; reflexivity|].
  apply (proj2 (Index_Create_spec
                  Fixture.lib store 0 plan
                  (specs := [Fixture.index "_id_" [("_id", inl 1%Z)]])
                  (s' := 1) eq_refl)
           ltac:(intros (sp & [<-|[]] & Hn); discriminate Hn)
           None "users_email" 2 eq_refl eq_refl).
Defined.

(** The same plan against a store that already holds the index: the
    listing is the only call. *)
Example Index_Create_conflict :
  let plan :=
    Index.mkResourceModel
      StringUnknown (StringValue "example-account") (StringValue "users")
      (StringValue "users_email") (BoolValue true) (BoolValue false)
      Int32Null StringNull (BoolValue true)
      [Index.mkIndexKeyModel (StringValue "email") (Int64Value 1)] in
  let store :=
    Fixture.serve
      (Fixture.mkStore [] [] []
         [Fixture.index "_id_" [("_id", inl 1%Z)];
          Fixture.index "users_email" [("email", inl 1%Z)]] None) in
  run store (Index.Create plan (newResponse None)) 0
  = (mkResponse
       [ErrorDiagnostic "Index already exists"
          "An index named users_email already exists."]
       None, 1, [Issued (ListSpecifications "example-account" "users")]).
Proof. reflexivity. Qed.

(** ** C5: the collection update *)

(** The update, read as: nothing to send, an unreadable validator, or one
    collMod with the changed sub-fields. *)
Lemma Collection_Update_unfold {Raw} {L : Lib Raw}
      (plan state : Collection.ResourceModel) :
  Collection.Update plan state (newResponse (Some state))
  = if Spec.anyDiffers plan state then
      match (if Spec.differs (Collection.Validator plan)
                             (Collection.Validator state)
             then Spec.validatorDirective plan else Ok VNull) with
      | Err err =>
          Ret (AddError "invalid validator JSON" err
                        (newResponse (Some state)))
      | Ok directive =>
          Call (RunCommand
                  (ValueString (Collection.Database plan))
                  (("collMod", VString (ValueString (Collection.Name plan)))
                   :: Spec.collModFields plan state directive))
               (fun err =>
                  match err with
                  | Some err =>
                      Ret (AddError "collMod failed" err
                                    (newResponse (Some state)))
                  | None => Ret (Set_ plan (newResponse (Some state)))
                  end)
      end
    else Ret (Set_ plan (newResponse (Some state))).
Proof.
  unfold Collection.Update, Spec.collModFields, Spec.anyDiffers,
    Spec.validatorDirective, Spec.differs, newResponse.
  cbn [HasError Diagnostics_ existsb].
  destruct (String.eqb (ValueString (Collection.Validator plan))
                       (ValueString (Collection.Validator state)));
    destruct (String.eqb (ValueString (Collection.ValidationLevel plan))
                         (ValueString (Collection.ValidationLevel state)));
    destruct (String.eqb (ValueString (Collection.ValidationAction plan))
                         (ValueString (Collection.ValidationAction state)));
    cbn [negb orb app];
    try reflexivity;
    (destruct (String.eqb (ValueString (Collection.Validator plan)) "");
     [reflexivity
     |destruct (UnmarshalExtJSON (ValueString (Collection.Validator plan)));
      reflexivity]).
Qed.

Lemma collModFields_nil {Raw} (plan state : Collection.ResourceModel)
      (directive : Value Raw) :
  Spec.collModFields plan state directive = []
  <-> Spec.anyDiffers plan state = false.
Proof.
  unfold Spec.collModFields, Spec.anyDiffers.
  destruct (Spec.differs (Collection.Validator plan)
                         (Collection.Validator state));
    destruct (Spec.differs (Collection.ValidationLevel plan)
                           (Collection.ValidationLevel state));
    destruct (Spec.differs (Collection.ValidationAction plan)
                           (Collection.ValidationAction state));
    cbn; split; intros H; try reflexivity; discriminate H.
Qed.

Lemma trace_call_then_return {Raw S A R} (h : handler Raw S)
      (c : call Raw R) (k : R -> prog Raw A) (s : S) :
  (forall r, exists a, k r = Ret a) ->
  trace_of (run h (Call c k) s) = [Issued c].
Proof.
  intros Hk. rewrite run_Call. unfold trace_of at 1. cbn [snd].
  destruct (Hk (fst (h _ c s))) as [a ->]. reflexivity.
Qed.

(** C5. The collection update issues at most one command, a collMod of
    the collection whose sub-fields are exactly those among validator,
    validationLevel and validationAction whose desired value differs from
    the recorded one; a validator changed to the empty string is sent as
    the explicit empty document; when none of the three differs no command
    is issued; and when some differs and the changed validator (if any) is
    readable, the command is issued. *)
Theorem Collection_Update_spec :
  forall (Raw : Type) (L : Lib Raw) (S : Type) (h : handler Raw S) (s : S)
         (plan state : Collection.ResourceModel),
    let db := ValueString (Collection.Database plan) in
    let name := ValueString (Collection.Name plan) in
    let collMod directive :=
      Issued (RunCommand db (("collMod", VString name)
                             :: Spec.collModFields plan state directive)) in
    let t := trace_of (run h (Collection.Update plan state
                                (newResponse (Some state))) s) in
    (t = [] \/
     exists directive,
       t = [collMod directive]
       /\ Spec.collModFields plan state directive <> []
       /\ (Spec.differs (Collection.Validator plan)
                        (Collection.Validator state) = true ->
           ValueString (Collection.Validator plan) = "" ->
           directive = VDocument []))
    /\ (Spec.anyDiffers plan state = false -> t = [])
    /\ (forall directive,
           Spec.anyDiffers plan state = true ->
           (Spec.differs (Collection.Validator plan)
                         (Collection.Validator state) = true ->
            Spec.validatorDirective plan = Ok directive) ->
           t = [collMod directive]).
Proof.
  intros Raw L S h s plan state db name collMod t.
  assert (Hret : forall err : option error,
             exists a,
               match err with
               | Some err =>
                   Ret (Raw := Raw)
                       (AddError "collMod failed" err
                                 (newResponse (Some state)))
               | None => Ret (Set_ plan (newResponse (Some state)))
               end = Ret a).
  { intros [e|]; eexists; reflexivity. }
  subst t. rewrite Collection_Update_unfold. fold db. fold name.
  destruct (Spec.anyDiffers plan state) eqn:Hany.
  - destruct (Spec.differs (Collection.Validator plan)
                           (Collection.Validator state)) eqn:HV.
    + destruct (Spec.validatorDirective plan) as [d|err] eqn:Hd.
      * rewrite (trace_call_then_return h _ _ s Hret).
        split; [|split].
        -- right. exists d. split; [reflexivity|]. split.
           ++ intros Hnil. apply collModFields_nil in Hnil. congruence.
           ++ intros _ Hempty. unfold Spec.validatorDirective in Hd.
              rewrite Hempty in Hd. cbn in Hd. congruence.
        -- discriminate.
        -- intros d' _ Hd'. specialize (Hd' eq_refl).
           injection Hd' as <-. reflexivity.
      * split; [|split].
        -- left. reflexivity.
        -- discriminate.
        -- intros d' _ Hd'. specialize (Hd' eq_refl). discriminate.
    + rewrite (trace_call_then_return h _ _ s Hret).
      assert (Hsame : forall d,
                 Spec.collModFields plan state d
                 = Spec.collModFields plan state (VNull (Raw := Raw))).
      { intros d. unfold Spec.collModFields. rewrite HV. reflexivity. }
      split; [|split].
      * right. exists VNull. split; [reflexivity|]. split.
        -- intros Hnil. apply collModFields_nil in Hnil. congruence.
        -- discriminate.
      * discriminate.
      * intros d' _ _. subst collMod. cbn beta. rewrite (Hsame d').
        reflexivity.
  - split; [|split].
    + left. reflexivity.
    + reflexivity.
    + intros d H. discriminate.
Qed.

Lemma Collection_Update_spec_witness :
  let plan :=
    Collection.mkResourceModel
      (StringValue "app/users") (StringValue "app") (StringValue "users")
      StringNull (StringValue "moderate") (StringValue "error") in
  let state :=
    Collection.mkResourceModel
      (StringValue "app/users") (StringValue "app") (StringValue "users")
      (StringValue "{}") (StringValue "strict") (StringValue "error") in
  (Spec.anyDiffers plan state = true
   /\ Spec.validatorDirective (Raw := Fixture.Raw) plan = Ok (VDocument []))
  /\ trace_of (run (Fixture.serve Fixture.empty)
                   (Collection.Update plan state (newResponse (Some state)))
                   0)
     = [Issued (RunCommand "app"
                  [("collMod", VString "users");
                   ("validator", VDocument []);
                   ("validationLevel", VString "moderate")])].
Proof.
  intros plan state. split; [split; reflexivity|].
  apply (proj2 (proj2 (Collection_Update_spec
                         Fixture.lib (Fixture.serve Fixture.empty) 0
                         plan state))
           (VDocument []) eq_refl).
  intros _. reflexivity.
Defined.

(** Nothing changed: nothing is sent. *)
Example Collection_Update_unchanged :
  let state :=
    Collection.mkResourceModel
      (StringValue "app/users") (StringValue "app") (StringValue "users")
      StringNull (StringValue "strict") (StringValue "error") in
  run (Fixture.serve Fixture.empty)
      (Collection.Update state state (newResponse (Some state))) 0
  = (mkResponse [] (Some state), 0, []).
Proof. reflexivity. Qed.

(** ** C1: a read that finds the object missing *)

(** At the collection kind the claim fails: with no specification under
    the recorded name, the read reports "Collection not found" and leaves
    the recorded state in place. *)
Lemma Collection_Read_absent_is_an_error :
  let state :=
    Collection.mkResourceModel
      (StringValue "example-account/users") (StringValue "example-account")
      (StringValue "users") StringNull (StringValue "strict")
      (StringValue "error") in
  let resp :=
    response_of (run (Fixture.serve Fixture.empty)
                     (Collection.Read state (newResponse (Some state))) 0) in
  resp = mkResponse [ErrorDiagnostic "Collection not found" "0"]
                    (Some state)
  /\ ~ (State resp = None /\ HasError (Diagnostics_ resp) = false).
Proof.
  split; [reflexivity|]. cbv. intros [H _]. discriminate H.
Qed.

(** The index read of a missing index, run on the substitute store: the
    resource is removed and, the early return being missing, the lookup
    that follows reports "Index not found". *)
Example Index_Read_absent_removes_then_reports :
  let state :=
    Index.mkResourceModel
      (StringValue "example-account/users/users_email")
      (StringValue "example-account") (StringValue "users")
      (StringValue "users_email") (BoolValue true) (BoolValue false)
      Int32Null StringNull (BoolValue true)
      [Index.mkIndexKeyModel (StringValue "email") (Int64Value 1)] in
  response_of (run (Fixture.serve Fixture.empty)
                   (Index.Read state (newResponse (Some state))) 0)
  = mkResponse [ErrorDiagnostic "Index not found" ""] None.
Proof. reflexivity. Qed.

(** C1 (amended). When the listing succeeds and the object is missing:
    the database read (no collection listed) removes the resource and
    reports no diagnostic; the collection read (no specification under
    the name) reports the error "Collection not found" and keeps the
    recorded state; the index read (no specification with the recorded
    name) removes the resource from the recorded state. *)
Theorem Read_absent_spec :
  forall (Raw : Type) (L : Lib Raw) (S : Type) (h : handler Raw S) (s : S),
    (forall (state : Database.ResourceModel) (s' : S),
        let listing :=
          ListCollectionNames (ValueString (Database.Name state)) [] in
        h _ listing s = (Ok [], s') ->
        run h (Database.Read state (newResponse (Some state))) s
        = (mkResponse [] None, s', [Issued listing]))
    /\ (forall (state : Collection.ResourceModel) (s' : S),
           let listing :=
             ListCollectionSpecifications
               (ValueString (Collection.Database state))
               [("name", VString (ValueString (Collection.Name state)))] in
           h _ listing s = (Ok [], s') ->
           run h (Collection.Read state (newResponse (Some state))) s
           = (mkResponse [ErrorDiagnostic "Collection not found" "0"]
                         (Some state), s', [Issued listing]))
    /\ (forall (state : Index.ResourceModel)
               (specs : list (IndexSpecification Raw)) (s' : S),
           let listing :=
             ListSpecifications (ValueString (Index.Database state))
                                (ValueString (Index.Collection state)) in
           h _ listing s = (Ok specs, s') ->
           ~ (exists sp, In sp specs
                         /\ spec_Name sp = ValueString (Index.Name state)) ->
           let r := run h (Index.Read state (newResponse (Some state))) s in
           State (response_of r) = None
           /\ store_of r = s'
           /\ trace_of r = [Issued listing]).
Proof.
  intros Raw L S h s. split; [|split].
  - intros state s' listing Hlist.
    unfold Database.Read, newResponse. cbn [HasError Diagnostics_ existsb].
    fold listing. erewrite run_Call_answer by exact Hlist. reflexivity.
  - intros state s' listing Hlist.
    unfold Collection.Read, newResponse.
    cbn [HasError Diagnostics_ existsb].
    fold listing. erewrite run_Call_answer by exact Hlist. reflexivity.
  - intros state specs s' listing Hlist Hno r. subst r.
    unfold Index.Read, newResponse. cbn [HasError Diagnostics_ existsb].
    fold listing. erewrite run_Call_answer by exact Hlist.
    cbv beta iota. cbn [response_of store_of trace_of fst snd].
    destruct (existsb (Index.hasName (ValueString (Index.Name state))) specs)
      eqn:Hex.
    { exfalso. apply Hno. now apply existsb_hasName. }
    destruct (find (Index.hasName (ValueString (Index.Name state))) specs)
      as [sp|] eqn:Hfind.
    { exfalso. apply find_some in Hfind. destruct Hfind as [Hin Hname].
      apply Hno. exists sp. split; [exact Hin|].
      now apply String.eqb_eq. }
    cbn [negb]. rewrite run_Ret. cbn. split; [|split]; reflexivity.
Qed.

Lemma Read_absent_spec_witness :
  let database :=
    Database.mkResourceModel (StringValue "app") (StringValue "app")
                             (BoolValue true) in
  let collection :=
    Collection.mkResourceModel
      (StringValue "app/users") (StringValue "app") (StringValue "users")
      StringNull (StringValue "strict") (StringValue "error") in
  let index :=
    Index.mkResourceModel
      (StringValue "app/users/users_email") (StringValue "app")
      (StringValue "users") (StringValue "users_email")
      (BoolValue true) (BoolValue false) Int32Null StringNull
      (BoolValue true)
      [Index.mkIndexKeyModel (StringValue "email") (Int64Value 1)] in
  let store := Fixture.serve Fixture.empty in
  (store _ (ListCollectionNames "app" []) 0 = (Ok [], 1)
   /\ store _ (ListCollectionSpecifications
                 "app" [("name", VString "users")]) 0 = (Ok [], 1)
   /\ store _ (ListSpecifications "app" "users") 0 = (Ok [], 1))
  /\ run store (Database.Read database (newResponse (Some database))) 0
     = (mkResponse [] None, 1, [Issued (ListCollectionNames "app" [])])
  /\ response_of
       (run store (Collection.Read collection
                     (newResponse (Some collection))) 0)
     = mkResponse [ErrorDiagnostic "Collection not found" "0"]
                  (Some collection)
  /\ State (response_of
              (run store (Index.Read index (newResponse (Some index))) 0))
     = None.
Proof.
  intros database collection index store.
  destruct (Read_absent_spec Fixture.lib store 0) as (Hdb & Hcoll & Hidx).
  split; [repeat split|]. split; [|split].
  - apply (Hdb database 1). reflexivity.
  - rewrite (Hcoll collection 1 eq_refl). reflexivity.
  - apply (Hidx index [] 1 eq_refl).
    intros (sp & Hin & _). exact Hin.
Defined.

(** ** C2, C10: decoding the key order *)

Lemma diag_eqb_eq (a b : Diagnostic) : diag_eqb a b = true -> a = b.
Proof.
  destruct a as [s d|s d], b as [s' d'|s' d']; simpl; try discriminate;
    intros H; apply andb_true_iff in H; destruct H as [H1 H2];
    apply String.eqb_eq in H1; apply String.eqb_eq in H2; now subst.
Qed.

Lemma In_Append_old (ds : Diagnostics) (x d : Diagnostic) :
  In d ds -> In d (Append ds x).
Proof.
  unfold Append. destruct (Contains ds x); [easy|].
  intros H. apply in_or_app. now left.
Qed.

Lemma In_Append_new (ds : Diagnostics) (x : Diagnostic) :
  In x (Append ds x).
Proof.
  unfold Append. destruct (Contains ds x) eqn:HC.
  - unfold Contains in HC. apply existsb_exists in HC.
    destruct HC as [y [Hin Heq]]. apply diag_eqb_eq in Heq. now subst.
  - apply in_or_app. right. now left.
Qed.

Lemma In_Append_inv (ds : Diagnostics) (x d : Diagnostic) :
  In d (Append ds x) -> In d ds \/ d = x.
Proof.
  unfold Append. destruct (Contains ds x); [now left|].
  intros H. apply in_app_or in H. destruct H as [H|[H|[]]]; auto.
Qed.

Lemma HasError_Append_warning (ds : Diagnostics) (summary detail : string) :
  HasError (Append ds (WarningDiagnostic summary detail)) = HasError ds.
Proof.
  unfold Append. destruct (Contains ds _); [reflexivity|].
  unfold HasError. rewrite existsb_app. simpl. now rewrite !orb_false_r.
Qed.

Section Decode.
Context {Raw : Type} {L : Lib Raw} {M : Type}.

Lemma orderOf_numeric (v : Value Raw) :
  Index.orderOf v
  = if Spec.isNumeric v then Some (Spec.direction v) else None.
Proof. destruct v; reflexivity. Qed.

Lemma decodeEntry_numeric (resp : Response M)
      (keys : list Index.indexKeyModel) (e : E Raw) :
  Spec.isNumeric (snd e) = true ->
  Index.decodeEntry (resp, keys) e = (resp, keys ++ [Spec.keyOf e]).
Proof.
  intros H. unfold Index.decodeEntry. rewrite orderOf_numeric, H.
  reflexivity.
Qed.

Lemma decodeEntry_other (resp : Response M)
      (keys : list Index.indexKeyModel) (e : E Raw) :
  Spec.isNumeric (snd e) = false ->
  Index.decodeEntry (resp, keys) e
  = (mkResponse (Append (Diagnostics_ resp) (Spec.skipWarning e))
                (State resp), keys).
Proof.
  intros H. unfold Index.decodeEntry. rewrite orderOf_numeric, H.
  reflexivity.
Qed.

(** The invariant of the loop, from any accumulator. *)
Lemma decode_loop (keysDoc : D Raw) :
  forall (resp : Response M) (keys : list Index.indexKeyModel),
    let r := fold_left Index.decodeEntry keysDoc (resp, keys) in
    snd r
    = keys ++ map Spec.keyOf
                  (filter (fun e => Spec.isNumeric (snd e)) keysDoc)
    /\ State (fst r) = State resp
    /\ HasError (Diagnostics_ (fst r)) = HasError (Diagnostics_ resp)
    /\ (forall d, In d (Diagnostics_ resp) -> In d (Diagnostics_ (fst r)))
    /\ (forall e, In e keysDoc -> Spec.isNumeric (snd e) = false ->
                  In (Spec.skipWarning e) (Diagnostics_ (fst r)))
    /\ (forall d, In d (Diagnostics_ (fst r)) ->
                  In d (Diagnostics_ resp)
                  \/ exists e, In e keysDoc
                               /\ Spec.isNumeric (snd e) = false
                               /\ d = Spec.skipWarning e).
Proof.
  induction keysDoc as [|e doc IH]; intros resp keys r.
  - subst r. simpl. rewrite app_nil_r.
    split; [reflexivity|]. split; [reflexivity|]. split; [reflexivity|].
    split; [auto|]. split; [intros e []|]. intros d Hd. now left.
  - subst r. cbn [fold_left filter].
    destruct (Spec.isNumeric (snd e)) eqn:Hnum.
    + rewrite (decodeEntry_numeric resp keys e Hnum).
      destruct (IH resp (keys ++ [Spec.keyOf e]))
        as (Hk & Hs & He & Hold & Hnew & Honly).
      split; [|split; [|split; [|split; [|split]]]]; auto.
      * rewrite Hk. cbn [map]. now rewrite <- app_assoc.
      * intros e' [<-|Hin] Hn; [congruence|]. now apply Hnew.
      * intros d Hd. destruct (Honly d Hd) as [H|(e' & Hin & Hn & Heq)];
          [now left|]. right. exists e'. split; [now right|]. now split.
    + rewrite (decodeEntry_other resp keys e Hnum).
      destruct (IH (mkResponse (Append (Diagnostics_ resp)
                                       (Spec.skipWarning e))
                               (State resp)) keys)
        as (Hk & Hs & He & Hold & Hnew & Honly).
      cbn [Diagnostics_ State] in *.
      split; [|split; [|split; [|split; [|split]]]]; auto.
      * rewrite He. apply HasError_Append_warning.
      * intros d Hd. apply Hold. now apply In_Append_old.
      * intros e' [<-|Hin] Hn; [|now apply Hnew].
        apply Hold. apply In_Append_new.
      * intros d Hd. destruct (Honly d Hd) as [H|(e' & Hin & Hn & Heq)].
        -- apply In_Append_inv in H. destruct H as [H| ->]; [now left|].
           right. exists e. split; [now left|]. now split.
        -- right. exists e'. split; [now right|]. now split.
Qed.

Lemma direction_int64 (v : Value Raw) :
  Spec.isNumeric v = true -> Spec.wellTyped v = true ->
  Go.in_int64 (Spec.direction v) = true.
Proof.
  destruct v; try discriminate; intros _ Hwt; cbn in *.
  - destruct f as [s|s| |s m e]; cbn;
      try apply float64_oob_int64; try reflexivity.
    destruct (Go.in_int64 (Go.truncate s m e)) eqn:Hin;
      [exact Hin|apply float64_oob_int64].
  - unfold Go.in_int32 in Hwt. unfold Go.in_int64, Go.minInt64, Go.maxInt64.
    apply andb_true_iff in Hwt. destruct Hwt as [H1 H2].
    apply Z.leb_le in H1. apply Z.leb_le in H2.
    apply andb_true_iff. split; apply Z.leb_le; lia.
  - exact Hwt.
Qed.

End Decode.

(** C2. Decoding the key order of a keys document whose int32 and int64
    values are in range yields, in the order of the document, one pair
    (field, direction) for each entry whose value is an int32, an int64 or
    a float64, the direction being a signed 64-bit integer; every other
    entry gives no pair and has its warning, which names the field and the
    kind met, among the diagnostics; the decode adds nothing but such
    warnings, so it raises no error, and it leaves the state alone. *)
Theorem decodeKeyOrder_spec :
  forall (Raw : Type) (L : Lib Raw) (M : Type)
         (keysDoc : D Raw) (resp : Response M),
    (forall e, In e keysDoc -> Spec.wellTyped (snd e) = true) ->
    let numeric := filter (fun e => Spec.isNumeric (snd e)) keysDoc in
    let r := Index.decodeKeyOrder keysDoc resp in
    snd r = map Spec.keyOf numeric
    /\ (forall e, In e numeric ->
                  Go.in_int64 (Spec.direction (snd e)) = true)
    /\ (forall e, In e keysDoc -> Spec.isNumeric (snd e) = false ->
                  In (Spec.skipWarning e) (Diagnostics_ (fst r)))
    /\ (forall d, In d (Diagnostics_ (fst r)) ->
                  In d (Diagnostics_ resp)
                  \/ exists e, In e keysDoc
                               /\ Spec.isNumeric (snd e) = false
                               /\ d = Spec.skipWarning e)
    /\ HasError (Diagnostics_ (fst r)) = HasError (Diagnostics_ resp)
    /\ State (fst r) = State resp.
Proof.
  intros Raw L M keysDoc resp Hwt numeric r.
  destruct (decode_loop keysDoc resp [])
    as (Hk & Hs & He & _ & Hnew & Honly).
  fold (Index.decodeKeyOrder keysDoc resp) in *. fold r in Hk, Hs, He, Hnew, Honly.
  split; [exact Hk|]. split.
  - intros e Hin. apply filter_In in Hin. destruct Hin as [Hin Hnum].
    apply direction_int64; [exact Hnum|now apply Hwt].
  - repeat split; assumption.
Qed.

Lemma decodeKeyOrder_spec_witness :
  let keysDoc : D Fixture.Raw :=
    [("a", VInt32 1); ("loc", VString "2dsphere"); ("b", VInt64 (-1))] in
  (forall e, In e keysDoc -> Spec.wellTyped (snd e) = true)
  /\ snd (Index.decodeKeyOrder keysDoc (newResponse (M := unit) None))
     = [Index.mkIndexKeyModel (StringValue "a") (Int64Value 1);
        Index.mkIndexKeyModel (StringValue "b") (Int64Value (-1))].
Proof.
  assert (Hwt : forall e : E Fixture.Raw,
             In e [("a", VInt32 1); ("loc", VString "2dsphere");
                   ("b", VInt64 (-1))] ->
             Spec.wellTyped (snd e) = true).
  { intros e [<-|[<-|[<-|[]]]]; reflexivity. }
  split; [exact Hwt|].
  exact (proj1 (decodeKeyOrder_spec Fixture.lib
                  [("a", VInt32 1); ("loc", VString "2dsphere");
                   ("b", VInt64 (-1))]
                  (newResponse (M := unit) None) Hwt)).
Defined.

(** The example of the specification: one key, one warning that names
    the field and the kind. *)
Example decodeKeyOrder_skips_2dsphere :
  Index.decodeKeyOrder (Raw := Fixture.Raw)
    [("a", VInt32 1); ("loc", VString "2dsphere")]
    (newResponse (M := unit) None)
  = (mkResponse
       [WarningDiagnostic "Non-numeric index key order encountered"
          (String.append "Field "
             (String.append Fixture.dquote
                (String.append "loc"
                   (String.append Fixture.dquote
                      " has unsupported type string (value 2dsphere). Skipping."))))]
       None,
     [Index.mkIndexKeyModel (StringValue "a") (Int64Value 1)]).
Proof. reflexivity. Qed.

(** The two reads decode the keys of the index they find with this loop
    and record the result. *)
Lemma Index_Read_decodes_keys {Raw} {L : Lib Raw} {S} (h : handler Raw S)
      (s s' : S) (state : Index.ResourceModel)
      (specs : list (IndexSpecification Raw)) (index : IndexSpecification Raw)
      (keysDoc : D Raw) :
  h _ (ListSpecifications (ValueString (Index.Database state))
                          (ValueString (Index.Collection state))) s
  = (Ok specs, s') ->
  find (Index.hasName (ValueString (Index.Name state))) specs = Some index ->
  Unmarshal (spec_KeysDocument index) = Ok keysDoc ->
  let decoded := Index.decodeKeyOrder keysDoc (newResponse (Some state)) in
  let resp := response_of (run h (Index.Read state
                                    (newResponse (Some state))) s) in
  Diagnostics_ resp = Diagnostics_ (fst decoded)
  /\ option_map Index.Keys (State resp) = Some (snd decoded).
Proof.
  intros Hlist Hfind Hdoc decoded resp. subst resp.
  unfold Index.Read, newResponse. cbn [HasError Diagnostics_ existsb].
  erewrite run_Call_answer by exact Hlist.
  cbv beta iota. cbn [response_of store_of trace_of fst snd].
  rewrite Hfind, Hdoc.
  assert (Hex : existsb (Index.hasName (ValueString (Index.Name state)))
                        specs = true).
  { apply existsb_exists. exists index. now apply find_some in Hfind. }
  rewrite Hex. cbn [negb].
  fold (newResponse (Some state)). fold decoded.
  destruct decoded as [resp' keys]. rewrite run_Ret. split; reflexivity.
Qed.

Lemma Index_DataSourceRead_decodes_keys {Raw} {L : Lib Raw} {S}
      (h : handler Raw S) (s s' : S) (plan : Index.DataSourceModel)
      (specs : list (IndexSpecification Raw)) (index : IndexSpecification Raw)
      (keysDoc : D Raw) :
  h _ (ListSpecifications (ValueString (Index.ds_Database plan))
                          (ValueString (Index.ds_Collection plan))) s
  = (Ok specs, s') ->
  find (Index.hasName (ValueString (Index.ds_Name plan))) specs = Some index ->
  Unmarshal (spec_KeysDocument index) = Ok keysDoc ->
  let decoded :=
    Index.decodeKeyOrder keysDoc
                         (newResponse (M := Index.DataSourceModel) None) in
  let resp := response_of (run h (Index.DataSourceRead plan
                                    (newResponse None)) s) in
  Diagnostics_ resp = Diagnostics_ (fst decoded)
  /\ option_map Index.ds_Keys (State resp) = Some (snd decoded).
Proof.
  intros Hlist Hfind Hdoc decoded resp. subst resp.
  unfold Index.DataSourceRead, newResponse.
  cbn [HasError Diagnostics_ existsb].
  erewrite run_Call_answer by exact Hlist.
  cbv beta iota. cbn [response_of store_of trace_of fst snd].
  rewrite Hfind, Hdoc.
  fold (newResponse (M := Index.DataSourceModel) None). fold decoded.
  destruct decoded as [resp' keys]. rewrite run_Ret. split; reflexivity.
Qed.

Lemma truncate_toward_zero (s : bool) (m : positive) (e : Z) :
  let t := Go.truncate s m e in
  ((if s then t <= 0 else 0 <= t)
   /\ (e < 0 ->
       Z.abs t * 2 ^ (- e) <= Z.pos m < (Z.abs t + 1) * 2 ^ (- e))
   /\ (0 <= e -> Z.abs t = Z.pos m * 2 ^ e))%Z.
Proof.
  intros t. subst t. unfold Go.truncate.
  destruct (0 <=? e)%Z eqn:He.
  - apply Z.leb_le in He.
    assert (Hp : (0 < 2 ^ e)%Z) by (apply Z.pow_pos_nonneg; lia).
    split; [|split].
    + destruct s; nia.
    + lia.
    + intros _. destruct s.
      * rewrite Z.abs_mul. rewrite (Z.abs_eq (2 ^ e)) by lia. reflexivity.
      * rewrite Z.abs_mul. rewrite (Z.abs_eq (2 ^ e)) by lia. reflexivity.
  - apply Z.leb_gt in He.
    assert (Hp : (0 < 2 ^ (- e))%Z) by (apply Z.pow_pos_nonneg; lia).
    assert (Hq : (Z.abs (Z.quot (if s then Z.neg m else Z.pos m)
                                (2 ^ (- e)))
                  = Z.pos m / 2 ^ (- e))%Z).
    { rewrite <- Z.quot_abs by lia.
      rewrite (Z.abs_eq (2 ^ (- e))) by lia.
      replace (Z.abs (if s then Z.neg m else Z.pos m)) with (Z.pos m)
        by (destruct s; reflexivity).
      apply Z.quot_div_nonneg; lia. }
    split; [|split].
    + destruct s.
      * change (Z.neg m) with (- Z.pos m)%Z. rewrite Z.quot_opp_l by lia.
        assert (0 <= Z.quot (Z.pos m) (2 ^ (- e)))%Z
          by (apply Z.quot_pos; lia).
        lia.
      * apply Z.quot_pos; lia.
    + intros _. rewrite Hq. split.
      * rewrite Z.mul_comm. apply Z.mul_div_le. lia.
      * rewrite Z.mul_comm. apply Z.mul_succ_div_gt. lia.
    + lia.
Qed.

(** C10. A key entry whose value is a finite float64 within the range of
    int64 is decoded as the value with its fraction discarded (rounded
    toward zero), integral or not: the loop appends the pair and leaves
    the diagnostics as they are, so no warning is given. *)
Theorem decodeKeyOrder_float64_truncates :
  forall (Raw : Type) (L : Lib Raw) (M : Type) (resp : Response M)
         (keys : list Index.indexKeyModel) (field : string)
         (s : bool) (m : positive) (e : Z),
    let t := Go.truncate s m e in
    Go.in_int64 t = true ->
    Index.decodeEntry (resp, keys) (field, VDouble (S754_finite s m e))
    = (resp, keys ++ [Index.mkIndexKeyModel (StringValue field)
                                            (Int64Value t)])
    /\ Index.decodeKeyOrder [(field, VDouble (S754_finite s m e))] resp
       = (resp, [Index.mkIndexKeyModel (StringValue field) (Int64Value t)])
    /\ ((if s then t <= 0 else 0 <= t)
        /\ (e < 0 ->
            Z.abs t * 2 ^ (- e) <= Z.pos m < (Z.abs t + 1) * 2 ^ (- e))
        /\ (0 <= e -> Z.abs t = Z.pos m * 2 ^ e))%Z.
Proof.
  intros Raw L M resp keys field s m e t Hin.
  assert (Hstep : forall ks,
             Index.decodeEntry (resp, ks)
                               (field, VDouble (S754_finite s m e))
             = (resp, ks ++ [Index.mkIndexKeyModel (StringValue field)
                                                   (Int64Value t)])).
  { intros ks. unfold Index.decodeEntry. cbn [snd fst Index.orderOf].
    unfold int64_of_float64. fold t. rewrite Hin. reflexivity. }
  split; [apply Hstep|]. split.
  - unfold Index.decodeKeyOrder. cbn [fold_left]. apply Hstep.
  - apply truncate_toward_zero.
Qed.

Lemma decodeKeyOrder_float64_truncates_witness :
  Go.in_int64 (Go.truncate false 6755399441055744 (-52)) = true
  /\ Index.decodeKeyOrder (Raw := Fixture.Raw)
       [("x", VDouble Spec.one_and_a_half)] (newResponse (M := unit) None)
     = (newResponse None,
        [Index.mkIndexKeyModel (StringValue "x") (Int64Value 1)]).
Proof.
  split; [reflexivity|].
  exact (proj1 (proj2 (decodeKeyOrder_float64_truncates
                         Fixture.lib (newResponse (M := unit) None) []
                         "x" false 6755399441055744 (-52) eq_refl))).
Defined.

(** 1.0 decodes the same way, to 1. *)
Example decodeKeyOrder_integral_float :
  Index.decodeKeyOrder (Raw := Fixture.Raw)
    [("x", VDouble Spec.one)] (newResponse (M := unit) None)
  = (newResponse None,
     [Index.mkIndexKeyModel (StringValue "x") (Int64Value 1)]).
Proof. reflexivity. Qed.

(** ** C3, C4: identities *)

Lemma cut_Some (sep : ascii) (s a b : string) :
  Strings.cut sep s = Some (a, b) ->
  s = (a ++ String.String sep b)%string /\ Strings.ContainsByte a sep = false.
Proof.
  revert a b. induction s as [|c s IH]; intros a b; simpl; [discriminate|].
  destruct (Ascii.eqb c sep) eqn:Hc.
  - intros H. injection H as <- <-. apply Ascii.eqb_eq in Hc. subst c.
    split; reflexivity.
  - destruct (Strings.cut sep s) as [[a' b']|]; [|discriminate].
    intros H. injection H as <- <-.
    destruct (IH a' b' eq_refl) as [-> Hno]. split; [reflexivity|].
    simpl. now rewrite Hc, Hno.
Qed.

Lemma cut_app (sep : ascii) (a b : string) :
  Strings.ContainsByte a sep = false ->
  Strings.cut sep (a ++ String.String sep b) = Some (a, b).
Proof.
  induction a as [|c a IH]; simpl; intros H.
  - now rewrite Ascii.eqb_refl.
  - apply orb_false_iff in H. destruct H as [Hc Ha].
    rewrite Hc, (IH Ha). reflexivity.
Qed.

Lemma eqb_empty_false (a b : string) :
  a <> "" -> String.eqb (a ++ b) "" = false.
Proof. destruct a; [congruence|reflexivity]. Qed.

Lemma eqb_empty (a : string) :
  String.eqb a "" = false <-> a <> "".
Proof. apply String.eqb_neq. Qed.

Lemma Collection_ImportState_accepts (reqID d n : string) :
  Strings.TrimSpace reqID = Collection.identity d n ->
  d <> "" -> n <> "" -> Strings.ContainsByte d "/" = false ->
  Collection.ImportState reqID (newResponse None)
  = Set_ (Collection.mkResourceModel
            (StringValue (Collection.identity d n))
            (StringValue d) (StringValue n) StringNull StringNull StringNull)
         (newResponse None).
Proof.
  intros Hid Hd Hn Hno. unfold Collection.ImportState. rewrite Hid.
  unfold Collection.identity at 1 2. rewrite (@eqb_empty_false d _ Hd).
  cbn [Strings.SplitN String.append].
  rewrite (@cut_app "/"%char d n Hno).
  apply eqb_empty in Hd. apply eqb_empty in Hn. rewrite Hd, Hn.
  reflexivity.
Qed.

Lemma Collection_ImportState_accepted (reqID : string) :
  HasError (Diagnostics_ (Collection.ImportState reqID (newResponse None)))
  = false ->
  exists d n,
    Strings.TrimSpace reqID = Collection.identity d n
    /\ d <> "" /\ n <> "" /\ Strings.ContainsByte d "/" = false.
Proof.
  unfold Collection.ImportState.
  destruct (String.eqb (Strings.TrimSpace reqID) ""); [discriminate|].
  cbn [Strings.SplitN].
  destruct (Strings.cut "/" (Strings.TrimSpace reqID)) as [[a b]|] eqn:Hcut;
    [|discriminate].
  destruct (String.eqb a "") eqn:Ha; [discriminate|].
  destruct (String.eqb b "") eqn:Hb; [discriminate|].
  intros _. apply cut_Some in Hcut. destruct Hcut as [Hid Hno].
  exists a, b. split; [exact Hid|].
  split; [now apply eqb_empty|]. split; [now apply eqb_empty|exact Hno].
Qed.

Lemma Index_ImportState_accepts (reqID d c n : string) :
  Strings.TrimSpace reqID = Index.identity d c n ->
  d <> "" -> c <> "" -> n <> "" ->
  Strings.ContainsByte d "/" = false -> Strings.ContainsByte c "/" = false ->
  Index.ImportState reqID (newResponse None)
  = Set_ (Index.mkResourceModel
            (StringValue (Index.identity d c n))
            (StringValue d) (StringValue c) (StringValue n)
            BoolNull BoolNull Int32Null StringNull BoolNull [])
         (newResponse None).
Proof.
  intros Hid Hd Hc Hn Hnod Hnoc. unfold Index.ImportState. rewrite Hid.
  unfold Index.identity at 1 2. rewrite (@eqb_empty_false d _ Hd).
  cbn [Strings.SplitN String.append].
  rewrite (@cut_app "/"%char d (c ++ String.String "/" n) Hnod).
  rewrite (@cut_app "/"%char c n Hnoc).
  apply eqb_empty in Hd. apply eqb_empty in Hc. apply eqb_empty in Hn.
  rewrite Hd, Hc, Hn. reflexivity.
Qed.

Lemma Index_ImportState_accepted (reqID : string) :
  HasError (Diagnostics_ (Index.ImportState reqID (newResponse None)))
  = false ->
  exists d c n,
    Strings.TrimSpace reqID = Index.identity d c n
    /\ d <> "" /\ c <> "" /\ n <> ""
    /\ Strings.ContainsByte d "/" = false
    /\ Strings.ContainsByte c "/" = false.
Proof.
  unfold Index.ImportState.
  destruct (String.eqb (Strings.TrimSpace reqID) ""); [discriminate|].
  cbn [Strings.SplitN].
  destruct (Strings.cut "/" (Strings.TrimSpace reqID)) as [[a r]|] eqn:Hcut;
    [|discriminate].
  destruct (Strings.cut "/" r) as [[b c]|] eqn:Hcut2; [|discriminate].
  destruct (String.eqb a "") eqn:Ha; [discriminate|].
  destruct (String.eqb b "") eqn:Hb; [discriminate|].
  destruct (String.eqb c "") eqn:Hc; [discriminate|].
  intros _. apply cut_Some in Hcut. destruct Hcut as [Hid Hnoa].
  apply cut_Some in Hcut2. destruct Hcut2 as [Hr Hnob].
  exists a, b, c. split; [rewrite Hid, Hr; reflexivity|].
  repeat (split; [now apply eqb_empty|]). split; assumption.
Qed.

(** An identity with more separators than the shape has is accepted: the
    text after the second separator is the name. *)
Lemma Index_ImportState_accepts_extra_separator :
  let resp := Index.ImportState "db/coll/a/b" (newResponse None) in
  HasError (Diagnostics_ resp) = false
  /\ option_map Index.Name (State resp) = Some (StringValue "a/b").
Proof. split; reflexivity. Qed.

(** The database shape splits nothing: any identity that is not blank is
    accepted whole. *)
Example Database_ImportState_accepts_separator :
  Database.ImportState " a/b " (newResponse None)
  = mkResponse [] (Some (Database.mkResourceModel
                           (StringValue "a/b") (StringValue "a/b") BoolNull)).
Proof. reflexivity. Qed.

(** C3 (amended). Decoding an identity trims it first.  The database
    shape fails exactly when the trimmed text is empty.  The collection
    shape succeeds exactly when the trimmed text is d/n with d non-empty
    and free of '/' and n non-empty; the index shape exactly when it is
    d/c/n with d and c non-empty and free of '/' and n non-empty.  The
    last segment is what follows the last required separator and may
    hold further separators. *)
Theorem ImportState_rejects_exactly :
  forall reqID : string,
    let id := Strings.TrimSpace reqID in
    (HasError (Diagnostics_ (Database.ImportState reqID (newResponse None)))
     = true
     <-> id = "")
    /\ (HasError (Diagnostics_
                    (Collection.ImportState reqID (newResponse None)))
        = true
        <-> ~ exists d n,
              id = Collection.identity d n
              /\ d <> "" /\ n <> "" /\ Strings.ContainsByte d "/" = false)
    /\ (HasError (Diagnostics_ (Index.ImportState reqID (newResponse None)))
        = true
        <-> ~ exists d c n,
              id = Index.identity d c n
              /\ d <> "" /\ c <> "" /\ n <> ""
              /\ Strings.ContainsByte d "/" = false
              /\ Strings.ContainsByte c "/" = false).
Proof.
  intros reqID id. split; [|split].
  - unfold Database.ImportState. fold id.
    destruct (String.eqb id "") eqn:He.
    + apply String.eqb_eq in He. split; [intros _; exact He|reflexivity].
    + apply String.eqb_neq in He. split; [discriminate|congruence].
  - split.
    + intros Herr (d & n & Hid & Hd & Hn & Hno).
      rewrite (@Collection_ImportState_accepts reqID d n Hid Hd Hn Hno) in Herr.
      discriminate Herr.
    + intros Hno.
      destruct (HasError (Diagnostics_
                            (Collection.ImportState reqID (newResponse None))))
        eqn:Herr; [reflexivity|].
      exfalso. apply Hno. now apply Collection_ImportState_accepted.
  - split.
    + intros Herr (d & c & n & Hid & Hd & Hc & Hn & Hnod & Hnoc).
      rewrite (@Index_ImportState_accepts reqID d c n Hid Hd Hc Hn Hnod Hnoc)
        in Herr.
      discriminate Herr.
    + intros Hno.
      destruct (HasError (Diagnostics_
                            (Index.ImportState reqID (newResponse None))))
        eqn:Herr; [reflexivity|].
      exfalso. apply Hno. now apply Index_ImportState_accepted.
Qed.

(** A part with leading white space does not come back: the import trims
    the identity. *)
Lemma Collection_round_trip_loses_leading_space :
  let d := " db" in
  let n := "users" in
  d <> "" /\ n <> ""
  /\ Strings.ContainsByte d "/" = false
  /\ Strings.ContainsByte n "/" = false
  /\ option_map Collection.Database
       (State (Collection.ImportState (Collection.identity d n)
                                      (newResponse None)))
     = Some (StringValue "db")
  /\ StringValue "db" <> StringValue d.
Proof. repeat split; try discriminate; reflexivity. Qed.

(** C4 (amended). For database, collection and name strings that are
    non-empty and hold no '/', and whose encoded identity has no white
    space at either end, decoding the encoded identity gives back the
    parts, for the three shapes. *)
Theorem ImportState_identity_round_trip :
  forall d c n : string,
    d <> "" -> c <> "" -> n <> "" ->
    Strings.ContainsByte d "/" = false ->
    Strings.ContainsByte c "/" = false ->
    Strings.ContainsByte n "/" = false ->
    (Strings.TrimSpace n = n ->
     Database.ImportState n (newResponse None)
     = Set_ (Database.mkResourceModel (StringValue n) (StringValue n)
                                      BoolNull)
            (newResponse None))
    /\ (Strings.TrimSpace (Collection.identity d n) = Collection.identity d n ->
        Collection.ImportState (Collection.identity d n) (newResponse None)
        = Set_ (Collection.mkResourceModel
                  (StringValue (Collection.identity d n))
                  (StringValue d) (StringValue n)
                  StringNull StringNull StringNull)
               (newResponse None))
    /\ (Strings.TrimSpace (Index.identity d c n) = Index.identity d c n ->
        Index.ImportState (Index.identity d c n) (newResponse None)
        = Set_ (Index.mkResourceModel
                  (StringValue (Index.identity d c n))
                  (StringValue d) (StringValue c) (StringValue n)
                  BoolNull BoolNull Int32Null StringNull BoolNull [])
               (newResponse None)).
Proof.
  intros d c n Hd Hc Hn Hnod Hnoc Hnon. split; [|split].
  - intros Htrim. unfold Database.ImportState. rewrite Htrim.
    apply eqb_empty in Hn. rewrite Hn. reflexivity.
  - intros Htrim. now apply Collection_ImportState_accepts.
  - intros Htrim. now apply Index_ImportState_accepts.
Qed.

Lemma ImportState_identity_round_trip_witness :
  ("example-account" <> "" /\ "users" <> "" /\ "users_email" <> "")
  /\ Strings.TrimSpace
       (Index.identity "example-account" "users" "users_email")
     = Index.identity "example-account" "users" "users_email"
  /\ Index.ImportState
       (Index.identity "example-account" "users" "users_email")
       (newResponse None)
     = Set_ (Index.mkResourceModel
               (StringValue "example-account/users/users_email")
               (StringValue "example-account") (StringValue "users")
               (StringValue "users_email")
               BoolNull BoolNull Int32Null StringNull BoolNull [])
            (newResponse None).
Proof.
  assert (H1 : "example-account" <> "") by discriminate.
  assert (H2 : "users" <> "") by discriminate.
  assert (H3 : "users_email" <> "") by discriminate.
  split; [auto|]. split; [reflexivity|].
  exact (proj2 (proj2 (@ImportState_identity_round_trip
                         "example-account" "users" "users_email"
                         H1 H2 H3 eq_refl eq_refl eq_refl)) eq_refl).
Defined.

(** ** The string functions on examples *)

Example TrimSpace_ascii :
  Strings.TrimSpace "  db/coll  " = "db/coll".
Proof. reflexivity. Qed.

(** U+00A0 in front (bytes C2 A0) and U+2003 behind (bytes E2 80 83) are
    white space; the space inside stays. *)
Example TrimSpace_unicode :
  Strings.TrimSpace
    (Strings.of_bytes [194; 160; 100; 32; 98; 226; 128; 131])
  = "d b".
Proof. reflexivity. Qed.

Example TrimSpace_blank : Strings.TrimSpace "   " = "".
Proof. reflexivity. Qed.

Example SplitN_remainder :
  Strings.SplitN "a/b/c/d" "/"%char 3 = ["a"; "b"; "c/d"].
Proof. reflexivity. Qed.

Example SplitN_short :
  Strings.SplitN "a/b" "/"%char 3 = ["a"; "b"].
Proof. reflexivity. Qed.

Example SplitN_empty_segment :
  Strings.SplitN "a//c" "/"%char 3 = ["a"; ""; "c"].
Proof. reflexivity. Qed.

(* ================================================================== *)
(** * Further properties of the drivers *)

(** ** The database read, resource and data source *)

Lemma existsb_placeholder (names : list string) :
  existsb (String.eqb Database.tfPlaceholderColl) names = true
  <-> In Database.tfPlaceholderColl names.
Proof.
  rewrite existsb_exists. split.
  - intros [x [Hin Heq]]. apply String.eqb_eq in Heq. now subst.
  - intros Hin. exists Database.tfPlaceholderColl. split; [exact Hin|].
    apply String.eqb_refl.
Qed.

(** X1. On the same successful listing of collection names, the resource
    read and the data-source read of a database record the same identity
    (the name) and the same keepPlaceholder, true exactly when the
    placeholder collection is listed; when nothing is listed the resource
    read removes the resource without a diagnostic, the data-source read
    reports "Error read database: not found" and records nothing. *)
Theorem Database_reads_agree :
  forall (Raw S : Type) (h : handler Raw S) (s s' : S)
         (state : Database.ResourceModel)
         (plan : DatabaseDataSource.DataSourceModel)
         (names : list string),
    DatabaseDataSource.Name plan = Database.Name state ->
    h _ (ListCollectionNames (ValueString (Database.Name state)) []) s
    = (Ok names, s') ->
    let r := response_of (run h (Database.Read state
                                   (newResponse (Some state))) s) in
    let d := response_of (run h (DatabaseDataSource.Read plan
                                   (newResponse None)) s) in
    (names = [] ->
     r = mkResponse [] None
     /\ d = mkResponse [ErrorDiagnostic "Error read database" "not found"]
                       None)
    /\ (names <> [] ->
        exists keep : bool,
          (keep = true <-> In Database.tfPlaceholderColl names)
          /\ r = mkResponse []
                   (Some (Database.mkResourceModel
                            (StringValue (ValueString (Database.Name state)))
                            (Database.Name state) (BoolValue keep)))
          /\ d = mkResponse []
                   (Some (DatabaseDataSource.mkDataSourceModel
                            (StringValue (ValueString (Database.Name state)))
                            (Database.Name state) (BoolValue keep)))).
Proof.
  intros Raw S h s s' state plan names Hname Hlist r d. subst r d.
  unfold Database.Read, DatabaseDataSource.Read, newResponse.
  cbn [HasError Diagnostics_ existsb]. rewrite Hname.
  erewrite !run_Call_answer by exact Hlist.
  cbv beta iota. cbn [response_of fst].
  split.
  - intros ->. split; reflexivity.
  - intros Hne. destruct names as [|n names]; [congruence|].
    exists (existsb (String.eqb Database.tfPlaceholderColl) (n :: names)).
    split; [apply existsb_placeholder|]. split; reflexivity.
Qed.

Lemma Database_reads_agree_witness :
  let state := Database.mkResourceModel (StringValue "app") (StringValue "app")
                                        (BoolValue false) in
  let plan := DatabaseDataSource.mkDataSourceModel StringNull
                                                   (StringValue "app")
                                                   BoolNull in
  let store := Fixture.serve
                 (Fixture.mkStore [] ["users"; "__tf_placeholder"] [] [] None) in
  (DatabaseDataSource.Name plan = Database.Name state
   /\ store _ (ListCollectionNames "app" []) 0
      = (Ok ["users"; "__tf_placeholder"], 1))
  /\ response_of (run store (DatabaseDataSource.Read plan (newResponse None))
                      0)
     = mkResponse []
         (Some (DatabaseDataSource.mkDataSourceModel
                  (StringValue "app") (StringValue "app") (BoolValue true))).
Proof.
  intros state plan store. split; [split; reflexivity|].
  destruct (proj2 (Database_reads_agree store 0 state plan
                     (names := ["users"; "__tf_placeholder"]) (s' := 1)
                     eq_refl eq_refl))
    as (keep & Hkeep & _ & Hd); [discriminate|].
  rewrite Hd. replace keep with true; [reflexivity|].
  symmetry. apply Hkeep. right. left. reflexivity.
Defined.

(** ** The collection read *)

Lemma HasError_AddError {M} (summary detail : string) (resp : Response M) :
  HasError (Diagnostics_ (AddError summary detail resp)) = true.
Proof.
  unfold AddError, Append. cbn [Diagnostics_].
  destruct (Contains (Diagnostics_ resp) (ErrorDiagnostic summary detail))
    eqn:HC.
  - unfold Contains in HC. apply existsb_exists in HC.
    destruct HC as [d [Hin Heq]]. apply diag_eqb_eq in Heq. subst d.
    unfold HasError. apply existsb_exists.
    exists (ErrorDiagnostic summary detail). split; [exact Hin|reflexivity].
  - unfold HasError. rewrite existsb_app. cbn. apply orb_true_r.
Qed.

Lemma readOptions_spec {Raw} {L : Lib Raw} (options : option Raw)
      (state : Collection.ResourceModel) :
  let out := Collection.readOptions options state
                                    (newResponse (Some state)) in
  HasError (Diagnostics_ (snd out)) = false
  /\ State (snd out) = Some state
  /\ Collection.ID (fst out) = Collection.ID state
  /\ Collection.Database (fst out) = Collection.Database state
  /\ Collection.Name (fst out) = Collection.Name state
  /\ (options = None ->
      Diagnostics_ (snd out) = []
      /\ Collection.Validator (fst out) = StringNull
      /\ Collection.ValidationLevel (fst out) = StringNull
      /\ Collection.ValidationAction (fst out) = StringNull)
  /\ (Diagnostics_ (snd out) <> [] ->
      Collection.Validator (fst out) = Collection.Validator state).
Proof.
  unfold Collection.readOptions. destruct options as [options|].
  - destruct (Lookup options "validator") as [doc|v|];
      [destruct (MarshalExtJSON doc) as [json|err]| |];
      cbn; repeat split; try discriminate; congruence.
  - cbn. repeat split; try discriminate; congruence.
Qed.

Lemma Collection_Read_run {Raw} {L : Lib Raw} {S} (h : handler Raw S)
      (s s' : S) (state : Collection.ResourceModel)
      (collections : list (CollectionSpecification Raw)) :
  let listing :=
    ListCollectionSpecifications
      (ValueString (Collection.Database state))
      [("name", VString (ValueString (Collection.Name state)))] in
  h _ listing s = (Ok collections, s') ->
  run h (Collection.Read state (newResponse (Some state))) s
  = (match collections with
     | [collection] =>
         let out := Collection.readOptions (coll_Options collection) state
                                           (newResponse (Some state)) in
         Set_ (Collection.mkResourceModel
                 (StringValue
                    (Collection.identity
                       (ValueString (Collection.Database (fst out)))
                       (ValueString (Collection.Name (fst out)))))
                 (Collection.Database (fst out)) (Collection.Name (fst out))
                 (Collection.Validator (fst out))
                 (Collection.ValidationLevel (fst out))
                 (Collection.ValidationAction (fst out)))
              (snd out)
     | _ =>
         AddError "Collection not found"
                  (Go.Itoa (List.length collections))
                  (newResponse (Some state))
     end, s', [Issued listing]).
Proof.
  intros listing Hlist. unfold Collection.Read. unfold newResponse at 1.
  cbn [HasError Diagnostics_ existsb]. fold listing.
  erewrite run_Call_answer by exact Hlist. cbv beta iota.
  destruct collections as [|c [|c' rest]]; try reflexivity.
  destruct (Collection.readOptions (coll_Options c) state
                                   (newResponse (Some state)))
    as [st' resp']. reflexivity.
Qed.

(** X2. When the listing of the specifications under the recorded name
    succeeds, the collection read reports an error exactly when the number
    of specifications listed is not one: it is then "Collection not found"
    with that number, and the recorded state stays.  With one
    specification the read records the identity database/name, keeps the
    database and the name, and reads validator, level and action as null
    when the specification has no options; a warning (a validator that
    cannot be printed) leaves the recorded validator text in place. *)
Theorem Collection_Read_outcome :
  forall (Raw : Type) (L : Lib Raw) (S : Type) (h : handler Raw S)
         (s s' : S) (state : Collection.ResourceModel)
         (collections : list (CollectionSpecification Raw)),
    let db := ValueString (Collection.Database state) in
    let name := ValueString (Collection.Name state) in
    h _ (ListCollectionSpecifications db [("name", VString name)]) s
    = (Ok collections, s') ->
    let resp := response_of (run h (Collection.Read state
                                      (newResponse (Some state))) s) in
    (HasError (Diagnostics_ resp) = true <-> List.length collections <> 1)
    /\ (List.length collections <> 1 ->
        resp = mkResponse
                 [ErrorDiagnostic "Collection not found"
                                  (Go.Itoa (List.length collections))]
                 (Some state))
    /\ (forall collection, collections = [collection] ->
        exists st,
          State resp = Some st
          /\ Collection.ID st = StringValue (Collection.identity db name)
          /\ Collection.Database st = Collection.Database state
          /\ Collection.Name st = Collection.Name state
          /\ (coll_Options collection = None ->
              Diagnostics_ resp = []
              /\ Collection.Validator st = StringNull
              /\ Collection.ValidationLevel st = StringNull
              /\ Collection.ValidationAction st = StringNull)
          /\ (Diagnostics_ resp <> [] ->
              Collection.Validator st = Collection.Validator state)).
Proof.
  intros Raw L S h s s' state collections db name Hlist resp. subst resp.
  rewrite (Collection_Read_run h s state Hlist). cbn [response_of fst].
  destruct collections as [|c [|c' rest]].
  - split; [|split].
    + split; [intros _; discriminate|reflexivity].
    + reflexivity.
    + intros c Hc. discriminate Hc.
  - destruct (readOptions_spec (coll_Options c) state)
      as (Herr & Hst & Hid & Hdb & Hnm & Hnone & Hwarn).
    cbv zeta. cbn [Set_ Diagnostics_ State].
    split; [|split].
    + rewrite Herr. split; [discriminate|]. intros H. now elim H.
    + intros H. now elim H.
    + intros c0 Hc. injection Hc as <-.
      eexists. split; [reflexivity|]. cbn [Collection.ID Collection.Database
        Collection.Name Collection.Validator Collection.ValidationLevel
        Collection.ValidationAction].
      rewrite Hdb, Hnm. fold db. fold name.
      split; [reflexivity|]. split; [reflexivity|]. split; [reflexivity|].
      split; [exact Hnone|exact Hwarn].
  - split; [|split].
    + split; [intros _; cbn; lia|reflexivity].
    + reflexivity.
    + intros c0 Hc. discriminate Hc.
Qed.

Lemma Collection_Read_outcome_witness :
  let state :=
    Collection.mkResourceModel
      StringNull (StringValue "app") (StringValue "users")
      (StringValue "{}") (StringValue "strict") (StringValue "error") in
  let spec := mkCollectionSpecification (Raw := Fixture.Raw)
                "users" "collection" None in
  let store := Fixture.serve (Fixture.mkStore [] [] [spec; spec] [] None) in
  store _ (ListCollectionSpecifications "app" [("name", VString "users")]) 0
  = (Ok [spec; spec], 1)
  /\ response_of (run store (Collection.Read state
                               (newResponse (Some state))) 0)
     = mkResponse [ErrorDiagnostic "Collection not found" "2"] (Some state).
Proof.
  intros state spec store. split; [reflexivity|].
  apply (proj1 (proj2 (Collection_Read_outcome
                         Fixture.lib store 0 state
                         (collections := [spec; spec]) (s' := 1) eq_refl))).
  discriminate.
Defined.

(** X3. The data-source read of a collection is the resource read on the
    same fields: same calls, same diagnostics, same recorded fields. *)
Theorem Collection_DataSource_Read_is_Read :
  forall (Raw : Type) (L : Lib Raw) (S : Type) (h : handler Raw S) (s : S)
         (plan : CollectionDataSource.DataSourceModel),
    let r := run h (Collection.Read (CollectionDataSource.toResource plan)
                                    (newResponse None)) s in
    run h (CollectionDataSource.Read plan (newResponse None)) s
    = (CollectionDataSource.mapResponse CollectionDataSource.ofResource
         (response_of r),
       store_of r, trace_of r).
Proof.
  intros Raw L S h s plan r. subst r.
  unfold CollectionDataSource.Read, Collection.Read, newResponse.
  cbn [HasError Diagnostics_ existsb].
  rewrite !run_Call. cbn [response_of store_of trace_of fst snd].
  cbn [CollectionDataSource.toResource Collection.Database Collection.Name].
  destruct (h _ (ListCollectionSpecifications
                   (ValueString (CollectionDataSource.Database plan))
                   [("name",
                     VString (ValueString (CollectionDataSource.Name plan)))])
              s) as [[collections|err] s'].
  - cbn [fst snd]. destruct collections as [|c [|c' rest]];
      try reflexivity.
    unfold Collection.readOptions.
    destruct (coll_Options c) as [options|]; [|reflexivity].
    destruct (Lookup options "validator") as [doc|v|];
      [destruct (MarshalExtJSON doc) as [json|e]| |]; reflexivity.
  - reflexivity.
Qed.

(** ** The collection update *)

(** X4. The collection update records the plan exactly when it reports no
    error; otherwise the recorded state stays and the single diagnostic is
    either "invalid validator JSON", with no command issued, or "collMod
    failed", after the one command. *)
Theorem Collection_Update_outcome :
  forall (Raw : Type) (L : Lib Raw) (S : Type) (h : handler Raw S) (s : S)
         (plan state : Collection.ResourceModel),
    let r := run h (Collection.Update plan state
                      (newResponse (Some state))) s in
    (response_of r = mkResponse [] (Some plan)
     /\ List.length (trace_of r) <= 1)
    \/ (exists err,
           response_of r
           = mkResponse [ErrorDiagnostic "invalid validator JSON" err]
                        (Some state)
           /\ trace_of r = []
           /\ UnmarshalExtJSON (ValueString (Collection.Validator plan))
              = Err err)
    \/ (exists err c,
           response_of r
           = mkResponse [ErrorDiagnostic "collMod failed" err] (Some state)
           /\ trace_of r = [Issued c]
           /\ fst (h _ c s) = Some err).
Proof.
  intros Raw L S h s plan state r. subst r.
  rewrite Collection_Update_unfold.
  destruct (Spec.anyDiffers plan state).
  - destruct (Spec.differs (Collection.Validator plan)
                           (Collection.Validator state)).
    + unfold Spec.validatorDirective.
      destruct (String.eqb (ValueString (Collection.Validator plan)) "").
      * rewrite run_Call. cbn [response_of trace_of fst snd].
        match goal with
        | |- context [run h _ (snd ?x)] => destruct x as [[err|] s1] eqn:Hc
        end; cbn [fst snd].
        -- right. right. eexists. eexists. rewrite run_Ret. cbn.
           split; [reflexivity|]. split; [reflexivity|]. exact (f_equal fst Hc).
        -- left. rewrite run_Ret. cbn. split; [reflexivity|lia].
      * destruct (UnmarshalExtJSON (ValueString (Collection.Validator plan)))
          as [raw|err] eqn:HU.
        -- rewrite run_Call. cbn [response_of trace_of fst snd].
           match goal with
           | |- context [run h _ (snd ?x)] => destruct x as [[err|] s1] eqn:Hc
           end; cbn [fst snd].
           ++ right. right. eexists. eexists. rewrite run_Ret. cbn.
              split; [reflexivity|]. split; [reflexivity|]. exact (f_equal fst Hc).
           ++ left. rewrite run_Ret. cbn. split; [reflexivity|lia].
        -- right. left. exists err. rewrite run_Ret. cbn.
           split; [reflexivity|]. split; reflexivity.
    + rewrite run_Call. cbn [response_of trace_of fst snd].
      match goal with
      | |- context [run h _ (snd ?x)] => destruct x as [[err|] s1] eqn:Hc
      end; cbn [fst snd].
      * right. right. eexists. eexists. rewrite run_Ret. cbn.
        split; [reflexivity|]. split; [reflexivity|]. exact (f_equal fst Hc).
      * left. rewrite run_Ret. cbn. split; [reflexivity|lia].
  - left. rewrite run_Ret. cbn. split; [reflexivity|lia].
Qed.

(** ** The index create *)

(** X5. The index create records a state only after the store confirmed
    the creation: a recorded state is the plan under the identity built
    from the confirmed name, the diagnostics are empty and the calls are
    the listing followed by the one create; in every other run nothing is
    recorded, exactly one error is reported and at most the create follows
    the listing. *)
Theorem Index_Create_records_only_confirmed :
  forall (Raw : Type) (L : Lib Raw) (S : Type) (h : handler Raw S) (s : S)
         (plan : Index.ResourceModel),
    let db := ValueString (Index.Database plan) in
    let coll := ValueString (Index.Collection plan) in
    let listing := ListSpecifications (Raw := Raw) db coll in
    let r := run h (Index.Create plan (newResponse None)) s in
    (exists partial confirmed,
        response_of r = mkResponse [] (Some (Spec.created plan confirmed))
        /\ trace_of r
           = [Issued listing;
              Issued (CreateOne db coll (Spec.indexModel plan partial))]
        /\ Spec.partialFilter plan = Ok partial
        /\ fst (h _ (CreateOne db coll (Spec.indexModel plan partial))
                  (snd (h _ listing s)))
           = Ok confirmed)
    \/ (exists summary detail,
           response_of r = mkResponse [ErrorDiagnostic summary detail] None
           /\ (trace_of r = [Issued listing]
               \/ exists partial,
                   trace_of r
                   = [Issued listing;
                      Issued (CreateOne db coll
                                (Spec.indexModel plan partial))])).
Proof.
  intros Raw L S h s plan db coll listing r. subst r.
  unfold Index.Create, newResponse. cbn [HasError Diagnostics_ existsb].
  fold db. fold coll. fold listing.
  rewrite run_Call. cbn [response_of store_of trace_of fst snd].
  destruct (h _ listing s) as [[specs|err] s1]; cbn [fst snd].
  - destruct (existsb (Index.hasName (ValueString (Index.Name plan))) specs).
    + right. do 2 eexists. rewrite run_Ret.
      split; [reflexivity|]. left. reflexivity.
    + rewrite fold_left_snoc_map. cbn [app].
      unfold Spec.partialFilter.
      destruct (String.eqb (ValueString (Index.Partial plan)) "");
        cbn [negb].
      * rewrite run_Call. cbn [response_of store_of trace_of fst snd].
        fold (Spec.indexModel (Raw := Raw) plan None).
        destruct (h _ (CreateOne db coll (Spec.indexModel plan None)) s1)
          as [[confirmed|err] s2] eqn:Hc; cbn [fst snd]; rewrite run_Ret.
        -- left. exists None, confirmed.
           split; [reflexivity|]. split; [reflexivity|].
           split; [reflexivity|]. exact (f_equal fst Hc).
        -- right. do 2 eexists. split; [reflexivity|].
           right. exists None. reflexivity.
      * destruct (UnmarshalExtJSON (ValueString (Index.Partial plan)))
          as [raw|err].
        -- rewrite run_Call. cbn [response_of store_of trace_of fst snd].
           fold (Spec.indexModel plan (Some raw)).
           destruct (h _ (CreateOne db coll
                            (Spec.indexModel plan (Some raw))) s1)
             as [[confirmed|err] s2] eqn:Hc; cbn [fst snd]; rewrite run_Ret.
           ++ left. exists (Some raw), confirmed.
              split; [reflexivity|]. split; [reflexivity|].
              split; [reflexivity|]. exact (f_equal fst Hc).
           ++ right. do 2 eexists. split; [reflexivity|].
              right. exists (Some raw). reflexivity.
        -- right. do 2 eexists. rewrite run_Ret.
           split; [reflexivity|]. left. reflexivity.
  - right. do 2 eexists. rewrite run_Ret.
    split; [reflexivity|]. left. reflexivity.
Qed.

(** ** Imported identities *)

(** X6. Whatever an import records is consistent with the identity it
    records: the identity is the trimmed input, the parts are non-empty
    and put together again they give that identity; no diagnostic comes
    with it. *)
Theorem ImportState_records_consistent_parts :
  forall reqID : string,
    (forall st,
        State (Database.ImportState reqID (newResponse None)) = Some st ->
        Diagnostics_ (Database.ImportState reqID (newResponse None)) = []
        /\ Database.ID st = StringValue (Strings.TrimSpace reqID)
        /\ Database.Name st = Database.ID st
        /\ Strings.TrimSpace reqID <> "")
    /\ (forall st,
           State (Collection.ImportState reqID (newResponse None)) = Some st ->
           Diagnostics_ (Collection.ImportState reqID (newResponse None)) = []
           /\ Collection.ID st = StringValue (Strings.TrimSpace reqID)
           /\ Collection.identity (ValueString (Collection.Database st))
                                  (ValueString (Collection.Name st))
              = Strings.TrimSpace reqID
           /\ ValueString (Collection.Database st) <> ""
           /\ ValueString (Collection.Name st) <> "")
    /\ (forall st,
           State (Index.ImportState reqID (newResponse None)) = Some st ->
           Diagnostics_ (Index.ImportState reqID (newResponse None)) = []
           /\ Index.ID st = StringValue (Strings.TrimSpace reqID)
           /\ Index.identity (ValueString (Index.Database st))
                             (ValueString (Index.Collection st))
                             (ValueString (Index.Name st))
              = Strings.TrimSpace reqID
           /\ ValueString (Index.Database st) <> ""
           /\ ValueString (Index.Collection st) <> ""
           /\ ValueString (Index.Name st) <> "").
Proof.
  intros reqID. split; [|split].
  - intros st. unfold Database.ImportState.
    destruct (String.eqb (Strings.TrimSpace reqID) "") eqn:He;
      [discriminate|].
    cbn. intros H. injection H as <-. cbn.
    repeat split. now apply eqb_empty.
  - intros st. unfold Collection.ImportState.
    destruct (String.eqb (Strings.TrimSpace reqID) ""); [discriminate|].
    cbn [Strings.SplitN].
    destruct (Strings.cut "/" (Strings.TrimSpace reqID)) as [[a b]|] eqn:Hcut;
      [|discriminate].
    destruct (String.eqb a "") eqn:Ha; [discriminate|].
    destruct (String.eqb b "") eqn:Hb; [discriminate|].
    cbn. intros H. injection H as <-. cbn.
    apply cut_Some in Hcut. destruct Hcut as [Hid _].
    split; [reflexivity|]. split; [reflexivity|].
    split; [now rewrite Hid|]. split; now apply eqb_empty.
  - intros st. unfold Index.ImportState.
    destruct (String.eqb (Strings.TrimSpace reqID) ""); [discriminate|].
    cbn [Strings.SplitN].
    destruct (Strings.cut "/" (Strings.TrimSpace reqID)) as [[a r]|] eqn:Hcut;
      [|discriminate].
    destruct (Strings.cut "/" r) as [[b c]|] eqn:Hcut2; [|discriminate].
    destruct (String.eqb a "") eqn:Ha; [discriminate|].
    destruct (String.eqb b "") eqn:Hb; [discriminate|].
    destruct (String.eqb c "") eqn:Hc; [discriminate|].
    cbn. intros H. injection H as <-. cbn.
    apply cut_Some in Hcut. destruct Hcut as [Hid _].
    apply cut_Some in Hcut2. destruct Hcut2 as [Hr _].
    split; [reflexivity|]. split; [reflexivity|].
    split; [now rewrite Hid, Hr|]. repeat split; now apply eqb_empty.
Qed.

Lemma ImportState_records_consistent_parts_witness :
  let resp := Index.ImportState " app/users/by/email " (newResponse None) in
  State resp
  = Some (Index.mkResourceModel
            (StringValue "app/users/by/email") (StringValue "app")
            (StringValue "users") (StringValue "by/email")
            BoolNull BoolNull Int32Null StringNull BoolNull [])
  /\ Index.identity "app" "users" "by/email"
     = Strings.TrimSpace " app/users/by/email ".
Proof.
  split; [reflexivity|].
  exact (proj1 (proj2 (proj2 (proj2 (proj2
           (ImportState_records_consistent_parts " app/users/by/email ")) _
           eq_refl)))).
Defined.

(** ** More on the key order *)

Lemma decode_loop_acc {Raw} {L : Lib Raw} {M} (keysDoc : D Raw) :
  forall (resp : Response M) (keys : list Index.indexKeyModel),
    fold_left Index.decodeEntry keysDoc (resp, keys)
    = (fst (Index.decodeKeyOrder keysDoc resp),
       keys ++ snd (Index.decodeKeyOrder keysDoc resp)).
Proof.
  unfold Index.decodeKeyOrder.
  induction keysDoc as [|e doc IH]; intros resp keys.
  - cbn. now rewrite app_nil_r.
  - cbn [fold_left].
    destruct (Spec.isNumeric (snd e)) eqn:Hnum.
    + rewrite !(decodeEntry_numeric _ _ e Hnum).
      rewrite (IH resp (keys ++ [Spec.keyOf e])).
      rewrite (IH resp ([] ++ [Spec.keyOf e])).
      cbn [fst snd app]. now rewrite <- app_assoc.
    + rewrite !(decodeEntry_other _ _ e Hnum).
      rewrite (IH _ keys). rewrite (IH _ []). reflexivity.
Qed.

(** X7. Decoding goes through a keys document part by part: the keys of
    [a ++ b] are the keys of [a] followed by the keys of [b], the second
    part being decoded with the diagnostics the first part left. *)
Theorem decodeKeyOrder_app :
  forall (Raw : Type) (L : Lib Raw) (M : Type) (a b : D Raw)
         (resp : Response M),
    Index.decodeKeyOrder (a ++ b) resp
    = (fst (Index.decodeKeyOrder b (fst (Index.decodeKeyOrder a resp))),
       snd (Index.decodeKeyOrder a resp)
       ++ snd (Index.decodeKeyOrder b (fst (Index.decodeKeyOrder a resp)))).
Proof.
  intros Raw L M a b resp.
  unfold Index.decodeKeyOrder at 1. rewrite fold_left_app.
  rewrite (decode_loop_acc a resp []). cbn [app].
  apply decode_loop_acc.
Qed.

(** X8. The keys a create sent come back as they were: when each entry
    of the keys document carries, under the field of the corresponding
    plan key, the order of that key as an int32 or an int64, decoding
    yields exactly the keys of the plan and leaves the response as it
    was (no warning). *)
Theorem decodeKeyOrder_reads_back_keys :
  forall (Raw : Type) (L : Lib Raw) (M : Type) (resp : Response M)
         (keys : list Index.indexKeyModel) (keysDoc : D Raw),
    Forall2 (fun k e =>
               exists order,
                 Index.Order k = Int64Value order
                 /\ Index.Field k = StringValue (fst e)
                 /\ (snd e = VInt32 order \/ snd e = VInt64 order))
            keys keysDoc ->
    Index.decodeKeyOrder keysDoc resp = (resp, keys).
Proof.
  intros Raw L M resp keys keysDoc H.
  unfold Index.decodeKeyOrder.
  change keys with ([] ++ keys) at 1.
  generalize (@nil Index.indexKeyModel) as acc.
  induction H as [|k e keys doc (order & Ho & Hf & Hv) _ IH]; intros acc.
  - cbn. now rewrite app_nil_r.
  - cbn [fold_left].
    assert (Hstep : Index.decodeEntry (resp, acc) e = (resp, acc ++ [k])).
    { unfold Index.decodeEntry. destruct k as [f o]. cbn in Ho, Hf. subst.
      destruct Hv as [-> | ->]; reflexivity. }
    rewrite Hstep, IH. now rewrite <- app_assoc.
Qed.

Lemma decodeKeyOrder_reads_back_keys_witness :
  let keys := [Index.mkIndexKeyModel (StringValue "email") (Int64Value 1);
               Index.mkIndexKeyModel (StringValue "age") (Int64Value (-1))] in
  Fixture2.storedKeys (Raw := Fixture.Raw) keys
  = [("email", VInt32 1); ("age", VInt32 (-1))]
  /\ Index.decodeKeyOrder (Fixture2.storedKeys (Raw := Fixture.Raw) keys)
                          (newResponse (M := unit) None)
     = (newResponse None, keys).
Proof.
  intros keys. split; [reflexivity|].
  apply (decodeKeyOrder_reads_back_keys Fixture.lib).
  repeat constructor.
  - exists 1%Z. repeat split. now left.
  - exists (-1)%Z. repeat split. now left.
Defined.

(** ** The index reads *)

(** X9. When the listing succeeds and holds a specification with the
    recorded name, the index read takes the first such specification:
    with a readable keys document it reports no error and records
    unique, sparse and the expiry of that specification, the decoded keys
    and the identity database/collection/name, while database,
    collection, name, partial filter and background stay as recorded;
    with an unreadable keys document it reports "Failed to decode index
    keys" and the recorded state stays. *)
Theorem Index_Read_refreshes_from_first_match :
  forall (Raw : Type) (L : Lib Raw) (S : Type) (h : handler Raw S)
         (s s' : S) (state : Index.ResourceModel)
         (specs : list (IndexSpecification Raw))
         (index : IndexSpecification Raw),
    let db := ValueString (Index.Database state) in
    let coll := ValueString (Index.Collection state) in
    let name := ValueString (Index.Name state) in
    h _ (ListSpecifications db coll) s = (Ok specs, s') ->
    find (Index.hasName name) specs = Some index ->
    let resp := response_of (run h (Index.Read state
                                      (newResponse (Some state))) s) in
    (forall keysDoc,
        Unmarshal (spec_KeysDocument index) = Ok keysDoc ->
        HasError (Diagnostics_ resp) = false
        /\ State resp
           = Some (Index.mkResourceModel
                     (StringValue (Index.identity db coll name))
                     (Index.Database state) (Index.Collection state)
                     (Index.Name state)
                     (BoolPointerValue (spec_Unique index))
                     (BoolPointerValue (spec_Sparse index))
                     (Int32PointerValue (spec_ExpireAfterSeconds index))
                     (Index.Partial state) (Index.Background state)
                     (snd (Index.decodeKeyOrder
                             keysDoc (newResponse (Some state))))))
    /\ (forall err,
           Unmarshal (spec_KeysDocument index) = Err err ->
           resp = mkResponse
                    [ErrorDiagnostic "Failed to decode index keys" err]
                    (Some state)).
Proof.
  intros Raw L S h s s' state specs index db coll name Hlist Hfind resp.
  assert (Hex : existsb (Index.hasName name) specs = true).
  { apply existsb_exists. exists index. now apply find_some in Hfind. }
  assert (Hresp :
            resp
            = match Unmarshal (spec_KeysDocument index) with
              | Ok keysDoc =>
                  Set_ (Index.mkResourceModel
                          (StringValue (Index.identity db coll name))
                          (Index.Database state) (Index.Collection state)
                          (Index.Name state)
                          (BoolPointerValue (spec_Unique index))
                          (BoolPointerValue (spec_Sparse index))
                          (Int32PointerValue (spec_ExpireAfterSeconds index))
                          (Index.Partial state) (Index.Background state)
                          (snd (Index.decodeKeyOrder
                                  keysDoc (newResponse (Some state)))))
                       (fst (Index.decodeKeyOrder
                               keysDoc (newResponse (Some state))))
              | Err err =>
                  AddError "Failed to decode index keys" err
                           (newResponse (Some state))
              end).
  { subst resp. unfold Index.Read. unfold newResponse at 1.
    cbn [HasError Diagnostics_ existsb]. fold db. fold coll. fold name.
    erewrite run_Call_answer by exact Hlist.
    cbv beta iota. cbn [response_of fst]. rewrite Hex, Hfind. cbn [negb].
    fold (newResponse (Some state)).
    destruct (Unmarshal (spec_KeysDocument index)) as [keysDoc|err];
      [|reflexivity].
    destruct (Index.decodeKeyOrder keysDoc (newResponse (Some state)))
      as [resp' keys]. reflexivity. }
  rewrite Hresp. split.
  - intros keysDoc ->. cbn [Set_ Diagnostics_ State].
    split; [|reflexivity].
    destruct (decode_loop keysDoc (newResponse (Some state)) [])
      as (_ & _ & He & _).
    exact He.
  - intros err ->. reflexivity.
Qed.

Lemma Index_Read_refreshes_from_first_match_witness :
  let state :=
    Index.mkResourceModel
      StringNull (StringValue "app") (StringValue "users")
      (StringValue "users_email") BoolNull BoolNull Int32Null
      (StringValue "{}") (BoolValue true) [] in
  let index :=
    mkIndexSpecification (Raw := Fixture.Raw)
      "users_email" "app.users" [("email", inl 1%Z); ("loc", inr "2dsphere")]
      2 (Some 300%Z) None (Some true) None in
  let store := Fixture.serve (Fixture.mkStore [] [] [] [index] None) in
  (store _ (ListSpecifications "app" "users") 0 = (Ok [index], 1)
   /\ find (Index.hasName "users_email") [index] = Some index)
  /\ State (response_of (run store (Index.Read state
                                      (newResponse (Some state))) 0))
     = Some (Index.mkResourceModel
               (StringValue "app/users/users_email") (StringValue "app")
               (StringValue "users") (StringValue "users_email")
               (BoolValue true) BoolNull (Int32Value 300)
               (StringValue "{}") (BoolValue true)
               [Index.mkIndexKeyModel (StringValue "email") (Int64Value 1)]).
Proof.
  intros state index store. split; [split; reflexivity|].
  apply (proj1 (Index_Read_refreshes_from_first_match
                  Fixture.lib store 0 state (specs := [index]) (s' := 1)
                  eq_refl eq_refl)
           [("email", VInt32 1); ("loc", VString "2dsphere")] eq_refl).
Defined.

Lemma Index_DataSourceRead_run {Raw} {L : Lib Raw} {S} (h : handler Raw S)
      (s s' : S) (plan : Index.DataSourceModel)
      (specs : list (IndexSpecification Raw)) :
  let db := ValueString (Index.ds_Database plan) in
  let coll := ValueString (Index.ds_Collection plan) in
  let name := ValueString (Index.ds_Name plan) in
  let fresh := newResponse (M := Index.DataSourceModel) None in
  h _ (ListSpecifications db coll) s = (Ok specs, s') ->
  run h (Index.DataSourceRead plan fresh) s
  = (match find (Index.hasName name) specs with
     | None => AddError "Index not found" "" fresh
     | Some index =>
         match Unmarshal (spec_KeysDocument index) with
         | Err err => AddError "Failed to decode index keys" err fresh
         | Ok keysDoc =>
             Set_ (Index.mkDataSourceModel
                     (StringValue (Index.identity db coll name))
                     (Index.ds_Database plan) (Index.ds_Collection plan)
                     (Index.ds_Name plan)
                     (BoolPointerValue (spec_Unique index))
                     (Index.ds_Sparse plan)
                     (Int32PointerValue (spec_ExpireAfterSeconds index))
                     (snd (Index.decodeKeyOrder keysDoc fresh)))
                  (fst (Index.decodeKeyOrder keysDoc fresh))
         end
     end, s', [Issued (ListSpecifications db coll)]).
Proof.
  intros db coll name fresh Hlist. unfold Index.DataSourceRead.
  unfold fresh at 1, newResponse at 1.
  cbn [HasError Diagnostics_ existsb]. fold db. fold coll. fold name.
  erewrite run_Call_answer by exact Hlist. cbv beta iota.
  destruct (find (Index.hasName name) specs) as [index|]; [|reflexivity].
  destruct (Unmarshal (spec_KeysDocument index)) as [keysDoc|err];
    [|reflexivity].
  fold fresh.
  destruct (Index.decodeKeyOrder keysDoc fresh) as [resp' keys].
  reflexivity.
Qed.

(** X10. When the listing succeeds, the data-source read of an index
    reports "Index not found" and records nothing exactly when no listed
    specification has the name; otherwise, with a readable keys document,
    it reports no error and records unique and the expiry of the first
    specification with the name, the decoded keys and the identity, and
    leaves sparse as configured. *)
Theorem Index_DataSourceRead_outcome :
  forall (Raw : Type) (L : Lib Raw) (S : Type) (h : handler Raw S)
         (s s' : S) (plan : Index.DataSourceModel)
         (specs : list (IndexSpecification Raw)),
    let db := ValueString (Index.ds_Database plan) in
    let coll := ValueString (Index.ds_Collection plan) in
    let name := ValueString (Index.ds_Name plan) in
    h _ (ListSpecifications db coll) s = (Ok specs, s') ->
    let r := run h (Index.DataSourceRead plan (newResponse None)) s in
    (~ (exists sp, In sp specs /\ spec_Name sp = name) ->
     r = (mkResponse [ErrorDiagnostic "Index not found" ""] None, s',
          [Issued (ListSpecifications db coll)]))
    /\ ((exists sp, In sp specs /\ spec_Name sp = name) ->
        exists index,
          find (Index.hasName name) specs = Some index
          /\ forall keysDoc,
              Unmarshal (spec_KeysDocument index) = Ok keysDoc ->
              HasError (Diagnostics_ (response_of r)) = false
              /\ State (response_of r)
                 = Some (Index.mkDataSourceModel
                           (StringValue (Index.identity db coll name))
                           (Index.ds_Database plan)
                           (Index.ds_Collection plan) (Index.ds_Name plan)
                           (BoolPointerValue (spec_Unique index))
                           (Index.ds_Sparse plan)
                           (Int32PointerValue
                              (spec_ExpireAfterSeconds index))
                           (snd (Index.decodeKeyOrder
                                   keysDoc
                                   (newResponse
                                      (M := Index.DataSourceModel) None))))).
Proof.
  intros Raw L S h s s' plan specs db coll name Hlist r. subst r.
  rewrite (Index_DataSourceRead_run h s plan Hlist).
  fold db. fold coll. fold name.
  split.
  - intros Hno.
    destruct (find (Index.hasName name) specs) as [sp|] eqn:Hfind.
    { exfalso. apply find_some in Hfind. destruct Hfind as [Hin Hn].
      apply Hno. exists sp. split; [exact Hin|]. now apply String.eqb_eq. }
    reflexivity.
  - intros Hex. apply existsb_hasName in Hex.
    destruct (find (Index.hasName name) specs) as [index|] eqn:Hfind.
    + exists index. split; [reflexivity|]. intros keysDoc ->.
      cbn [response_of fst Set_ Diagnostics_ State].
      split; [|reflexivity].
      destruct (decode_loop keysDoc
                  (newResponse (M := Index.DataSourceModel) None) [])
        as (_ & _ & He & _).
      exact He.
    + exfalso. apply existsb_exists in Hex. destruct Hex as [sp [Hin Hn]].
      apply (find_none _ _ Hfind) in Hin. congruence.
Qed.

Lemma Index_DataSourceRead_outcome_witness :
  let plan :=
    Index.mkDataSourceModel StringNull (StringValue "app")
                            (StringValue "users") (StringValue "missing")
                            BoolNull BoolNull Int32Null [] in
  let store :=
    Fixture.serve
      (Fixture.mkStore [] [] [] [Fixture.index "_id_" [("_id", inl 1%Z)]]
                       None) in
  store _ (ListSpecifications "app" "users") 0
  = (Ok [Fixture.index "_id_" [("_id", inl 1%Z)]], 1)
  /\ run store (Index.DataSourceRead plan (newResponse None)) 0
     = (mkResponse [ErrorDiagnostic "Index not found" ""] None, 1,
        [Issued (ListSpecifications "app" "users")]).
Proof.
  intros plan store. split; [reflexivity|].
  apply (proj1 (Index_DataSourceRead_outcome
                  Fixture.lib store 0 plan
                  (specs := [Fixture.index "_id_" [("_id", inl 1%Z)]])
                  (s' := 1) eq_refl)).
  intros (sp & [<-|[]] & Hname). discriminate Hname.
Defined.

(** ** The earlier revisions *)

(** X11. The first revision of the index read never reports a
    diagnostic and issues the listing only; it removes the resource
    exactly when the listing fails or holds no specification with the
    recorded name, and otherwise leaves the recorded state as it is. *)
Theorem IndexV1_Read_outcome :
  forall (Raw : Type) (L : Lib Raw) (S : Type) (h : handler Raw S) (s : S)
         (state : IndexV1.ResourceModel),
    let listing :=
      ListSpecifications (Raw := Raw)
                         (ValueString (IndexV1.Database state))
                         (ValueString (IndexV1.Collection state)) in
    let r := run h (IndexV1.Read state (newResponse (Some state))) s in
    Diagnostics_ (response_of r) = []
    /\ trace_of r = [Issued listing]
    /\ store_of r = snd (h _ listing s)
    /\ (State (response_of r) = Some state
        <-> exists specs sp,
            fst (h _ listing s) = Ok specs
            /\ In sp specs
            /\ spec_Name sp = ValueString (IndexV1.Name state))
    /\ (State (response_of r) = None \/ State (response_of r) = Some state).
Proof.
  intros Raw L S h s state listing r. subst r.
  unfold IndexV1.Read, newResponse. cbn [HasError Diagnostics_ existsb].
  fold listing. rewrite run_Call.
  cbn [response_of store_of trace_of fst snd].
  destruct (h _ listing s) as [[specs|err] s1]; cbn [fst snd].
  - destruct (existsb (Index.hasName (ValueString (IndexV1.Name state)))
                      specs) eqn:Hex; cbn [negb]; rewrite run_Ret; cbn.
    + repeat split; auto.
      intros _. apply existsb_hasName in Hex.
      destruct Hex as (sp & Hin & Hn). now exists specs, sp.
    + repeat split; auto; try discriminate.
      intros (specs' & sp & Heq & Hin & Hn). injection Heq as <-.
      assert (existsb (Index.hasName (ValueString (IndexV1.Name state)))
                      specs = true)
        by (apply existsb_hasName; now exists sp).
      congruence.
  - rewrite run_Ret. cbn. repeat split; auto; try discriminate.
    intros (specs' & sp & Heq & _). discriminate Heq.
Qed.

Lemma append_assoc (a b c : string) :
  ((a ++ b) ++ c = a ++ (b ++ c))%string.
Proof. induction a as [|x a IH]; cbn; [reflexivity|now rewrite IH]. Qed.

Lemma Join_app (a b : list string) (sep : string) :
  a <> [] -> b <> [] ->
  Join.Join (a ++ b) sep = (Join.Join a sep ++ sep ++ Join.Join b sep)%string.
Proof.
  intros Ha Hb. induction a as [|x a IH]; [congruence|].
  destruct a as [|y a].
  - cbn [app]. destruct b as [|z b]; [congruence|]. reflexivity.
  - change ((x :: y :: a) ++ b) with (x :: (y :: a) ++ b).
    change (Join.Join (x :: (y :: a) ++ b) sep)
      with (x ++ sep ++ Join.Join ((y :: a) ++ b) sep)%string.
    rewrite IH by discriminate.
    change (Join.Join (x :: y :: a) sep)
      with (x ++ sep ++ Join.Join (y :: a) sep)%string.
    now rewrite !append_assoc.
Qed.

(** X12. The derived index name is put together key by key: the name of
    no key is the empty string, the name of one key is field, "_" and
    the printed order, and the name of two non-empty runs of keys is the
    two names joined by "_". *)
Theorem deriveIndexName_app :
  forall (Raw : Type) (L : Lib Raw) (a b : D Raw),
    IndexV1.deriveIndexName (@nil (E Raw)) = ""
    /\ (forall e : E Raw,
           IndexV1.deriveIndexName [e]
           = (fst e ++ "_" ++ Show (snd e))%string)
    /\ (a <> [] -> b <> [] ->
        IndexV1.deriveIndexName (a ++ b)
        = (IndexV1.deriveIndexName a ++ "_"
           ++ IndexV1.deriveIndexName b)%string).
Proof.
  intros Raw L a b. split; [reflexivity|]. split; [reflexivity|].
  intros Ha Hb. unfold IndexV1.deriveIndexName.
  rewrite !fold_left_snoc_map. cbn [app]. rewrite map_app.
  apply Join_app.
  - destruct a; [congruence|discriminate].
  - destruct b; [congruence|discriminate].
Qed.

Lemma deriveIndexName_app_witness :
  IndexV1.deriveIndexName (Raw := Fixture.Raw)
    ([("email", VString "1")] ++ [("loc", VString "2dsphere")])
  = "email_1_loc_2dsphere".
Proof.
  refine (eq_trans
            (proj2 (proj2 (deriveIndexName_app
                             Fixture.lib [("email", VString "1")]
                             [("loc", VString "2dsphere")])) _ _) _);
    [discriminate|discriminate|reflexivity].
Defined.

(** X13. The collection read of the earlier revision never reports a
    diagnostic: it probes the collection with one collStats command,
    removes the resource when the command fails, whatever the failure,
    and otherwise records the state as it was. *)
Theorem CollectionV0_Read_outcome :
  forall (Raw S : Type) (h : handler Raw S) (s : S)
         (state : Collection.ResourceModel),
    let probe :=
      RunCommand (Raw := Raw)
                 (ValueString (Collection.Database state))
                 [("collStats",
                   VString (ValueString (Collection.Name state)))] in
    let r := run h (CollectionV0.Read state (newResponse (Some state))) s in
    Diagnostics_ (response_of r) = []
    /\ trace_of r = [Issued probe]
    /\ (State (response_of r) = None <-> fst (h _ probe s) <> None)
    /\ (State (response_of r) = Some state <-> fst (h _ probe s) = None).
Proof.
  intros Raw S h s state probe r. subst r.
  unfold CollectionV0.Read, newResponse. cbn [HasError Diagnostics_ existsb].
  fold probe. rewrite run_Call.
  cbn [response_of store_of trace_of fst snd].
  destruct (h _ probe s) as [[err|] s1]; cbn [fst snd]; rewrite run_Ret; cbn.
  - repeat split; try discriminate; auto.
  - repeat split; try discriminate; auto. intros H. now elim H.
Qed.

(** ** Drops, collection creation, the index cursor *)

Section FreeRun.
Context {E : Type -> Type} {S A : Type} (h : Free.handler E S).

Lemma Free_run_Done (a : A) (s : S) :
  Free.run h (Free.Done a) s = (a, s, []).
Proof. reflexivity. Qed.

Lemma Free_run_Do {R} (c : E R) (k : R -> Free.prog E A) (s : S) :
  Free.run h (Free.Do c k) s
  = (Free.response_of (Free.run h (k (fst (h c s))) (snd (h c s))),
     Free.store_of (Free.run h (k (fst (h c s))) (snd (h c s))),
     Free.Did c :: Free.trace_of (Free.run h (k (fst (h c s)))
                                           (snd (h c s)))).
Proof.
  simpl. destruct (h c s) as [r s']. simpl.
  destruct (Free.run h (k r) s') as [[a s''] t]. reflexivity.
Qed.

End FreeRun.

Lemma Free_run_bind {E : Type -> Type} {S A B : Type}
      (h : Free.handler E S) (p : Free.prog E A) (f : A -> Free.prog E B) :
  forall s : S,
    Free.run h (Free.bind p f) s
    = (Free.response_of
         (Free.run h (f (Free.response_of (Free.run h p s)))
                   (Free.store_of (Free.run h p s))),
       Free.store_of
         (Free.run h (f (Free.response_of (Free.run h p s)))
                   (Free.store_of (Free.run h p s))),
       Free.trace_of (Free.run h p s)
       ++ Free.trace_of
            (Free.run h (f (Free.response_of (Free.run h p s)))
                      (Free.store_of (Free.run h p s)))).
Proof.
  induction p as [a|R c k IH]; intros s.
  - cbn [Free.bind]. rewrite Free_run_Done.
    cbn [Free.response_of Free.store_of Free.trace_of fst snd app].
    destruct (Free.run h (f a) s) as [[b s'] t]. reflexivity.
  - change (Free.bind (Free.Do c k) f)
      with (Free.Do c (fun r => Free.bind (k r) f)).
    rewrite (Free_run_Do h c k),
      (Free_run_Do h c (fun r => Free.bind (k r) f)).
    cbv beta. rewrite IH.
    cbn [Free.response_of Free.store_of Free.trace_of fst snd app].
    reflexivity.
Qed.

Lemma Free_do_then_done {E : Type -> Type} {S A R : Type}
      (h : Free.handler E S) (c : E R) (k : R -> Free.prog E A) (s : S) :
  (forall r, exists a, k r = Free.Done a) ->
  Free.run h (Free.Do c k) s
  = (Free.response_of (Free.run h (k (fst (h _ c s))) (snd (h _ c s))),
     snd (h _ c s), [Free.Did c]).
Proof.
  intros Hk. rewrite Free_run_Do.
  destruct (Hk (fst (h _ c s))) as [a ->]. reflexivity.
Qed.

(** X14. Each delete issues exactly the drop of what the recorded state
    names, leaves the state of the response alone, and reports the
    store's failure, when there is one, as its one error; with no failure
    it reports nothing. *)
Theorem Delete_surfaces_store_failure :
  forall (Raw Cursor S : Type)
         (h : Free.handler (Admin.call Raw Cursor) S) (s : S),
    (forall state : Database.ResourceModel,
        let c := Admin.DropDatabase (ValueString (Database.Name state)) in
        Free.run h (Admin.DatabaseDelete state (newResponse (Some state))) s
        = (mkResponse
             match fst (h _ c s) with
             | Some err => [ErrorDiagnostic "failed to drop database" err]
             | None => []
             end (Some state),
           snd (h _ c s), [Free.Did c]))
    /\ (forall state : Collection.ResourceModel,
           let c :=
             Admin.DropCollection (ValueString (Collection.Database state))
                                  (ValueString (Collection.Name state)) in
           Free.run h (Admin.CollectionDelete state
                         (newResponse (Some state))) s
           = (mkResponse
                match fst (h _ c s) with
                | Some err => [ErrorDiagnostic "drop collection failed" err]
                | None => []
                end (Some state),
              snd (h _ c s), [Free.Did c]))
    /\ (forall state : Index.ResourceModel,
           let c :=
             Admin.DropOne (ValueString (Index.Database state))
                           (ValueString (Index.Collection state))
                           (ValueString (Index.Name state)) in
           Free.run h (Admin.IndexDelete state (newResponse (Some state))) s
           = (mkResponse
                match fst (h _ c s) with
                | Err err => [ErrorDiagnostic "drop index failed" err]
                | Ok _ => []
                end (Some state),
              snd (h _ c s), [Free.Did c])).
Proof.
  intros Raw Cursor S h s. split; [|split]; intros state c.
  - unfold Admin.DatabaseDelete, newResponse.
    cbn [HasError Diagnostics_ existsb]. fold c. rewrite Free_run_Do.
    unfold error in *.
    destruct (h _ c s) as [[err|] s1]; reflexivity.
  - unfold Admin.CollectionDelete, newResponse.
    cbn [HasError Diagnostics_ existsb]. fold c. rewrite Free_run_Do.
    unfold error in *.
    destruct (h _ c s) as [[err|] s1]; reflexivity.
  - unfold Admin.IndexDelete, newResponse.
    cbn [HasError Diagnostics_ existsb]. fold c. rewrite Free_run_Do.
    unfold error in *.
    destruct (h _ c s) as [[raw|err] s1]; reflexivity.
Qed.

(** X15. The creation of a collection ends in one of three ways: the
    validator text is not empty and does not parse, then no call is made
    and "invalid validator JSON" is the one error; the one create call
    fails, then "create collection failed" is the one error; or the call
    succeeds and the plan is recorded under the identity database/name.
    In the call, the validator is present exactly when its text is not
    empty, wrapped under "$jsonSchema"; the time-series options are
    present exactly when the plan has a time-series block, and without
    that block no expiry is sent. *)
Theorem CollectionTS_Create_outcome :
  forall (Raw Cursor : Type) (L : Lib Raw) (S : Type)
         (h : Free.handler (Admin.call Raw Cursor) S) (s : S)
         (plan : CollectionTS.ResourceModel),
    let db := ValueString (CollectionTS.Database plan) in
    let name := ValueString (CollectionTS.Name plan) in
    let text := ValueString (CollectionTS.Validator plan) in
    let r := Free.run h (CollectionTS.Create plan (newResponse None)) s in
    (exists err,
        text <> "" /\ UnmarshalExtJSON text = Err err
        /\ r = (mkResponse [ErrorDiagnostic "invalid validator JSON" err]
                           None, s, []))
    \/ (exists opts,
           Free.trace_of r = [Free.Did (Admin.CreateCollection db name opts)]
           /\ (Admin.cc_Validator opts = None <-> text = "")
           /\ (forall v, Admin.cc_Validator opts = Some v ->
                         exists raw,
                           UnmarshalExtJSON text = Ok raw
                           /\ v = VDocument [("$jsonSchema", VRaw raw)])
           /\ (Admin.cc_TimeSeriesOptions opts = None
               <-> CollectionTS.TimeSeries plan = None)
           /\ (CollectionTS.TimeSeries plan = None ->
               Admin.cc_ExpireAfterSeconds opts = None)
           /\ Free.response_of r
              = match fst (h _ (Admin.CreateCollection db name opts) s) with
                | Some err =>
                    mkResponse
                      [ErrorDiagnostic "create collection failed" err] None
                | None =>
                    mkResponse []
                      (Some (CollectionTS.mkResourceModel
                               (StringValue (Collection.identity db name))
                               (CollectionTS.Database plan)
                               (CollectionTS.Name plan)
                               (CollectionTS.Validator plan)
                               (CollectionTS.ValidationLevel plan)
                               (CollectionTS.ValidationAction plan)
                               (CollectionTS.TimeSeries plan)))
                end).
Proof.
  intros Raw Cursor L S h s plan db name text r. subst r.
  assert (Hdone : forall opts,
             Free.run h
               (Free.Do (Admin.CreateCollection db name opts)
                  (fun err : option error =>
                     match err with
                     | Some err =>
                         Free.Done
                           (AddError "create collection failed" err
                                     (mkResponse [] None))
                     | None =>
                         Free.Done
                           (Set_ (CollectionTS.mkResourceModel
                                    (StringValue
                                       (Collection.identity db name))
                                    (CollectionTS.Database plan)
                                    (CollectionTS.Name plan)
                                    (CollectionTS.Validator plan)
                                    (CollectionTS.ValidationLevel plan)
                                    (CollectionTS.ValidationAction plan)
                                    (CollectionTS.TimeSeries plan))
                                 (mkResponse [] None))
                     end)) s
             = (match fst (h _ (Admin.CreateCollection db name opts) s) with
                | Some err =>
                    mkResponse
                      [ErrorDiagnostic "create collection failed" err] None
                | None =>
                    mkResponse []
                      (Some (CollectionTS.mkResourceModel
                               (StringValue (Collection.identity db name))
                               (CollectionTS.Database plan)
                               (CollectionTS.Name plan)
                               (CollectionTS.Validator plan)
                               (CollectionTS.ValidationLevel plan)
                               (CollectionTS.ValidationAction plan)
                               (CollectionTS.TimeSeries plan)))
                end,
                snd (h _ (Admin.CreateCollection db name opts) s),
                [Free.Did (Admin.CreateCollection db name opts)])).
  { intros opts. rewrite Free_run_Do. unfold error in *.
    match goal with
    | |- context [snd ?x] => destruct x as [[err|] s1]
    end; reflexivity. }
  unfold CollectionTS.Create, newResponse.
  cbn [HasError Diagnostics_ existsb]. fold db. fold name. fold text.
  destruct (String.eqb text "") eqn:Htext; cbn [negb].
  - apply String.eqb_eq in Htext. right.
    destruct (CollectionTS.TimeSeries plan) as [ts|] eqn:Hts.
    + destruct (CollectionTS.timeSeriesOptions ts) as [tsopts expire].
      rewrite Hdone. eexists.
      cbn [Free.response_of Free.trace_of fst snd].
      split; [reflexivity|]. cbn [Admin.cc_Validator
        Admin.cc_TimeSeriesOptions Admin.cc_ExpireAfterSeconds].
      split; [tauto|]. split; [discriminate|].
      split; [split; discriminate|]. split; [discriminate|reflexivity].
    + rewrite Hdone. eexists.
      cbn [Free.response_of Free.trace_of fst snd].
      split; [reflexivity|]. cbn [Admin.cc_Validator
        Admin.cc_TimeSeriesOptions Admin.cc_ExpireAfterSeconds].
      split; [tauto|]. split; [discriminate|].
      split; [tauto|]. split; reflexivity.
  - apply String.eqb_neq in Htext.
    destruct (UnmarshalExtJSON text) as [raw|err] eqn:HU.
    + right.
      destruct (CollectionTS.TimeSeries plan) as [ts|] eqn:Hts.
      * destruct (CollectionTS.timeSeriesOptions ts) as [tsopts expire].
        rewrite Hdone. eexists.
        cbn [Free.response_of Free.trace_of fst snd].
        split; [reflexivity|]. cbn [Admin.cc_Validator
          Admin.cc_TimeSeriesOptions Admin.cc_ExpireAfterSeconds].
        split; [split; [discriminate|congruence]|].
        split; [intros v Hv; injection Hv as <-; now exists raw|].
        split; [split; discriminate|]. split; [discriminate|reflexivity].
      * rewrite Hdone. eexists.
        cbn [Free.response_of Free.trace_of fst snd].
        split; [reflexivity|]. cbn [Admin.cc_Validator
          Admin.cc_TimeSeriesOptions Admin.cc_ExpireAfterSeconds].
        split; [split; [discriminate|congruence]|].
        split; [intros v Hv; injection Hv as <-; now exists raw|].
        split; [tauto|]. split; reflexivity.
    + left. exists err. split; [exact Htext|]. split; reflexivity.
Qed.

Lemma wrapInt64_id (z : Z) :
  (Admin.wrapInt64 z = z <-> - 2 ^ 63 <= z < 2 ^ 63)%Z.
Proof.
  unfold Admin.wrapInt64. split.
  - intros H.
    assert (0 <= (z + 2 ^ 63) mod 2 ^ 64 < 2 ^ 64)%Z
      by (apply Z.mod_pos_bound; lia).
    lia.
  - intros H. rewrite Z.mod_small by lia. lia.
Qed.

(** X16. A bucket span given in seconds is sent as that many seconds,
    in nanoseconds, exactly when the seconds lie between -9223372036 and
    9223372036; beyond, the product wraps around in int64 and another
    span is sent. *)
Theorem bucket_span_exact_range :
  forall (ts : CollectionTS.TimeSeriesModel) (n : Z),
    CollectionTS.BucketMaxSpanSeconds ts = Int64Value n ->
    (Admin.ts_BucketMaxSpan (fst (CollectionTS.timeSeriesOptions ts))
     = Some (n * 1000000000)%Z
     <-> (-9223372036 <= n <= 9223372036)%Z).
Proof.
  intros ts n Hn. unfold CollectionTS.timeSeriesOptions.
  cbn [fst Admin.ts_BucketMaxSpan]. rewrite Hn.
  cbn [Admin.knownInt64 ValueInt64]. unfold Admin.seconds.
  split.
  - intros H. injection H as H. apply wrapInt64_id in H. lia.
  - intros H. f_equal. apply wrapInt64_id. lia.
Qed.

Lemma bucket_span_exact_range_witness :
  let ts := CollectionTS.mkTimeSeriesModel
              (StringValue "ts") StringNull StringNull
              (Int64Value 9223372037) Int64Null Int64Null in
  CollectionTS.BucketMaxSpanSeconds ts = Int64Value 9223372037
  /\ Admin.ts_BucketMaxSpan (fst (CollectionTS.timeSeriesOptions ts))
     <> Some (9223372037 * 1000000000)%Z
  /\ Admin.ts_BucketMaxSpan (fst (CollectionTS.timeSeriesOptions ts))
     = Some (-9223372036709551616)%Z.
Proof.
  intros ts. split; [reflexivity|]. split; [|reflexivity].
  intros H.
  apply (bucket_span_exact_range ts (n := 9223372037) eq_refl) in H.
  destruct H as [_ H]. apply Z.leb_le in H. discriminate H.
Defined.

(** X17. [Find] returns the first entry that is not nil and carries the
    name, and nothing exactly when no entry does: a result is preceded
    only by nil entries and entries of other names. *)
Theorem ExIndexSpecifications_Find_first :
  forall (Raw : Type) (eis : Admin.ExIndexSpecifications Raw)
         (name : string),
    (Admin.Find eis name = None
     <-> forall spec, In (Some spec) eis -> Admin.ex_Name spec <> name)
    /\ (forall spec,
           Admin.Find eis name = Some spec ->
           Admin.ex_Name spec = name
           /\ exists before after,
               eis = before ++ Some spec :: after
               /\ forall other, In (Some other) before ->
                                Admin.ex_Name other <> name).
Proof.
  intros Raw eis name. induction eis as [|i eis [IHnone IHsome]].
  - split.
    + split; [intros _ spec []|reflexivity].
    + intros spec H. discriminate H.
  - cbn [Admin.Find]. destruct i as [spec0|].
    + destruct (String.eqb (Admin.ex_Name spec0) name) eqn:Hn.
      * apply String.eqb_eq in Hn. split.
        -- split; [discriminate|]. intros H. exfalso.
           apply (H spec0); [now left|exact Hn].
        -- intros spec H. injection H as <-. split; [exact Hn|].
           exists [], eis. split; [reflexivity|]. intros other [].
      * apply String.eqb_neq in Hn. split.
        -- rewrite IHnone. split.
           ++ intros H spec [Heq|Hin]; [injection Heq as <-; exact Hn|].
              now apply H.
           ++ intros H spec Hin. apply H. now right.
        -- intros spec H. destruct (IHsome spec H)
             as (Hname & before & after & -> & Hbefore).
           split; [exact Hname|].
           exists (Some spec0 :: before), after. split; [reflexivity|].
           intros other [Heq|Hin]; [injection Heq as <-; exact Hn|].
           now apply Hbefore.
    + split.
      * rewrite IHnone. split.
        -- intros H spec [Heq|Hin]; [discriminate Heq|]. now apply H.
        -- intros H spec Hin. apply H. now right.
      * intros spec H. destruct (IHsome spec H)
          as (Hname & before & after & -> & Hbefore).
        split; [exact Hname|].
        exists (None :: before), after. split; [reflexivity|].
        intros other [Heq|Hin]; [discriminate Heq|]. now apply Hbefore.
Qed.

Lemma ListExSpecifications_run {Raw Cursor S}
      (h : Free.handler (Admin.call Raw Cursor) S) (s : S)
      (db coll : string) :
  Free.run h (Admin.ListExSpecifications db coll) s
  = match fst (h _ (Admin.ListIndexes db coll) s) with
    | Err err =>
        (Err err, snd (h _ (Admin.ListIndexes db coll) s),
         [Free.Did (Admin.ListIndexes db coll)])
    | Ok cursor =>
        (match fst (h _ (Admin.CursorAll cursor)
                      (snd (h _ (Admin.ListIndexes db coll) s))) with
         | Err err => Err err
         | Ok results => Ok results
         end,
         snd (h _ (Admin.CursorAll cursor)
                (snd (h _ (Admin.ListIndexes db coll) s))),
         [Free.Did (Admin.ListIndexes db coll);
          Free.Did (Admin.CursorAll cursor)])
    end.
Proof.
  unfold Admin.ListExSpecifications. rewrite Free_run_Do.
  unfold error in *.
  destruct (h _ (Admin.ListIndexes db coll) s) as [[cursor|err] s1];
    cbn [fst snd]; [|reflexivity].
  rewrite Free_run_Do.
  destruct (h _ (Admin.CursorAll cursor) s1) as [[results|err] s2];
    reflexivity.
Qed.

Lemma IndexDataSource_Read_run {Raw Cursor} {L : Lib Raw} {S}
      (h : Free.handler (Admin.call Raw Cursor) S) (s : S)
      (plan : IndexDataSource.DataSourceModel) :
  let db := ValueString (IndexDataSource.Database plan) in
  let coll := ValueString (IndexDataSource.Collection plan) in
  let name := ValueString (IndexDataSource.Name plan) in
  let fresh := newResponse (M := IndexDataSource.DataSourceModel) None in
  let found (index : Admin.ExIndexSpecification Raw) :=
    match Admin.ex_PartialFilterExpression index with
    | Some filter =>
        match MarshalExtJSON filter with
        | Err err =>
            AddError "Failed to marshal partial filter expression" err fresh
        | Ok extJSON =>
            match Unmarshal (Admin.ex_KeysDocument index) with
            | Err err => AddError "Failed to decode index keys" err fresh
            | Ok keysDoc =>
                Set_ (IndexDataSource.mkDataSourceModel
                        (StringValue (Index.identity db coll name))
                        (IndexDataSource.Database plan)
                        (IndexDataSource.Collection plan)
                        (IndexDataSource.Name plan)
                        (BoolPointerValue (Admin.ex_Unique index))
                        (BoolPointerValue (Admin.ex_Sparse index))
                        (Int32PointerValue
                           (Admin.ex_ExpireAfterSeconds index))
                        (StringValue extJSON)
                        (snd (Index.decodeKeyOrder keysDoc fresh)))
                     (fst (Index.decodeKeyOrder keysDoc fresh))
            end
        end
    | None =>
        match Unmarshal (Admin.ex_KeysDocument index) with
        | Err err => AddError "Failed to decode index keys" err fresh
        | Ok keysDoc =>
            Set_ (IndexDataSource.mkDataSourceModel
                    (StringValue (Index.identity db coll name))
                    (IndexDataSource.Database plan)
                    (IndexDataSource.Collection plan)
                    (IndexDataSource.Name plan)
                    (BoolPointerValue (Admin.ex_Unique index))
                    (BoolPointerValue (Admin.ex_Sparse index))
                    (Int32PointerValue (Admin.ex_ExpireAfterSeconds index))
                    (IndexDataSource.Partial plan)
                    (snd (Index.decodeKeyOrder keysDoc fresh)))
                 (fst (Index.decodeKeyOrder keysDoc fresh))
        end
    end in
  Free.run h (IndexDataSource.Read plan fresh) s
  = match fst (h _ (Admin.ListIndexes db coll) s) with
    | Err err =>
        (AddError "Failed to list index specifications" err fresh,
         snd (h _ (Admin.ListIndexes db coll) s),
         [Free.Did (Admin.ListIndexes db coll)])
    | Ok cursor =>
        (match fst (h _ (Admin.CursorAll cursor)
                      (snd (h _ (Admin.ListIndexes db coll) s))) with
         | Err err =>
             AddError "Failed to list index specifications" err fresh
         | Ok indexes =>
             match Admin.Find indexes name with
             | None => AddError "Index not found" "" fresh
             | Some index => found index
             end
         end,
         snd (h _ (Admin.CursorAll cursor)
                (snd (h _ (Admin.ListIndexes db coll) s))),
         [Free.Did (Admin.ListIndexes db coll);
          Free.Did (Admin.CursorAll cursor)])
    end.
Proof.
  intros db coll name fresh found.
  unfold IndexDataSource.Read. unfold fresh at 1, newResponse at 1.
  cbn [HasError Diagnostics_ existsb]. fold db. fold coll. fold name.
  rewrite Free_run_bind, ListExSpecifications_run. unfold error in *.
  destruct (h _ (Admin.ListIndexes db coll) s) as [[cursor|err] s1];
    cbn [fst snd Free.response_of Free.store_of Free.trace_of];
    [|reflexivity].
  destruct (h _ (Admin.CursorAll cursor) s1) as [[indexes|err] s2];
    cbn [fst snd]; [|reflexivity].
  destruct (Admin.Find indexes name) as [index|]; [|reflexivity].
  subst found. cbv beta.
  destruct (Admin.ex_PartialFilterExpression index) as [filter|].
  - destruct (MarshalExtJSON filter) as [extJSON|err]; [|reflexivity].
    destruct (Unmarshal (Admin.ex_KeysDocument index)) as [keysDoc|err];
      [|reflexivity].
    destruct (Index.decodeKeyOrder keysDoc fresh) as [resp' keys].
    reflexivity.
  - destruct (Unmarshal (Admin.ex_KeysDocument index)) as [keysDoc|err];
      [|reflexivity].
    destruct (Index.decodeKeyOrder keysDoc fresh) as [resp' keys].
    reflexivity.
Qed.

(** X18. The current data-source read of an index reads the cursor only
    when the listing gave one, and records a state only when both
    succeeded, [Find] gave a specification, its partial filter (if any)
    printed and its keys document decoded; the state then holds sparse,
    unique and the expiry of that specification, the printed filter (the
    configured value when the specification has none) and the decoded
    keys.  In every other run nothing is recorded and one error is
    reported. *)
Theorem IndexDataSource_Read_outcome :
  forall (Raw Cursor : Type) (L : Lib Raw) (S : Type)
         (h : Free.handler (Admin.call Raw Cursor) S) (s : S)
         (plan : IndexDataSource.DataSourceModel),
    let db := ValueString (IndexDataSource.Database plan) in
    let coll := ValueString (IndexDataSource.Collection plan) in
    let name := ValueString (IndexDataSource.Name plan) in
    let fresh := newResponse (M := IndexDataSource.DataSourceModel) None in
    let r := Free.run h (IndexDataSource.Read plan fresh) s in
    (exists summary detail,
        Free.response_of r = mkResponse [ErrorDiagnostic summary detail] None
        /\ (Free.trace_of r = [Free.Did (Admin.ListIndexes db coll)]
            \/ exists cursor,
                Free.trace_of r = [Free.Did (Admin.ListIndexes db coll);
                                   Free.Did (Admin.CursorAll cursor)]))
    \/ (exists cursor indexes index partial keysDoc,
           Free.trace_of r = [Free.Did (Admin.ListIndexes db coll);
                              Free.Did (Admin.CursorAll cursor)]
           /\ fst (h _ (Admin.ListIndexes db coll) s) = Ok cursor
           /\ fst (h _ (Admin.CursorAll cursor)
                     (snd (h _ (Admin.ListIndexes db coll) s)))
              = Ok indexes
           /\ Admin.Find indexes name = Some index
           /\ match Admin.ex_PartialFilterExpression index with
              | Some filter =>
                  exists extJSON, MarshalExtJSON filter = Ok extJSON
                                  /\ partial = StringValue extJSON
              | None => partial = IndexDataSource.Partial plan
              end
           /\ Unmarshal (Admin.ex_KeysDocument index) = Ok keysDoc
           /\ HasError (Diagnostics_ (Free.response_of r)) = false
           /\ State (Free.response_of r)
              = Some (IndexDataSource.mkDataSourceModel
                        (StringValue (Index.identity db coll name))
                        (IndexDataSource.Database plan)
                        (IndexDataSource.Collection plan)
                        (IndexDataSource.Name plan)
                        (BoolPointerValue (Admin.ex_Unique index))
                        (BoolPointerValue (Admin.ex_Sparse index))
                        (Int32PointerValue
                           (Admin.ex_ExpireAfterSeconds index))
                        partial
                        (snd (Index.decodeKeyOrder keysDoc fresh)))).
Proof.
  intros Raw Cursor L S h s plan db coll name fresh r. subst r.
  rewrite IndexDataSource_Read_run. fold db. fold coll. fold name.
  fold fresh. unfold error in *.
  destruct (h _ (Admin.ListIndexes db coll) s) as [[cursor|err] s1];
    cbn [fst snd Free.response_of Free.store_of Free.trace_of].
  - destruct (h _ (Admin.CursorAll cursor) s1) as [[indexes|err] s2]
      eqn:Hall; cbn [fst snd].
    + destruct (Admin.Find indexes name) as [index|] eqn:Hfind.
      * destruct (Admin.ex_PartialFilterExpression index) as [filter|]
          eqn:Hpf.
        -- destruct (MarshalExtJSON filter) as [extJSON|err] eqn:Hm.
           ++ destruct (Unmarshal (Admin.ex_KeysDocument index))
                as [keysDoc|err] eqn:Hk.
              ** right. exists cursor, indexes, index,
                   (StringValue extJSON), keysDoc.
                 destruct (decode_loop keysDoc fresh [])
                   as (_ & _ & He & _).
                 split; [reflexivity|]. split; [reflexivity|].
                 split; [exact (f_equal fst Hall)|]. split; [exact Hfind|].
                 split; [rewrite Hpf; now exists extJSON|].
                 split; [exact Hk|].
                 split; [exact He|reflexivity].
              ** left. do 2 eexists.
                 split; [reflexivity|]. right. now exists cursor.
           ++ left. do 2 eexists.
              split; [reflexivity|]. right. now exists cursor.
        -- destruct (Unmarshal (Admin.ex_KeysDocument index))
             as [keysDoc|err] eqn:Hk.
           ++ right. exists cursor, indexes, index,
                (IndexDataSource.Partial plan), keysDoc.
              destruct (decode_loop keysDoc fresh []) as (_ & _ & He & _).
              split; [reflexivity|]. split; [reflexivity|].
              split; [exact (f_equal fst Hall)|]. split; [exact Hfind|].
              split; [now rewrite Hpf|]. split; [exact Hk|].
              split; [exact He|reflexivity].
           ++ left. do 2 eexists.
              split; [reflexivity|]. right. now exists cursor.
      * left. do 2 eexists.
        split; [reflexivity|]. right. now exists cursor.
    + left. do 2 eexists.
      split; [reflexivity|]. right. now exists cursor.
  - left. do 2 eexists. split; [reflexivity|]. left. reflexivity.
Qed.

(** ** The configuration of the provider *)


(** The run with a failing ping, on the substitute deployment. *)
Example Provider_Configure_failed_ping :
  Free.run (Fixture2.deployment (Some "no primary"))
           (Provider.Configure
              (Provider.mkProviderModel
                 (StringValue "mongodb+srv://cluster0.x.mongodb.net")
                 (StringValue "admin") (StringValue "secret"))
              (Provider.mkConfigureResponse [] None None)) 0
  = (Provider.mkConfigureResponse
       [ErrorDiagnostic "Mongo ping failed" "no primary"] None None,
     3,
     [Free.Did (Provider.Connect
                  (Provider.mkClientOptions
                     "mongodb+srv://cluster0.x.mongodb.net"
                     (Some (Provider.mkCredential "admin" "secret"))
                     (Some 10000000000%Z) (Some 10000000000%Z)));
      Free.Did (Provider.Ping 1);
      Free.Did (Provider.Disconnect 1)]).
Proof. reflexivity. Qed.

(** ** The two revisions of the collection read *)

(** X20. The current collection read (with the time-series block) and
    the earlier one issue the same call and report the same diagnostics,
    and they record a state in the same runs, with the same identity,
    database, name and validator; level and action agree whenever the
    earlier read finds one in the options (it records null otherwise,
    where the current read keeps the recorded value). *)
Theorem CollectionTS_Read_extends_Read :
  forall (Raw : Type) (L : Lib Raw) (N : CollectionTS.NumberLookup Raw)
         (S : Type) (h : handler Raw S) (s : S)
         (state : CollectionTS.ResourceModel),
    let earlier :=
      Collection.mkResourceModel
        (CollectionTS.ID state) (CollectionTS.Database state)
        (CollectionTS.Name state) (CollectionTS.Validator state)
        (CollectionTS.ValidationLevel state)
        (CollectionTS.ValidationAction state) in
    let r2 := run h (CollectionTS.Read state (newResponse None)) s in
    let r1 := run h (Collection.Read earlier (newResponse None)) s in
    trace_of r2 = trace_of r1
    /\ store_of r2 = store_of r1
    /\ Diagnostics_ (response_of r2) = Diagnostics_ (response_of r1)
    /\ option_map CollectionTS.ID (State (response_of r2))
       = option_map Collection.ID (State (response_of r1))
    /\ option_map CollectionTS.Database (State (response_of r2))
       = option_map Collection.Database (State (response_of r1))
    /\ option_map CollectionTS.Name (State (response_of r2))
       = option_map Collection.Name (State (response_of r1))
    /\ option_map CollectionTS.Validator (State (response_of r2))
       = option_map Collection.Validator (State (response_of r1))
    /\ (forall st2 st1,
           State (response_of r2) = Some st2 ->
           State (response_of r1) = Some st1 ->
           (Collection.ValidationLevel st1 <> StringNull ->
            CollectionTS.ValidationLevel st2 = Collection.ValidationLevel st1)
           /\ (Collection.ValidationAction st1 <> StringNull ->
               CollectionTS.ValidationAction st2
               = Collection.ValidationAction st1)).
Proof.
  intros Raw L N S h s state earlier r2 r1. subst r2 r1 earlier.
  unfold CollectionTS.Read, Collection.Read, newResponse.
  cbn [HasError Diagnostics_ existsb Collection.Database Collection.Name].
  rewrite !run_Call. cbn [response_of store_of trace_of fst snd].
  match goal with
  | |- context [run h _ (snd ?x)] =>
      destruct x as [[collections|err] s1]
  end; cbn [fst snd].
  - destruct collections as [|c [|c' rest]].
    + rewrite !run_Ret. cbn.
      do 7 (split; [reflexivity|]). intros st2 st1 H. discriminate H.
    + unfold Collection.readOptions.
      destruct (coll_Options c) as [options|].
      * destruct (Lookup options "validator") as [doc|v|];
          [destruct (MarshalExtJSON doc) as [json|e]| |];
          destruct (Lookup options "validationLevel") as [d1|vl|];
          destruct (Lookup options "validationAction") as [d2|va|];
          rewrite !run_Ret; cbn;
          do 7 (split; [reflexivity|]);
          intros st2 st1 H2 H1; injection H2 as <-; injection H1 as <-;
          cbn; split; intros H; try reflexivity; now elim H.
      * rewrite !run_Ret. cbn.
        do 7 (split; [reflexivity|]).
        intros st2 st1 H2 H1. injection H2 as <-. injection H1 as <-.
        cbn. split; reflexivity.
    + rewrite !run_Ret. cbn.
      do 7 (split; [reflexivity|]). intros st2 st1 H. discriminate H.
  - rewrite !run_Ret. cbn.
    do 7 (split; [reflexivity|]). intros st2 st1 H. discriminate H.
Qed.

(** ** Runs on the substitute store *)

Example CollectionTS_Create_time_series :
  let plan :=
    CollectionTS.mkResourceModel
      StringUnknown (StringValue "app") (StringValue "metrics")
      StringNull (StringValue "strict") (StringValue "error")
      (Some (CollectionTS.mkTimeSeriesModel
               (StringValue "ts") (StringValue "host") StringNull
               (Int64Value 3600) Int64Null (Int64Value 86400))) in
  Free.run (Fixture2.admin None [])
           (CollectionTS.Create (Cursor := unit) plan (newResponse None)) 0
  = (mkResponse []
       (Some (CollectionTS.mkResourceModel
                (StringValue "app/metrics") (StringValue "app")
                (StringValue "metrics") StringNull (StringValue "strict")
                (StringValue "error") (CollectionTS.TimeSeries plan))),
     1,
     [Free.Did
        (Admin.CreateCollection "app" "metrics"
           (Admin.mkCreateCollectionOptions
              None (Some "strict") (Some "error") (Some 86400%Z)
              (Some (Admin.mkTimeSeriesOptions
                       "ts" (Some "host") None (Some 3600000000000%Z)
                       None))))]).
Proof. reflexivity. Qed.

Example IndexDelete_failure :
  let state :=
    Index.mkResourceModel
      (StringValue "app/users/users_email") (StringValue "app")
      (StringValue "users") (StringValue "users_email")
      BoolNull BoolNull Int32Null StringNull BoolNull [] in
  Free.run (Fixture2.admin (Some "index not found") [])
           (Admin.IndexDelete (Cursor := unit) state
                              (newResponse (Some state))) 0
  = (mkResponse [ErrorDiagnostic "drop index failed" "index not found"]
                (Some state),
     1, [Free.Did (Admin.DropOne "app" "users" "users_email")]).
Proof. reflexivity. Qed.
